(** * Unity Weather Monitor: a shallow embedding of [unity_weather_monitor.py]

    The development follows the class [UnityWeatherMonitor]:

    - Python values as they come out of [response.json()], with the
      exceptions the operations used by the program raise on them;
    - binary64 floats through the Standard Library's [SpecFloat]
      (round to nearest, ties to even), the [.1f] format and the
      calendar functions of [datetime];
    - the object's attributes as one record, the GTK menu as a list of
      widget identities over a store of widgets;
    - the methods, in a state monad whose state survives an exception
      (an assignment done before a [raise] stays done).

    Strings are byte strings holding UTF-8, as the source file does. *)

From Stdlib Require Import ZArith String Ascii List Bool Lia DecimalString.
From Stdlib Require Import Floats.SpecFloat.
From stdpp Require Import gmap strings.
Import ListNotations.

Set Warnings "-register-all".
Open Scope string_scope.
Open Scope list_scope.
Open Scope Z_scope.

(** ** Binary64 floats *)

Module Float.

Definition prec : Z := 53.
Definition emax : Z := 1024.

Definition t := spec_float.

Definition mul : t -> t -> t := SFmul prec emax.
Definition add : t -> t -> t := SFadd prec emax.
Definition div : t -> t -> t := SFdiv prec emax.

  (** The correctly rounded quotient [n / d] of two integers: what
      [int / int], [float(int)] and the parsing of a decimal literal
      give in CPython.  The quotient is cut to at least [prec + 2] bits
      and one sticky bit, which [binary_normalize] then rounds. *)
Definition of_ratio (n : Z) (d : positive) : t :=
    if n =? 0 then S754_zero false
    else
      let a := Z.abs n in
      let k := Z.max 0 (prec + 3 + Z.log2 (Zpos d) - Z.log2 a) in
      let q := (a * 2 ^ k) / Zpos d in
      let r := (a * 2 ^ k) mod Zpos d in
      let m := 2 * q + (if r =? 0 then 0 else 1) in
      binary_normalize prec emax (if n <? 0 then - m else m) (- k - 1) false.

Definition of_Z (z : Z) : t := of_ratio z 1.

Definition is_finite (f : t) : bool :=
    match f with
    | S754_zero _ | S754_finite _ _ _ => true
    | _ => false
    end.

  (** [Some z] when the float is the integer [z]: the case in which a
      float key finds an [int] key of a dict. *)
Definition to_integer (f : t) : option Z :=
    match f with
    | S754_zero _ => Some 0
    | S754_finite s m e =>
        let sg (z : Z) := if s then - z else z in
        if 0 <=? e then Some (sg (Zpos m * 2 ^ e))
        else if (Zpos m) mod (2 ^ (- e)) =? 0
             then Some (sg (Zpos m / 2 ^ (- e)))
             else None
    | _ => None
    end.

Definition is_zero (f : t) : bool :=
    match f with S754_zero _ => true | _ => false end.

  (** The integer nearest to [m * 2^e * 10], ties to the even one. *)
Definition tenths (m : positive) (e : Z) : Z :=
    if 0 <=? e then Zpos m * 2 ^ e * 10
    else
      let den := 2 ^ (- e) in
      let q := (Zpos m * 10) / den in
      let r := (Zpos m * 10) mod den in
      match Z.compare (2 * r) den with
      | Lt => q
      | Gt => q + 1
      | Eq => if Z.even q then q else q + 1
      end.

Definition string_of_Z (z : Z) : string :=
    NilZero.string_of_uint (N.to_uint (Z.to_N z)).

  (** [format(f, ".1f")] *)
Definition format_1f (f : t) : string :=
    match f with
    | S754_nan => "nan"
    | S754_infinity s => if s then "-inf" else "inf"
    | S754_zero s => if s then "-0.0" else "0.0"
    | S754_finite s m e =>
        let n := tenths m e in
        (if s then "-" else EmptyString) +:+
        string_of_Z (n / 10) +:+ "." +:+ string_of_Z (n mod 10)
    end.

End Float.

(** ** Python values and exceptions *)

Inductive exn : Type :=
| KeyError
| IndexError
| TypeError
| ValueError
| AttributeError
| OverflowError
| RequestException.

Inductive result (A : Type) : Type :=
| Ok (a : A)
| Raise (e : exn).
Arguments Ok {A} a.
Arguments Raise {A} e.

Definition rbind {A B} (r : result A) (k : A -> result B) : result B :=
  match r with
  | Ok a => k a
  | Raise e => Raise e
  end.

Notation "x <-? r ; k" := (rbind r (fun x => k))
  (at level 20, r at level 100, k at level 200, only parsing).

(** A parsed JSON document.  A dict is kept as the list of its items;
    lookup takes the first item with the key. *)
Inductive pyval : Type :=
| VNone
| VBool (b : bool)
| VInt (z : Z)
| VFloat (f : Float.t)
| VStr (s : string)
| VList (l : list pyval)
| VDict (d : list (string * pyval)).

(** [bool(v)] *)
Definition truthy (v : pyval) : bool :=
  match v with
  | VNone => false
  | VBool b => b
  | VInt z => negb (z =? 0)
  | VFloat f => negb (Float.is_zero f)
  | VStr s => negb (String.eqb s EmptyString)
  | VList l => match l with [] => false | _ => true end
  | VDict d => match d with [] => false | _ => true end
  end.

Fixpoint dict_lookup (k : string) (d : list (string * pyval)) : option pyval :=
  match d with
  | [] => None
  | (k', v) :: d' => if String.eqb k k' then Some v else dict_lookup k d'
  end.

(** Code points of a UTF-8 string: the bytes that are not continuation
    bytes start one each. *)
Definition is_continuation (c : ascii) : bool :=
  let n := Z.of_nat (nat_of_ascii c) in (128 <=? n) && (n <? 192).

Fixpoint take_continuation (s : string) : string * string :=
  match s with
  | String c s' =>
      if is_continuation c
      then let '(a, b) := take_continuation s' in (String c a, b)
      else (EmptyString, s)
  | EmptyString => (EmptyString, EmptyString)
  end.

Fixpoint code_points_fuel (fuel : nat) (s : string) : list string :=
  match fuel, s with
  | S fuel', String c s' =>
      let '(a, b) := take_continuation s' in
      String c a :: code_points_fuel fuel' b
  | _, _ => []
  end.

Definition code_points (s : string) : list string :=
  code_points_fuel (String.length s) s.

(** [v[k]] for a string literal [k] *)
Definition getitem_str (v : pyval) (k : string) : result pyval :=
  match v with
  | VDict d =>
      match dict_lookup k d with
      | Some x => Ok x
      | None => Raise KeyError
      end
  | _ => Raise TypeError
  end.

(** [v[i]] for an index [i] taken from [range(len(...))] *)
Definition getitem_idx (v : pyval) (i : nat) : result pyval :=
  match v with
  | VList l =>
      match nth_error l i with
      | Some x => Ok x
      | None => Raise IndexError
      end
  | VStr s =>
      match nth_error (code_points s) i with
      | Some c => Ok (VStr c)
      | None => Raise IndexError
      end
  | VDict _ => Raise KeyError
  | _ => Raise TypeError
  end.

(** [len(v)] *)
Definition py_len (v : pyval) : result nat :=
  match v with
  | VList l => Ok (List.length l)
  | VStr s => Ok (List.length (code_points s))
  | VDict d => Ok (List.length d)
  | _ => Raise TypeError
  end.

(** ** The condition catalog *)

Definition weather_icons_items : list (Z * string) :=
    [ (0, "☀️"); (1, "🌤️"); (2, "⛅"); (3, "☁️");
      (45, "🌫️"); (48, "🌫️");
      (51, "🌧️"); (53, "🌧️"); (55, "🌧️");
      (56, "🌨️"); (57, "🌨️");
      (61, "🌦️"); (63, "🌧️"); (65, "🌧️");
      (66, "🌨️"); (67, "🌨️");
      (71, "❄️"); (73, "❄️"); (75, "❄️"); (77, "❄️");
      (80, "🌦️"); (81, "🌧️"); (82, "🌧️");
      (85, "🌨️"); (86, "🌨️");
      (95, "⛈️"); (96, "⛈️"); (99, "⛈️") ].

Definition weather_icons : gmap Z string := list_to_map weather_icons_items.

Definition weather_descriptions_items : list (Z * string) :=
    [ (0, "Clear sky"); (1, "Mainly clear"); (2, "Partly cloudy");
      (3, "Overcast");
      (45, "Fog"); (48, "Depositing rime fog");
      (51, "Light drizzle"); (53, "Moderate drizzle"); (55, "Dense drizzle");
      (56, "Light freezing drizzle"); (57, "Dense freezing drizzle");
      (61, "Slight rain"); (63, "Moderate rain"); (65, "Heavy rain");
      (66, "Light freezing rain"); (67, "Heavy freezing rain");
      (71, "Slight snow fall"); (73, "Moderate snow fall");
      (75, "Heavy snow fall"); (77, "Snow grains");
      (80, "Slight rain showers"); (81, "Moderate rain showers");
      (82, "Violent rain showers");
      (85, "Slight snow showers"); (86, "Heavy snow showers");
      (95, "Thunderstorm"); (96, "Thunderstorm with slight hail");
      (99, "Thunderstorm with heavy hail") ].

Definition weather_descriptions : gmap Z string :=
  list_to_map weather_descriptions_items.

Definition unknown_icon : string := "❓".
Definition unknown_description : string := "Unknown".

(** The key an [int]-keyed dict is searched with: [Ok (Some z)] for a
    value that hashes and compares as the integer [z], [Ok None] for a
    hashable value equal to no integer, [TypeError] for a list or a
    dict, which are unhashable. *)
Definition int_key (v : pyval) : result (option Z) :=
  match v with
  | VInt z => Ok (Some z)
  | VBool b => Ok (Some (if b then 1 else 0))
  | VFloat f => Ok (Float.to_integer f)
  | VNone | VStr _ => Ok None
  | VList _ | VDict _ => Raise TypeError
  end.

(** [d.get(key, default)] *)
Definition dict_get (d : gmap Z string) (key : pyval) (dflt : string)
  : result string :=
  k <-? int_key key ;
  Ok (match k with
      | Some z => default dflt (d !! z)
      | None => dflt
      end).

Definition get_condition_icon (condition_code : pyval) : result string :=
  dict_get weather_icons condition_code unknown_icon.

Definition get_condition_description (condition_code : pyval) : result string :=
  dict_get weather_descriptions condition_code unknown_description.

(** ** Temperatures *)

(** The value of a number used as a float: [float(v)] for an [int] or a
    [bool], with the [OverflowError] of an [int] too large. *)
Definition int_to_float (z : Z) : result Float.t :=
  let f := Float.of_Z z in
  if Float.is_finite f then Ok f else Raise OverflowError.

(** [int / int] *)
Definition int_truediv (a : Z) (b : positive) : result Float.t :=
  let f := Float.of_ratio a b in
  if Float.is_finite f then Ok f else Raise OverflowError.

Definition float_c2f (c : Float.t) : Float.t :=
  Float.add (Float.div (Float.mul c (Float.of_Z 9)) (Float.of_Z 5))
            (Float.of_Z 32).

Definition int_c2f (z : Z) : result Float.t :=
  q <-? int_truediv (z * 9) 5 ;
  Ok (Float.add q (Float.of_Z 32)).

(** [(celsius * 9/5) + 32].  On a [str] or a [list] the product is a
    repetition and the division raises; [None] and a dict fail at the
    product. *)
Definition celsius_to_fahrenheit (celsius : pyval) : result pyval :=
  match celsius with
  | VFloat c => Ok (VFloat (float_c2f c))
  | VInt z => f <-? int_c2f z ; Ok (VFloat f)
  | VBool b => f <-? int_c2f (if b then 1 else 0) ; Ok (VFloat f)
  | _ => Raise TypeError
  end.

(** [f"{v:.1f}"] *)
Definition format_temp (v : pyval) : result string :=
  match v with
  | VFloat f => Ok (Float.format_1f f)
  | VInt z => f <-? int_to_float z ; Ok (Float.format_1f f)
  | VBool b => Ok (Float.format_1f (Float.of_Z (if b then 1 else 0)))
  | VStr _ => Raise ValueError
  | _ => Raise TypeError
  end.

(** ** Calendar dates, after [datetime] *)

Record date : Type := mk_date { year : Z; month : Z; day : Z }.

Definition is_leap (y : Z) : bool :=
  (y mod 4 =? 0) && (negb (y mod 100 =? 0) || (y mod 400 =? 0)).

Definition days_before_year (y : Z) : Z :=
  let y' := y - 1 in y' * 365 + y' / 4 - y' / 100 + y' / 400.

Definition DAYS_IN_MONTH : list Z :=
  [31; 28; 31; 30; 31; 30; 31; 31; 30; 31; 30; 31].

Definition DAYS_BEFORE_MONTH : list Z :=
  [0; 31; 59; 90; 120; 151; 181; 212; 243; 273; 304; 334].

Definition days_in_month (y m : Z) : Z :=
  if (m =? 2) && is_leap y then 29
  else nth (Z.to_nat (m - 1)) DAYS_IN_MONTH 0.

Definition days_before_month (y m : Z) : Z :=
  nth (Z.to_nat (m - 1)) DAYS_BEFORE_MONTH 0
  + (if (2 <? m) && is_leap y then 1 else 0).

Definition ymd2ord (y m d : Z) : Z :=
  days_before_year y + days_before_month y m + d.

Definition toordinal (d : date) : Z := ymd2ord (year d) (month d) (day d).

(** Monday is 0, Sunday is 6. *)
Definition weekday (d : date) : Z := (toordinal d + 6) mod 7.

(** Monday is 1, Sunday is 7. *)
Definition isoweekday (d : date) : Z :=
  let r := toordinal d mod 7 in if r =? 0 then 7 else r.

Definition valid_date (y m d : Z) : bool :=
  (1 <=? y) && (y <=? 9999) && (1 <=? m) && (m <=? 12)
  && (1 <=? d) && (d <=? days_in_month y m).

Definition digit_of (c : ascii) : option Z :=
  let n := Z.of_nat (nat_of_ascii c) in
  if (48 <=? n) && (n <=? 57) then Some (n - 48) else None.

Fixpoint parse_digits_from (acc : Z) (l : list ascii) : option Z :=
  match l with
  | [] => Some acc
  | c :: l' =>
      match digit_of c with
      | Some k => parse_digits_from (acc * 10 + k) l'
      | None => None
      end
  end.

Definition parse_digits (l : list ascii) : option Z :=
  match l with
  | [] => None
  | _ => parse_digits_from 0 l
  end.

(** [datetime.fromisoformat] on the calendar dates the weather service
    sends, written [YYYY-MM-DD].  The other ISO 8601 spellings (a time
    part, week dates) are outside this model, which answers
    [ValueError] for them; a value that is not a [str] is a
    [TypeError]. *)
Definition fromisoformat (v : pyval) : result date :=
  match v with
  | VStr s =>
      match list_ascii_of_string s with
      | [y1; y2; y3; y4; "-"%char; m1; m2; "-"%char; d1; d2] =>
          match parse_digits [y1; y2; y3; y4],
                parse_digits [m1; m2], parse_digits [d1; d2] with
          | Some y, Some m, Some d =>
              if valid_date y m d then Ok (mk_date y m d)
              else Raise ValueError
          | _, _, _ => Raise ValueError
          end
      | _ => Raise ValueError
      end
  | _ => Raise TypeError
  end.

Definition day_abbr : list string :=
  ["Mon"; "Tue"; "Wed"; "Thu"; "Fri"; "Sat"; "Sun"].

Definition month_abbr : list string :=
  ["Jan"; "Feb"; "Mar"; "Apr"; "May"; "Jun";
   "Jul"; "Aug"; "Sep"; "Oct"; "Nov"; "Dec"].

Definition two_digits (n : Z) : string :=
  Float.string_of_Z (n / 10) +:+ Float.string_of_Z (n mod 10).

(** [strftime("%a, %b %d")] with the English names of the C locale. *)
Definition strftime_a_b_d (d : date) : string :=
  nth (Z.to_nat (weekday d)) day_abbr EmptyString +:+ ", " +:+
  nth (Z.to_nat (month d - 1)) month_abbr EmptyString +:+ " " +:+
  two_digits (day d).

(** ** The state: the object's attributes and the toolkit's widgets *)

(** One entry of [self.forecast]: the dict with the keys ["date"],
    ["condition"], ["max_temp"] and ["min_temp"]. *)
Record forecast_day : Type := mk_day {
  fd_date : pyval;
  fd_condition : pyval;
  fd_max_temp : pyval;
  fd_min_temp : pyval
}.

(** The attributes of [UnityWeatherMonitor] that the methods assign or
    read.  A widget attribute holds the identity of the widget. *)
Record monitor : Type := mk_monitor {
  running : bool;
  latitude : Float.t;
  longitude : Float.t;
  location_name : string;
  use_imperial : bool;
  current_temp : pyval;
  current_condition : pyval;
  forecast : list forecast_day;
  update_interval : Z;
  location_item : nat;
  current_item : nat;
  forecast_items : list nat
}.

Inductive widget_class : Type :=
| MenuItem            (* [Gtk.MenuItem] *)
| SeparatorMenuItem.  (* [Gtk.SeparatorMenuItem], a subclass of it *)

(** A menu item: its class, the text of its child label when it has
    one, and its sensitivity. *)
Record widget : Type := mk_widget {
  w_class : widget_class;
  w_label : option string;
  w_sensitive : bool
}.

(** The functions queued with [GLib.idle_add]. *)
Inductive callback : Type :=
| CbUpdateLocationItem
| CbUpdateWeatherUI.

(** What the toolkit holds: the widgets by identity, the children of
    [self.menu] in order, the indicator's label, and the idle queue. *)
Record toolkit : Type := mk_toolkit {
  widgets : gmap nat widget;
  next_widget : nat;
  menu : list nat;
  indicator_label : string;
  idle : list callback
}.

Record world : Type := mk_world { self : monitor; gtk : toolkit }.

Definition set_running (v : bool) (m : monitor) : monitor :=
  mk_monitor v (latitude m) (longitude m) (location_name m) (use_imperial m)
    (current_temp m) (current_condition m) (forecast m) (update_interval m)
    (location_item m) (current_item m) (forecast_items m).

Definition set_latitude (v : Float.t) (m : monitor) : monitor :=
  mk_monitor (running m) v (longitude m) (location_name m) (use_imperial m)
    (current_temp m) (current_condition m) (forecast m) (update_interval m)
    (location_item m) (current_item m) (forecast_items m).

Definition set_longitude (v : Float.t) (m : monitor) : monitor :=
  mk_monitor (running m) (latitude m) v (location_name m) (use_imperial m)
    (current_temp m) (current_condition m) (forecast m) (update_interval m)
    (location_item m) (current_item m) (forecast_items m).

Definition set_location_name (v : string) (m : monitor) : monitor :=
  mk_monitor (running m) (latitude m) (longitude m) v (use_imperial m)
    (current_temp m) (current_condition m) (forecast m) (update_interval m)
    (location_item m) (current_item m) (forecast_items m).

Definition set_use_imperial (v : bool) (m : monitor) : monitor :=
  mk_monitor (running m) (latitude m) (longitude m) (location_name m) v
    (current_temp m) (current_condition m) (forecast m) (update_interval m)
    (location_item m) (current_item m) (forecast_items m).

Definition set_current_temp (v : pyval) (m : monitor) : monitor :=
  mk_monitor (running m) (latitude m) (longitude m) (location_name m)
    (use_imperial m) v (current_condition m) (forecast m) (update_interval m)
    (location_item m) (current_item m) (forecast_items m).

Definition set_current_condition (v : pyval) (m : monitor) : monitor :=
  mk_monitor (running m) (latitude m) (longitude m) (location_name m)
    (use_imperial m) (current_temp m) v (forecast m) (update_interval m)
    (location_item m) (current_item m) (forecast_items m).

Definition set_forecast (v : list forecast_day) (m : monitor) : monitor :=
  mk_monitor (running m) (latitude m) (longitude m) (location_name m)
    (use_imperial m) (current_temp m) (current_condition m) v
    (update_interval m)
    (location_item m) (current_item m) (forecast_items m).

Definition set_update_interval (v : Z) (m : monitor) : monitor :=
  mk_monitor (running m) (latitude m) (longitude m) (location_name m)
    (use_imperial m) (current_temp m) (current_condition m) (forecast m) v
    (location_item m) (current_item m) (forecast_items m).

Definition set_location_item (v : nat) (m : monitor) : monitor :=
  mk_monitor (running m) (latitude m) (longitude m) (location_name m)
    (use_imperial m) (current_temp m) (current_condition m) (forecast m)
    (update_interval m) v (current_item m) (forecast_items m).

Definition set_current_item (v : nat) (m : monitor) : monitor :=
  mk_monitor (running m) (latitude m) (longitude m) (location_name m)
    (use_imperial m) (current_temp m) (current_condition m) (forecast m)
    (update_interval m) (location_item m) v (forecast_items m).

Definition set_forecast_items (v : list nat) (m : monitor) : monitor :=
  mk_monitor (running m) (latitude m) (longitude m) (location_name m)
    (use_imperial m) (current_temp m) (current_condition m) (forecast m)
    (update_interval m) (location_item m) (current_item m) v.

Definition set_widgets (v : gmap nat widget) (t : toolkit) : toolkit :=
  mk_toolkit v (next_widget t) (menu t) (indicator_label t) (idle t).

Definition set_next_widget (v : nat) (t : toolkit) : toolkit :=
  mk_toolkit (widgets t) v (menu t) (indicator_label t) (idle t).

Definition set_menu (v : list nat) (t : toolkit) : toolkit :=
  mk_toolkit (widgets t) (next_widget t) v (indicator_label t) (idle t).

Definition set_indicator_label (v : string) (t : toolkit) : toolkit :=
  mk_toolkit (widgets t) (next_widget t) (menu t) v (idle t).

Definition set_idle (v : list callback) (t : toolkit) : toolkit :=
  mk_toolkit (widgets t) (next_widget t) (menu t) (indicator_label t) v.

(** ** The monad of the methods

    A method takes the world and gives back a value or an exception,
    with the world as the method left it. *)

Definition M (A : Type) : Type := world -> result A * world.

Definition ret {A} (a : A) : M A := fun w => (Ok a, w).

Definition raise {A} (e : exn) : M A := fun w => (Raise e, w).

Definition bind {A B} (c : M A) (k : A -> M B) : M B :=
  fun w =>
    match c w with
    | (Ok a, w') => k a w'
    | (Raise e, w') => (Raise e, w')
    end.

Definition lift {A} (r : result A) : M A := fun w => (r, w).

(** [try: c  except Exception: h] *)
Definition try_except {A} (c : M A) (h : exn -> M A) : M A :=
  fun w =>
    match c w with
    | (Ok a, w') => (Ok a, w')
    | (Raise e, w') => h e w'
    end.

Definition get_self : M monitor := fun w => (Ok (self w), w).
Definition get_gtk : M toolkit := fun w => (Ok (gtk w), w).

Definition modify_self (f : monitor -> monitor) : M unit :=
  fun w => (Ok tt, mk_world (f (self w)) (gtk w)).

Definition modify_gtk (f : toolkit -> toolkit) : M unit :=
  fun w => (Ok tt, mk_world (self w) (f (gtk w))).

Notation "x <- c ; k" := (bind c (fun x => k))
  (at level 20, c at level 100, k at level 200, only parsing).
Notation "' x <- c ; k" := (bind c (fun x => k))
  (at level 20, x pattern, c at level 100, k at level 200, only parsing).

(** [for x in l: body x] *)
Fixpoint for_each {A} (l : list A) (body : A -> M unit) : M unit :=
  match l with
  | [] => ret tt
  | x :: l' => _ <- body x ; for_each l' body
  end.

(** ** The toolkit's operations *)

(** [GLib.idle_add(cb)] *)
Definition idle_add (cb : callback) : M unit :=
  modify_gtk (fun t => set_idle (idle t ++ [cb]) t).

Definition new_widget (wd : widget) : M nat :=
  t <- get_gtk ;
  _ <- modify_gtk (fun t => set_next_widget (S (next_widget t))
                     (set_widgets (<[next_widget t := wd]> (widgets t)) t)) ;
  ret (next_widget t).

(** [create_monospace_menu_item(text)]: a [Gtk.MenuItem] with a label
    child showing [text]. *)
Definition create_monospace_menu_item (text : string) : M nat :=
  new_widget (mk_widget MenuItem (Some text) true).

(** [Gtk.SeparatorMenuItem()] *)
Definition new_separator_menu_item : M nat :=
  new_widget (mk_widget SeparatorMenuItem None true).

(** [Gtk.MenuItem(label=text)] *)
Definition new_menu_item (text : string) : M nat :=
  new_widget (mk_widget MenuItem (Some text) true).

Definition set_sensitive (item : nat) (b : bool) : M unit :=
  modify_gtk (fun t =>
    set_widgets (alter (fun wd => mk_widget (w_class wd) (w_label wd) b)
                       item (widgets t)) t).

(** [update_monospace_menu_item(item, text)]: the text of the item's
    label child is replaced; an item without a child has no
    [set_markup]. *)
Definition update_monospace_menu_item (item : nat) (text : string) : M unit :=
  t <- get_gtk ;
  match widgets t !! item with
  | Some (mk_widget c (Some _) sv) =>
      modify_gtk (set_widgets (<[item := mk_widget c (Some text) sv]> (widgets t)))
  | _ => raise AttributeError
  end.

(** [self.menu.append(item)] *)
Definition menu_append (item : nat) : M unit :=
  modify_gtk (fun t => set_menu (menu t ++ [item]) t).

(** [self.menu.insert(item, position)]: past the end, the item goes
    last. *)
Definition menu_insert (item : nat) (position : nat) : M unit :=
  modify_gtk (fun t =>
    set_menu (firstn position (menu t) ++ item :: skipn position (menu t)) t).

(** [self.menu.remove(item)] *)
Definition menu_remove (item : nat) : M unit :=
  modify_gtk (fun t =>
    set_menu (List.filter (fun x => negb (Nat.eqb x item)) (menu t)) t).

(** [self.indicator.set_label(text, '')] *)
Definition indicator_set_label (text : string) : M unit :=
  modify_gtk (set_indicator_label text).

(** ** The network, as the methods see it *)

(** What one [requests.get] does: it raises, or it returns a response
    with a status code and a body; [response.json()] gives the parsed
    body or raises when the body is not JSON. *)
Inductive http_outcome : Type :=
| ConnectionFailed
| Response (status_code : Z) (json : option pyval).

Definition requests_get (net : http_outcome) : result (Z * option pyval) :=
  match net with
  | ConnectionFailed => Raise RequestException
  | Response st body => Ok (st, body)
  end.

Definition response_json (body : option pyval) : result pyval :=
  match body with
  | Some v => Ok v
  | None => Raise ValueError
  end.

(** ** Strings: [in], [split], [join], [float] *)

Definition is_substring (k s : string) : bool :=
  match String.index 0 k s with
  | Some _ => true
  | None => false
  end.

Definition is_str (k : string) (v : pyval) : bool :=
  match v with
  | VStr s => String.eqb s k
  | _ => false
  end.

(** [k in v] for a string literal [k] *)
Definition py_contains (k : string) (v : pyval) : result bool :=
  match v with
  | VDict d => Ok (match dict_lookup k d with Some _ => true | None => false end)
  | VList l => Ok (existsb (is_str k) l)
  | VStr s => Ok (is_substring k s)
  | _ => Raise TypeError
  end.

Fixpoint split_on (sep : ascii) (s : string) : list string :=
  match s with
  | EmptyString => [EmptyString]
  | String c s' =>
      if Ascii.eqb c sep then EmptyString :: split_on sep s'
      else match split_on sep s' with
           | hd :: tl => String c hd :: tl
           | [] => [String c EmptyString]
           end
  end.

(** [v.split(",")] *)
Definition py_split_comma (v : pyval) : result (list string) :=
  match v with
  | VStr s => Ok (split_on ","%char s)
  | _ => Raise AttributeError
  end.

Fixpoint join_strs (sep : string) (l : list string) : string :=
  match l with
  | [] => EmptyString
  | [x] => x
  | x :: l' => x +:+ sep +:+ join_strs sep l'
  end.

Fixpoint all_strs (l : list pyval) : option (list string) :=
  match l with
  | [] => Some []
  | VStr s :: l' => option_map (cons s) (all_strs l')
  | _ :: _ => None
  end.

(** [sep.join(l)] *)
Definition py_join (sep : string) (l : list pyval) : result string :=
  match all_strs l with
  | Some ss => Ok (join_strs sep ss)
  | None => Raise TypeError
  end.

Definition is_space (c : ascii) : bool :=
  let n := Z.of_nat (nat_of_ascii c) in
  (n =? 32) || ((9 <=? n) && (n <=? 13)).

Fixpoint lstrip (l : list ascii) : list ascii :=
  match l with
  | c :: l' => if is_space c then lstrip l' else l
  | [] => []
  end.

Definition strip (l : list ascii) : list ascii :=
  rev (lstrip (rev (lstrip l))).

Fixpoint span_digits (l : list ascii) : list ascii * list ascii :=
  match l with
  | c :: l' =>
      match digit_of c with
      | Some _ => let '(a, b) := span_digits l' in (c :: a, b)
      | None => ([], l)
      end
  | [] => ([], [])
  end.

Definition take_sign (l : list ascii) : bool * list ascii :=
  match l with
  | "-"%char :: l' => (true, l')
  | "+"%char :: l' => (false, l')
  | _ => (false, l)
  end.

(** The exponent part: nothing, or [e] or [E], a sign and digits. *)
Definition parse_exponent (l : list ascii) : option Z :=
  match l with
  | [] => Some 0
  | c :: l' =>
      if Ascii.eqb c "e" || Ascii.eqb c "E" then
        let '(neg, l'') := take_sign l' in
        match parse_digits l'' with
        | Some n => Some (if neg then - n else n)
        | None => None
        end
      else None
  end.

(** [float(s)] on a decimal literal: blanks around, a sign, digits with
    an optional fraction, an optional exponent; the value is the
    nearest float.  The spellings [inf], [nan] and digits grouped with
    underscores are outside this model, which answers [ValueError] for
    them. *)
Definition py_float (s : string) : result Float.t :=
  let '(neg, l) := take_sign (strip (list_ascii_of_string s)) in
  let '(ip, l1) := span_digits l in
  let '(fp, l2) :=
    match l1 with
    | "."%char :: l1' => span_digits l1'
    | _ => ([], l1)
    end in
  match ip ++ fp, parse_digits_from 0 (ip ++ fp), parse_exponent l2 with
  | _ :: _, Some m, Some e =>
      let e10 := e - Z.of_nat (List.length fp) in
      let m' := if neg then - m else m in
      if m =? 0 then Ok (S754_zero neg)
      else if 0 <=? e10 then Ok (Float.of_ratio (m' * 10 ^ e10) 1)
      else Ok (Float.of_ratio m' (Z.to_pos (10 ^ (- e10))))
  | _, _, _ => Raise ValueError
  end.

(** ** The methods of [UnityWeatherMonitor]

    The calls of [print] are left out. *)

Definition on_interval_toggled (active : bool) (interval : Z) : M unit :=
  if active then modify_self (set_update_interval interval) else ret tt.

Definition on_unit_toggled (active : bool) (imperial : bool) : M unit :=
  me <- get_self ;
  if active && negb (Bool.eqb imperial (use_imperial me)) then
    _ <- modify_self (set_use_imperial imperial) ;
    idle_add CbUpdateWeatherUI
  else ret tt.

(** One of the optional name fields: appended when the key is there and
    its value is truthy. *)
Definition location_part (data : pyval) (key : string) (parts : list pyval)
  : result (list pyval) :=
  has <-? py_contains key data ;
  if has then
    v <-? getitem_str data key ;
    Ok (if truthy v then parts ++ [v] else parts)
  else Ok parts.

Definition get_location_from_ip (net : http_outcome) : M bool :=
  try_except
    ('(status, body) <- lift (requests_get net) ;
     if negb (status =? 200) then ret false
     else
       data <- lift (response_json body) ;
       has_loc <- lift (py_contains "loc" data) ;
       if negb has_loc then ret false
       else
         loc <- lift (getitem_str data "loc") ;
         lat_long <- lift (py_split_comma loc) ;
         match lat_long with
         | [lat; lon] =>
             la <- lift (py_float lat) ;
             _ <- modify_self (set_latitude la) ;
             lo <- lift (py_float lon) ;
             _ <- modify_self (set_longitude lo) ;
             p1 <- lift (location_part data "city" []) ;
             p2 <- lift (location_part data "region" p1) ;
             location_parts <- lift (location_part data "country" p2) ;
             name <- match location_parts with
                     | [] => ret "Unknown Location"
                     | _ => lift (py_join ", " location_parts)
                     end ;
             _ <- modify_self (set_location_name name) ;
             ret true
         | _ => ret false
         end)
    (fun _ => ret false).

(** The parsed body of the forecast response, or [None]. *)
Definition get_weather_data (net : http_outcome) : M pyval :=
  try_except
    ('(status, body) <- lift (requests_get net) ;
     if status =? 200 then lift (response_json body)
     else ret VNone)
    (fun _ => ret VNone).

(** The body of the loop over [range(len(data["daily"]["time"]))]. *)
Definition append_forecast (data : pyval) (i : nat) : M unit :=
  daily <- lift (getitem_str data "daily") ;
  times <- lift (getitem_str daily "time") ;
  date <- lift (getitem_idx times i) ;
  daily <- lift (getitem_str data "daily") ;
  codes <- lift (getitem_str daily "weather_code") ;
  condition <- lift (getitem_idx codes i) ;
  daily <- lift (getitem_str data "daily") ;
  maxs <- lift (getitem_str daily "temperature_2m_max") ;
  max_temp <- lift (getitem_idx maxs i) ;
  daily <- lift (getitem_str data "daily") ;
  mins <- lift (getitem_str daily "temperature_2m_min") ;
  min_temp <- lift (getitem_idx mins i) ;
  modify_self (fun m =>
    set_forecast (forecast m ++ [mk_day date condition max_temp min_temp]) m).

Definition update_weather_data (net : http_outcome) : M bool :=
  data <- get_weather_data net ;
  if negb (truthy data) then ret false
  else
    try_except
      (current <- lift (getitem_str data "current") ;
       temp <- lift (getitem_str current "temperature_2m") ;
       _ <- modify_self (set_current_temp temp) ;
       current <- lift (getitem_str data "current") ;
       code <- lift (getitem_str current "weather_code") ;
       _ <- modify_self (set_current_condition code) ;
       _ <- idle_add CbUpdateLocationItem ;
       _ <- modify_self (set_forecast []) ;
       daily <- lift (getitem_str data "daily") ;
       times <- lift (getitem_str daily "time") ;
       n <- lift (py_len times) ;
       _ <- for_each (seq 0 n) (append_forecast data) ;
       ret true)
      (fun _ => ret false).

Definition update_location_item : M bool :=
  me <- get_self ;
  _ <- update_monospace_menu_item (location_item me)
         ("Location: " +:+ location_name me) ;
  ret false.

Definition is_none (v : pyval) : bool :=
  match v with VNone => true | _ => false end.

(** The test of the removal pass on a label text: non-empty, and
    starting with a weekday abbreviation or with ["Day"]. *)
Definition forecast_prefixes : list string :=
  ["Mon"; "Tue"; "Wed"; "Thu"; "Fri"; "Sat"; "Sun"; "Day"].

Definition is_forecast_text (text : string) : bool :=
  negb (String.eqb text EmptyString)
  && existsb (fun p => String.prefix p text) forecast_prefixes.

(** The test of the removal pass on a child of the menu: not the
    location item nor the current item, a [Gtk.MenuItem] that is not a
    separator, with a label child whose text passes. *)
Definition to_remove (me : monitor) (t : toolkit) (item : nat) : bool :=
  if Nat.eqb item (location_item me) || Nat.eqb item (current_item me)
  then false
  else
    match widgets t !! item with
    | Some (mk_widget MenuItem (Some text) _) => is_forecast_text text
    | _ => false
    end.

(** The blank item put around a weekend. *)
Definition blank_separator : M nat :=
  separator <- create_monospace_menu_item EmptyString ;
  _ <- set_sensitive separator false ;
  ret separator.

(** One turn of the loop over [self.forecast]: the loop variables are
    [new_items] and [last_was_weekend]. *)
Definition forecast_step (imperial : bool) (unit : string)
    (acc : list nat * bool) (day_data : forecast_day) : M (list nat * bool) :=
  let '(new_items, last_was_weekend) := acc in
  date_obj <- lift (fromisoformat (fd_date day_data)) ;
  let date_str := strftime_a_b_d date_obj in
  let is_weekend := 5 <=? weekday date_obj in
  new_items <-
    (if is_weekend && negb last_was_weekend then
       separator <- blank_separator ; ret (new_items ++ [separator])
     else if negb is_weekend && last_was_weekend then
       separator <- blank_separator ; ret (new_items ++ [separator])
     else ret new_items) ;
  condition_icon <- lift (get_condition_icon (fd_condition day_data)) ;
  '(max_temp, min_temp) <-
    (if imperial then
       mx <- lift (celsius_to_fahrenheit (fd_max_temp day_data)) ;
       mn <- lift (celsius_to_fahrenheit (fd_min_temp day_data)) ;
       ret (mx, mn)
     else ret (fd_max_temp day_data, fd_min_temp day_data)) ;
  condition_desc <- lift (get_condition_description (fd_condition day_data)) ;
  mx <- lift (format_temp max_temp) ;
  mn <- lift (format_temp min_temp) ;
  forecast_item <- create_monospace_menu_item
    (date_str +:+ ": " +:+ condition_icon +:+ " " +:+ condition_desc +:+ ", "
     +:+ mx +:+ unit +:+ " / " +:+ mn +:+ unit) ;
  _ <- set_sensitive forecast_item false ;
  ret (new_items ++ [forecast_item], is_weekend).

Fixpoint forecast_loop (imperial : bool) (unit : string)
    (days : list forecast_day) (acc : list nat * bool) : M (list nat * bool) :=
  match days with
  | [] => ret acc
  | day_data :: days' =>
      acc' <- forecast_step imperial unit acc day_data ;
      forecast_loop imperial unit days' acc'
  end.

(** [for item in new_items: self.menu.insert(item, insert_position);
    insert_position += 1] *)
Fixpoint insert_all (new_items : list nat) (insert_position : nat) : M unit :=
  match new_items with
  | [] => ret tt
  | item :: rest =>
      _ <- menu_insert item insert_position ;
      insert_all rest (S insert_position)
  end.

(** [update_weather_ui].  The closing [self.menu.show_all()] changes
    no label and no child of the menu and is left out. *)
Definition update_weather_ui : M bool :=
  me <- get_self ;
  if is_none (current_temp me) || is_none (current_condition me) then ret false
  else
    icon <- lift (get_condition_icon (current_condition me)) ;
    '(display_temp, unit) <-
      (if use_imperial me then
         f <- lift (celsius_to_fahrenheit (current_temp me)) ; ret (f, "°F")
       else ret (current_temp me, "°C")) ;
    temp <- lift (format_temp display_temp) ;
    let label_text := icon +:+ " " +:+ temp +:+ unit in
    _ <- indicator_set_label label_text ;
    condition_desc <- lift (get_condition_description (current_condition me)) ;
    _ <- update_monospace_menu_item (current_item me)
           ("Current: " +:+ icon +:+ " " +:+ condition_desc +:+ ", "
            +:+ temp +:+ unit) ;
    t <- get_gtk ;
    let items_to_remove := List.filter (to_remove me t) (menu t) in
    _ <- for_each items_to_remove menu_remove ;
    '(new_items, last_was_weekend) <-
      forecast_loop (use_imperial me) unit (forecast me) ([], false) ;
    new_items <-
      (if last_was_weekend then
         separator <- blank_separator ; ret (new_items ++ [separator])
       else ret new_items) ;
    _ <- insert_all new_items 3 ;
    ret false.

Definition quit : M unit := modify_self (set_running false).

(** [refresh_weather]: the two requests are made in turn. *)
Definition refresh_weather (net_loc net_weather : http_outcome) : M unit :=
  _ <- get_location_from_ip net_loc ;
  ok <- update_weather_data net_weather ;
  if ok then idle_add CbUpdateWeatherUI else ret tt.

(** ** The constructor *)

Definition empty_monitor : monitor :=
  mk_monitor true (Float.of_ratio 476062 10000) (Float.of_ratio (-1223321) 10000)
    "Default Location" true VNone VNone [] 15 0 0 [].

Definition empty_toolkit : toolkit := mk_toolkit ∅ 0 [] EmptyString [].

Definition day_placeholder (i : nat) : M unit :=
  item <- create_monospace_menu_item
            ("Day " +:+ Float.string_of_Z (Z.of_nat (i + 1)) +:+ ": Loading...") ;
  _ <- set_sensitive item false ;
  _ <- modify_self (fun m => set_forecast_items (forecast_items m ++ [item]) m) ;
  menu_append item.

Definition append_separator : M unit :=
  sep <- new_separator_menu_item ; menu_append sep.

(** [__init__], up to the start of the update thread.  The submenus of
    the preferences item are not children of [self.menu] and are left
    out. *)
Definition init : M unit :=
  loc <- create_monospace_menu_item "Location: Detecting..." ;
  _ <- modify_self (set_location_item loc) ;
  _ <- set_sensitive loc false ;
  _ <- menu_append loc ;
  cur <- create_monospace_menu_item "Current Weather: Loading..." ;
  _ <- modify_self (set_current_item cur) ;
  _ <- set_sensitive cur false ;
  _ <- menu_append cur ;
  _ <- append_separator ;
  _ <- for_each (seq 0 15) day_placeholder ;
  _ <- append_separator ;
  prefs_item <- new_menu_item "Preferences" ;
  _ <- menu_append prefs_item ;
  _ <- append_separator ;
  refresh_item <- new_menu_item "Refresh Now" ;
  _ <- menu_append refresh_item ;
  quit_item <- new_menu_item "Quit" ;
  _ <- menu_append quit_item ;
  modify_self (set_update_interval 15).

Definition initial_world : world :=
  snd (init (mk_world empty_monitor empty_toolkit)).

(** ** The main loop's side: idle callbacks and user actions *)

(** A callback run by the main loop; an exception it raises is reported
    and dropped, and the callback is not run again. *)
Definition run_callback (cb : callback) (w : world) : world :=
  match cb with
  | CbUpdateLocationItem => snd (update_location_item w)
  | CbUpdateWeatherUI => snd (update_weather_ui w)
  end.

(** The main loop runs the queued callbacks in order. *)
Definition dispatch_idle (w : world) : world :=
  fold_left (fun w cb => run_callback cb w) (idle (gtk w))
            (mk_world (self w) (set_idle [] (gtk w))).

(** What the main loop can run between two steps of the update thread:
    a [toggled] signal of an interval or unit radio item, the refresh
    and quit items, and the dispatch of the idle queue. *)
Inductive ui_event : Type :=
| IntervalToggled (active : bool) (interval : Z)
| UnitToggled (active : bool) (imperial : bool)
| RefreshNow (net_loc net_weather : http_outcome)
| QuitNow
| Idle.

Definition ui_step (w : world) (e : ui_event) : world :=
  match e with
  | IntervalToggled a i => snd (on_interval_toggled a i w)
  | UnitToggled a imp => snd (on_unit_toggled a imp w)
  | RefreshNow nl nw => snd (refresh_weather nl nw w)
  | QuitNow => snd (quit w)
  | Idle => dispatch_idle w
  end.

Definition ui_steps (es : list ui_event) (w : world) : world :=
  fold_left ui_step es w.

(** ** The update thread *)

(** [for _ in range(n): if not self.running: break; time.sleep(1)].
    [ticks] gives, turn by turn, what the main loop runs before the
    turn's test of [self.running] (for the turns after the first, that
    is during the sleep before).  The result counts the sleeps. *)
Fixpoint sleep_loop (n : nat) (ticks : list (list ui_event)) (w : world)
  : nat * world :=
  match n with
  | O => (O, w)
  | S n' =>
      let w1 := ui_steps (hd [] ticks) w in
      if negb (running (self w1)) then (O, w1)
      else let '(k, w2) := sleep_loop n' (tl ticks) w1 in (S k, w2)
  end.

(** One turn of [while self.running], with what the main loop runs
    meanwhile. *)
Record cycle : Type := mk_cycle {
  before_check : list ui_event;    (* before the test of the [while] *)
  during_request : list ui_event;  (* while the request is in flight *)
  response : http_outcome;
  before_wait : list ui_event;     (* before [range] is evaluated *)
  during_wait : list (list ui_event)
}.

(** The [while] loop over a schedule of turns; the result lists the
    number of sleeps of each wait.  The loop stops when [self.running]
    is false; a schedule that ends describes a prefix of the run. *)
Fixpoint while_running (cycles : list cycle) (w : world) : list nat * world :=
  match cycles with
  | [] => ([], w)
  | c :: cs =>
      let w0 := ui_steps (before_check c) w in
      if negb (running (self w0)) then ([], w0)
      else
        let w1 := ui_steps (during_request c) w0 in
        match update_weather_data (response c) w1 with
        | (Raise _, w2) => ([], w2)
        | (Ok ok, w2) =>
            let w3 := if ok then snd (idle_add CbUpdateWeatherUI w2) else w2 in
            let w4 := ui_steps (before_wait c) w3 in
            let n := Z.to_nat (update_interval (self w4) * 60) in
            let '(k, w5) := sleep_loop n (during_wait c) w4 in
            let '(ks, w6) := while_running cs w5 in
            (k :: ks, w6)
        end
  end.

Definition update_weather_loop (net_loc : http_outcome) (cycles : list cycle)
    (w : world) : list nat * world :=
  while_running cycles (snd (get_location_from_ip net_loc w)).

(** ** The data model's types

    The data model gives a forecast day a calendar date, an integer
    condition code and float temperatures.  [decode_day] reads a stored
    entry at these types. *)

Record typed_day : Type := mk_typed {
  td_date : date;
  td_code : Z;
  td_max : Float.t;
  td_min : Float.t
}.

(** A stored temperature read as a float: a float is itself; an
    integer of at most three digits, which JSON may carry for a whole
    number of degrees, is the float of the same value. *)
Definition as_float (v : pyval) : option Float.t :=
  match v with
  | VFloat f => Some f
  | VInt z => if (-999 <=? z) && (z <=? 999) then Some (Float.of_Z z) else None
  | _ => None
  end.

Definition decode_day (d : forecast_day) : option typed_day :=
  match fromisoformat (fd_date d), fd_condition d,
        as_float (fd_max_temp d), as_float (fd_min_temp d) with
  | Ok dt, VInt c, Some mx, Some mn => Some (mk_typed dt c mx mn)
  | _, _, _, _ => None
  end.

Fixpoint decode_forecast (l : list forecast_day) : option (list typed_day) :=
  match l with
  | [] => Some []
  | d :: l' =>
      match decode_day d, decode_forecast l' with
      | Some td, Some tds => Some (td :: tds)
      | _, _ => None
      end
  end.

(** The weather part of the state at the data model's types. *)
Record typed_weather : Type := mk_weather {
  tw_temp : Float.t;
  tw_code : Z;
  tw_days : list typed_day
}.

Definition decode_weather (m : monitor) : option typed_weather :=
  match as_float (current_temp m), current_condition m,
        decode_forecast (forecast m) with
  | Some c, VInt code, Some tds => Some (mk_weather c code tds)
  | _, _, _ => None
  end.

(** ** What a render shows, at the data model's types *)

Definition shown (imperial : bool) (c : Float.t) : Float.t :=
  if imperial then float_c2f c else c.

Definition unit_suffix (imperial : bool) : string :=
  if imperial then "°F" else "°C".

Definition icon_of (code : Z) : string :=
  default unknown_icon (weather_icons !! code).

Definition description_of (code : Z) : string :=
  default unknown_description (weather_descriptions !! code).

Definition label_text (imperial : bool) (c : Float.t) (code : Z) : string :=
  icon_of code +:+ " " +:+ Float.format_1f (shown imperial c)
  +:+ unit_suffix imperial.

Definition current_line (imperial : bool) (c : Float.t) (code : Z) : string :=
  "Current: " +:+ icon_of code +:+ " " +:+ description_of code +:+ ", "
  +:+ Float.format_1f (shown imperial c) +:+ unit_suffix imperial.

Definition forecast_line (imperial : bool) (d : typed_day) : string :=
  strftime_a_b_d (td_date d) +:+ ": " +:+ icon_of (td_code d) +:+ " "
  +:+ description_of (td_code d) +:+ ", "
  +:+ Float.format_1f (shown imperial (td_max d)) +:+ unit_suffix imperial
  +:+ " / "
  +:+ Float.format_1f (shown imperial (td_min d)) +:+ unit_suffix imperial.

Definition is_weekend (d : typed_day) : bool := 5 <=? weekday (td_date d).

(** The label texts one turn of the loop adds to [new_items]. *)
Definition step_rows (imperial : bool) (d : typed_day) (last_was_weekend : bool)
  : list string :=
  (if is_weekend d && negb last_was_weekend then [EmptyString]
   else if negb (is_weekend d) && last_was_weekend then [EmptyString]
   else [])
  ++ [forecast_line imperial d].

(** The label texts of [new_items], in order: the loop over
    [self.forecast] without the widgets. *)
Fixpoint loop_rows (imperial : bool) (days : list typed_day)
    (last_was_weekend : bool) : list string :=
  match days with
  | [] => if last_was_weekend then [EmptyString] else []
  | d :: ds =>
      step_rows imperial d last_was_weekend
      ++ loop_rows imperial ds (is_weekend d)
  end.

(** The same texts without the closing blank, and the value of
    [last_was_weekend] when the loop ends. *)
Fixpoint body_rows (imperial : bool) (days : list typed_day)
    (last_was_weekend : bool) : list string :=
  match days with
  | [] => []
  | d :: ds =>
      step_rows imperial d last_was_weekend
      ++ body_rows imperial ds (is_weekend d)
  end.

Fixpoint last_flag (days : list typed_day) (last_was_weekend : bool) : bool :=
  match days with
  | [] => last_was_weekend
  | d :: ds => last_flag ds (is_weekend d)
  end.

(** ** The weekend grouping as the specification words it

    A day is a weekend day when its ISO weekday number is 6 or 7.  A
    blank line comes before the first day of each maximal run of
    weekend days and after the last day of each run. *)

Definition iso_weekend (d : typed_day) : bool :=
  (isoweekday (td_date d) =? 6) || (isoweekday (td_date d) =? 7).

Definition weekend_at (days : list typed_day) (i : nat) : bool :=
  match nth_error days i with
  | Some d => iso_weekend d
  | None => false
  end.

Definition first_of_run (days : list typed_day) (i : nat) : bool :=
  weekend_at days i
  && match i with O => true | S j => negb (weekend_at days j) end.

Definition last_of_run (days : list typed_day) (i : nat) : bool :=
  weekend_at days i && negb (weekend_at days (S i)).

Definition spec_rows_at (imperial : bool) (days : list typed_day) (i : nat)
  : list string :=
  match nth_error days i with
  | Some d =>
      (if first_of_run days i then [EmptyString] else [])
      ++ [forecast_line imperial d]
      ++ (if last_of_run days i then [EmptyString] else [])
  | None => []
  end.

Definition spec_rows (imperial : bool) (days : list typed_day) : list string :=
  flat_map (spec_rows_at imperial days) (seq 0 (List.length days)).

(** The same grouping by recursion on the days, looking one day back
    ([prev]) and one day ahead. *)
Definition head_weekend (days : list typed_day) : bool :=
  match days with
  | d :: _ => iso_weekend d
  | [] => false
  end.

Fixpoint bracket_rows (imperial : bool) (prev : bool) (days : list typed_day)
  : list string :=
  match days with
  | [] => []
  | d :: ds =>
      (if iso_weekend d && negb prev then [EmptyString] else [])
      ++ [forecast_line imperial d]
      ++ (if iso_weekend d && negb (head_weekend ds) then [EmptyString] else [])
      ++ bracket_rows imperial (iso_weekend d) ds
  end.

(** ** Reading the display back from the toolkit *)

Definition label_of (t : toolkit) (item : nat) : option string :=
  match widgets t !! item with
  | Some wd => w_label wd
  | None => None
  end.

(** The label texts of the children of the menu, [None] for a child
    without a label (a [Gtk.SeparatorMenuItem]). *)
Definition menu_labels (w : world) : list (option string) :=
  map (label_of (gtk w)) (menu (gtk w)).

(** The forecast lines on display: the texts of the children that the
    removal pass takes for forecast items. *)
Definition forecast_lines (w : world) : list (option string) :=
  map (label_of (gtk w))
      (List.filter (to_remove (self w) (gtk w)) (menu (gtk w))).

Definition display (w : world)
  : string * option string * list (option string) :=
  (indicator_label (gtk w), label_of (gtk w) (current_item (self w)),
   forecast_lines w).

(** The blank items among the children of the menu. *)
Definition is_blank (t : toolkit) (item : nat) : bool :=
  match widgets t !! item with
  | Some (mk_widget MenuItem (Some text) _) => String.eqb text EmptyString
  | _ => false
  end.

Definition blank_items (w : world) : list nat :=
  List.filter (is_blank (gtk w)) (menu (gtk w)).

(** ** Well-formed toolkit states

    Identities are handed out in order, so the children of the menu and
    the two items the object keeps are older than [next_widget]; the
    current-weather item has a label child. *)
Definition has_label (t : toolkit) (item : nat) : bool :=
  match label_of t item with Some _ => true | None => false end.

Definition wf (w : world) : bool :=
  has_label (gtk w) (current_item (self w))
  && forallb (fun i => Nat.ltb i (next_widget (gtk w))) (menu (gtk w))
  && Nat.ltb (current_item (self w)) (next_widget (gtk w))
  && Nat.ltb (location_item (self w)) (next_widget (gtk w)).

(** ** The cadence of the update thread as the specification words it

    The interval in force after some user actions: only an activated
    interval item changes it. *)
Fixpoint interval_after (es : list ui_event) (interval : Z) : Z :=
  match es with
  | [] => interval
  | IntervalToggled true i :: es' => interval_after es' i
  | _ :: es' => interval_after es' interval
  end.

Definition no_quit (es : list ui_event) : bool :=
  forallb (fun e => match e with QuitNow => false | _ => true end) es.

(** The sleeps of one wait of [n] turns and whether the thread is still
    running after it: a quit ends the wait at the next turn, nothing
    else does. *)
Fixpoint spec_sleeps (n : nat) (ticks : list (list ui_event)) : nat * bool :=
  match n with
  | O => (O, true)
  | S n' =>
      if no_quit (hd [] ticks)
      then let '(k, r) := spec_sleeps n' (tl ticks) in (S k, r)
      else (O, false)
  end.

(** Each wait has the turns of the interval read when the wait starts,
    60 per minute; what is chosen during a wait counts from the next
    wait on. *)
Fixpoint spec_waits (cycles : list cycle) (interval : Z) (running : bool)
  : list nat :=
  match cycles with
  | [] => []
  | c :: cs =>
      if running && no_quit (before_check c) then
        let at_start :=
          interval_after (before_check c ++ during_request c ++ before_wait c)
                         interval in
        let n := Z.to_nat (at_start * 60) in
        let '(k, r) :=
          if no_quit (during_request c ++ before_wait c)
          then spec_sleeps n (during_wait c)
          else (O, false) in
        k :: spec_waits cs
               (interval_after (concat (firstn n (during_wait c))) at_start) r
      else []
  end.

(** ** The forecast a response holds

    [entry data i] is the record that turn [i] of the loop of
    [update_weather_data] appends. *)
Definition entry (data : pyval) (i : nat) : result forecast_day :=
  daily <-? getitem_str data "daily" ;
  times <-? getitem_str daily "time" ;
  date <-? getitem_idx times i ;
  codes <-? getitem_str daily "weather_code" ;
  condition <-? getitem_idx codes i ;
  maxs <-? getitem_str daily "temperature_2m_max" ;
  max_temp <-? getitem_idx maxs i ;
  mins <-? getitem_str daily "temperature_2m_min" ;
  min_temp <-? getitem_idx mins i ;
  Ok (mk_day date condition max_temp min_temp).

Fixpoint entries (data : pyval) (l : list nat) : result (list forecast_day) :=
  match l with
  | [] => Ok []
  | i :: l' =>
      d <-? entry data i ;
      ds <-? entries data l' ;
      Ok (d :: ds)
  end.

(** The value [get_weather_data] returns for an outcome of the
    request. *)
Definition weather_body (net : http_outcome) : pyval :=
  match net with
  | Response status (Some v) => if status =? 200 then v else VNone
  | _ => VNone
  end.

(** The two coordinate strings of a location response that passes the
    checks made before the first assignment. *)
Definition lat_long_of (net : http_outcome) : option (string * string) :=
  match net with
  | Response status (Some data) =>
      if status =? 200 then
        match py_contains "loc" data, getitem_str data "loc" with
        | Ok true, Ok loc =>
            match py_split_comma loc with
            | Ok [lat; lon] => Some (lat, lon)
            | _ => None
            end
        | _, _ => None
        end
      else None
  | _ => None
  end.

(** ** Sample states and responses *)

Definition f10 (n : Z) : pyval := VFloat (Float.of_ratio n 10).

(** A state after an earlier successful fetch: 10.0 degrees, overcast,
    one forecast day. *)
Definition earlier_weather : monitor :=
  set_forecast [mk_day (VStr "2024-01-03") (VInt 0) (f10 200) (f10 100)]
    (set_current_condition (VInt 3)
       (set_current_temp (f10 100) (self initial_world))).

Definition earlier_world : world := mk_world earlier_weather (gtk initial_world).

(** A 200 response whose body has the current conditions and no
    ["daily"] member. *)
Definition response_without_daily : http_outcome :=
  Response 200 (Some (VDict
    [("current", VDict [("temperature_2m", f10 215); ("weather_code", VInt 61)])])).

(** A 200 response whose daily arrays hold two days. *)
Definition response_two_days : http_outcome :=
  Response 200 (Some (VDict
    [("current", VDict [("temperature_2m", f10 215); ("weather_code", VInt 61)]);
     ("daily", VDict
        [("time", VList [VStr "2024-01-06"; VStr "2024-01-07"]);
         ("weather_code", VList [VInt 0; VInt 3]);
         ("temperature_2m_max", VList [f10 50; f10 62]);
         ("temperature_2m_min", VList [f10 (-10); f10 5])])])).

(** A 200 response of the location service whose ["loc"] has a latitude
    and no number after the comma. *)
Definition ipinfo_bad_longitude : http_outcome :=
  Response 200 (Some (VDict
    [("city", VStr "London"); ("loc", VStr "51.5,abc"); ("country", VStr "GB")])).

(** ** Frames: what a method leaves alone

    [preserves R c] says that the world after [c] is related by [R] to
    the world before, whether [c] returns or raises. *)
Definition preserves {A} (R : world -> world -> Prop) (c : M A) : Prop :=
  forall w, R w (snd (c w)).

(** The relation "the object's attributes are the same". *)
Definition same_self (w w' : world) : Prop := self w' = self w.

(** The relation "the interval and the running flag are the same". *)
Definition same_cadence (w w' : world) : Prop :=
  update_interval (self w') = update_interval (self w)
  /\ running (self w') = running (self w).

Definition is_quit (e : ui_event) : bool :=
  match e with QuitNow => true | _ => false end.

(** A schedule of three turns: the user picks 30 minutes during the
    third second of the first wait and quits during the fifth second of
    the third wait. *)
Definition schedule_pick_30 : list cycle :=
  [ mk_cycle [] [] response_two_days []
      [[]; []; [IntervalToggled false 15; IntervalToggled true 30]];
    mk_cycle [] [] ConnectionFailed [] [];
    mk_cycle [] [] ConnectionFailed [] [[]; []; []; []; [QuitNow]] ].

(** ** The world a render leaves, at the data model's types *)

(** The widget of a forecast item or of a blank item, once made
    insensitive. *)
Definition item_widget (text : string) : widget :=
  mk_widget MenuItem (Some text) false.

Definition alloc_item (text : string) (t : toolkit) : toolkit :=
  set_next_widget (S (next_widget t))
    (set_widgets (<[next_widget t := item_widget text]> (widgets t)) t).

(** New items for the texts, in order. *)
Fixpoint alloc_items (texts : list string) (t : toolkit) : toolkit :=
  match texts with
  | [] => t
  | x :: xs => alloc_items xs (alloc_item x t)
  end.

Definition set_label_text (item : nat) (text : string) (t : toolkit) : toolkit :=
  match widgets t !! item with
  | Some wd =>
      set_widgets (<[item := mk_widget (w_class wd) (Some text) (w_sensitive wd)]>
                     (widgets t)) t
  | None => t
  end.

(** The children of the menu after the removal pass. *)
Definition kept (me : monitor) (t : toolkit) : list nat :=
  List.filter (fun x => negb (to_remove me t x)) (menu t).

Definition rendered (tw : typed_weather) (w : world) : world :=
  let me := self w in
  let imp := use_imperial me in
  let t1 := set_indicator_label (label_text imp (tw_temp tw) (tw_code tw)) (gtk w) in
  let t2 := set_label_text (current_item me)
              (current_line imp (tw_temp tw) (tw_code tw)) t1 in
  let rows := loop_rows imp (tw_days tw) false in
  let t3 := alloc_items rows (set_menu (kept me t2) t2) in
  mk_world me
    (set_menu (firstn 3 (kept me t2)
               ++ seq (next_widget t2) (List.length rows)
               ++ skipn 3 (kept me t2)) t3).

(** What the display shows for a weather state under a unit. *)
Definition shown_display (imperial : bool) (tw : typed_weather)
  : string * option string * list (option string) :=
  (label_text imperial (tw_temp tw) (tw_code tw),
   Some (current_line imperial (tw_temp tw) (tw_code tw)),
   map (fun d => Some (forecast_line imperial d)) (tw_days tw)).

(** The user picks a unit in the preferences menu: the radio item of
    the other unit is toggled off, the picked one is toggled on, and
    the main loop then runs the idle queue. *)
Definition select_unit (imperial : bool) : list ui_event :=
  [UnitToggled false (negb imperial); UnitToggled true imperial; Idle].

(** A state holding 20.0 degrees, clear sky, and fifteen forecast days
    from Wednesday 3 January 2024 on. *)
Definition fifteen_days : list forecast_day :=
  map (fun i =>
         mk_day (VStr ("2024-01-" +:+ two_digits (3 + Z.of_nat i)))
                (VInt (Z.of_nat i mod 4))
                (f10 (50 + 7 * Z.of_nat i)) (f10 (Z.of_nat i - 30)))
      (seq 0 15).

Definition wednesday_world : world :=
  mk_world
    (set_forecast fifteen_days
       (set_current_condition (VInt 0)
          (set_current_temp (VFloat (Float.of_Z 20)) (self initial_world))))
    (gtk initial_world).

Definition wednesday_weather : typed_weather :=
  match decode_weather (self wednesday_world) with
  | Some tw => tw
  | None => mk_weather (S754_zero false) 0 []
  end.

(** The same state with the metric unit chosen. *)
Definition wednesday_world_metric : world :=
  mk_world (set_use_imperial false (self wednesday_world)) (gtk wednesday_world).

(** ** Rounding to one decimal as the specification words it

    The exact quotient [n / d] rounded to the nearest tenth (a tie goes
    to the even tenth) and written with one decimal. *)
Definition decimal_1f (n : Z) (d : positive) : string :=
  let a := Z.abs n * 10 in
  let q := a / Zpos d in
  let r := a mod Zpos d in
  let t := match Z.compare (2 * r) (Zpos d) with
           | Lt => q
           | Gt => q + 1
           | Eq => if Z.even q then q else q + 1
           end in
  (if n <? 0 then "-" else EmptyString) +:+
  Float.string_of_Z (t / 10) +:+ "." +:+ Float.string_of_Z (t mod 10).

(** The whole numbers of degrees of at most three digits, and the check
    that such an integer is converted and written as the float of the
    same value. *)
Definition whole_degrees : list Z :=
  map (fun i => Z.of_nat i - 999) (seq 0 1999).

Definition same_as_float (z : Z) : bool :=
  match celsius_to_fahrenheit (VInt z), format_temp (VInt z) with
  | Ok (VFloat f), Ok s =>
      match float_c2f (Float.of_Z z), f with
      | S754_finite s1 m1 e1, S754_finite s2 m2 e2 =>
          Bool.eqb s1 s2 && Pos.eqb m1 m2 && Z.eqb e1 e2
      | S754_zero s1, S754_zero s2 => Bool.eqb s1 s2
      | _, _ => false
      end
      && String.eqb s (Float.format_1f (Float.of_Z z))
  | _, _ => false
  end.

(** The temperatures with one decimal from -100.0 to 100.0 degrees
    Celsius, in tenths. *)
Definition tenths_grid : list Z :=
  map (fun i => Z.of_nat i - 1000) (seq 0 2001).

Definition grid_exact (k : Z) : bool :=
  String.eqb (Float.format_1f (float_c2f (Float.of_ratio k 10)))
             (decimal_1f (18 * k + 3200) 100)
  && String.eqb (Float.format_1f (Float.of_ratio k 10)) (decimal_1f k 10).

(** ** Further frames and sample data *)

(** The relation "the widgets, the menu and the indicator are the
    same": only the idle queue may differ. *)
Definition same_widgets (w w' : world) : Prop :=
  widgets (gtk w') = widgets (gtk w)
  /\ next_widget (gtk w') = next_widget (gtk w)
  /\ menu (gtk w') = menu (gtk w)
  /\ indicator_label (gtk w') = indicator_label (gtk w).

(** The relation "the toolkit is the same". *)
Definition same_gtk (w w' : world) : Prop := gtk w' = gtk w.

(** The relation "the attributes and the idle queue are the same". *)
Definition same_self_and_idle (w w' : world) : Prop :=
  self w' = self w /\ idle (gtk w') = idle (gtk w).

(** The relation "the preferences, the running flag and the widget
    attributes are the same". *)
Definition same_settings (w w' : world) : Prop :=
  use_imperial (self w') = use_imperial (self w)
  /\ update_interval (self w') = update_interval (self w)
  /\ running (self w') = running (self w)
  /\ location_item (self w') = location_item (self w)
  /\ current_item (self w') = current_item (self w)
  /\ forecast_items (self w') = forecast_items (self w).

(** The relation "the weather data are the same". *)
Definition same_weather (w w' : world) : Prop :=
  current_temp (self w') = current_temp (self w)
  /\ current_condition (self w') = current_condition (self w)
  /\ forecast (self w') = forecast (self w).

(** The relation "the location is the same". *)
Definition same_location (w w' : world) : Prop :=
  latitude (self w') = latitude (self w)
  /\ longitude (self w') = longitude (self w)
  /\ location_name (self w') = location_name (self w).

(** The relation "the menu has the same children in the same order". *)
Definition same_menu (w w' : world) : Prop := menu (gtk w') = menu (gtk w).

(** The truthy value of an optional member of a dict, as a list of at
    most one element. *)
Definition truthy_member (d : list (string * pyval)) (key : string) : list pyval :=
  match dict_lookup key d with
  | Some v => if truthy v then [v] else []
  | None => []
  end.

(** The parts of the display name, in the order the method collects
    them. *)
Definition location_parts (d : list (string * pyval)) : list pyval :=
  truthy_member d "city" ++ truthy_member d "region" ++ truthy_member d "country".

(** A response of the location service with an empty region. *)
Definition ipinfo_seattle : list (string * pyval) :=
  [("ip", VStr "203.0.113.7"); ("city", VStr "Seattle"); ("region", VStr EmptyString);
   ("country", VStr "US"); ("loc", VStr "47.6062,-122.3321")].

(** A wait during which the user quits in the third second. *)
Definition ticks_quit_third : list (list ui_event) :=
  [[]; [IntervalToggled true 60]; [QuitNow]; []].

(** [returns_only b c]: whenever [c] returns, it returns [b]. *)
Definition returns_only {A} (b : A) (c : M A) : Prop :=
  forall w a, fst (c w) = Ok a -> a = b.

(** [raises_within R c]: whenever [c] raises, the world it leaves is
    related by [R] to the world before. *)
Definition raises_within {A} (R : world -> world -> Prop) (c : M A) : Prop :=
  forall w e, fst (c w) = Raise e -> R w (snd (c w)).

(** The relation "no child was added to the menu". *)
Definition no_new_child (w w' : world) : Prop :=
  incl (menu (gtk w')) (menu (gtk w)).

(** ** The world a render leaves, on any data

    The indicator label and the text of the current item are replaced,
    the forecast rows are taken out of the menu, items are created for
    some texts and, when the render gets to its end, put into the menu
    after the third child. *)
Definition render_world (lbl txt : string) (texts : list string)
    (inserted : bool) (w : world) : world :=
  let me := self w in
  let t2 := set_label_text (current_item me) txt
              (set_indicator_label lbl (gtk w)) in
  let t3 := alloc_items texts (set_menu (kept me t2) t2) in
  mk_world me
    (if inserted
     then set_menu (firstn 3 (kept me t2)
                    ++ seq (next_widget t2) (List.length texts)
                    ++ skipn 3 (kept me t2)) t3
     else t3).

(** How far a render got: nowhere, to the indicator label, or to the
    forecast rows; it returns [False] with the rows inserted, or raises
    with the rows removed and not inserted. *)
Definition render_outcome (w : world) (r : result bool) (w' : world) : Prop :=
  w' = w
  \/ (exists lbl e,
        r = Raise e /\ w' = mk_world (self w) (set_indicator_label lbl (gtk w)))
  \/ (exists lbl txt texts,
        has_label (gtk w) (current_item (self w)) = true
        /\ ((r = Ok false /\ w' = render_world lbl txt texts true w)
            \/ (exists e, r = Raise e /\ w' = render_world lbl txt texts false w))).

(** The children of the menu that are not forecast rows and were there
    before [w]'s next widget was made. *)
Definition old_other_children (w w' : world) : list nat :=
  List.filter
    (fun i => Nat.ltb i (next_widget (gtk w))
              && negb (to_remove (self w) (gtk w) i))
    (menu (gtk w')).

(** The outcome of a part of the forecast loop started in [w] with
    [acc] for [new_items]: items have been created for some texts, and
    when the part returns, [new_items] is [acc] with these items. *)
Definition allocates (acc : list nat) (w : world)
    (p : result (list nat * bool) * world) : Prop :=
  exists texts,
    snd p = mk_world (self w) (alloc_items texts (gtk w))
    /\ forall items l',
         fst p = Ok (items, l') ->
         items = acc ++ seq (next_widget (gtk w)) (List.length texts).

(** The relation "the widgets, the menu, the indicator and the two
    items the object keeps are the same". *)
Definition same_layout (w w' : world) : Prop :=
  widgets (gtk w') = widgets (gtk w)
  /\ next_widget (gtk w') = next_widget (gtk w)
  /\ menu (gtk w') = menu (gtk w)
  /\ indicator_label (gtk w') = indicator_label (gtk w)
  /\ location_item (self w') = location_item (self w)
  /\ current_item (self w') = current_item (self w).

Definition is_idle (e : ui_event) : bool :=
  match e with Idle => true | _ => false end.

(** The main loop runs no idle callback during these actions. *)
Definition no_idle (es : list ui_event) : bool :=
  forallb (fun e => negb (is_idle e)) es.

(** All that the main loop runs during one turn of the thread. *)
Definition cycle_events (c : cycle) : list ui_event :=
  before_check c ++ during_request c ++ before_wait c ++ concat (during_wait c).

(** A well-formed state whose location item has a label child too. *)
Definition wf_rows (w : world) : bool :=
  wf w && has_label (gtk w) (location_item (self w)).

(** The render run [n] times in a row. *)
Definition render_times (n : nat) (w : world) : world :=
  Nat.iter n (fun w => snd (update_weather_ui w)) w.

(** The label the constructor gives placeholder [i] of the forecast. *)
Definition placeholder_text (i : nat) : string :=
  "Day " +:+ Float.string_of_Z (Z.of_nat (i + 1)) +:+ ": Loading...".

(** A forecast whose third day came without a maximum: the arrays of
    the response may hold [null]. *)
Definition day_without_maximum : forecast_day :=
  mk_day (VStr "2024-01-05") (VInt 3) VNone (f10 (-20)).

Definition null_day_world : world :=
  mk_world
    (set_forecast (firstn 2 fifteen_days ++ day_without_maximum
                   :: skipn 3 fifteen_days)
       (self wednesday_world))
    (gtk wednesday_world).

(** * Proofs *)

(** ** The early return of the render *)

Lemma update_weather_ui_none (w : world) :
  is_none (current_temp (self w)) || is_none (current_condition (self w)) = true ->
  update_weather_ui w = (Ok false, w).
Proof.
  intros H. unfold update_weather_ui, bind, get_self. cbn. rewrite H. reflexivity.
Qed.

(** C9: when [current_temp] or [current_condition] is [None], the render
    returns at once and leaves the whole state, the indicator label and
    every menu item included, as it was. *)
Theorem C9_render_without_data_changes_nothing (w : world) :
  current_temp (self w) = VNone \/ current_condition (self w) = VNone ->
  update_weather_ui w = (Ok false, w).
Proof.
  intros [H | H]; apply update_weather_ui_none; rewrite H; cbn;
    [reflexivity | apply orb_true_r].
Qed.

Lemma C9_witness :
  (current_temp (self initial_world) = VNone
   \/ current_condition (self initial_world) = VNone)
  /\ update_weather_ui initial_world = (Ok false, initial_world).
Proof.
  split.
  - left. reflexivity.
  - apply C9_render_without_data_changes_nothing. left. reflexivity.
Defined.

(** ** The condition catalog *)

Lemma icons_not_unknown (code : Z) (g : string) :
  weather_icons !! code = Some g -> g <> unknown_icon.
Proof.
  unfold weather_icons. intros H%elem_of_list_to_map_2.
  apply list_elem_of_In in H.
  assert (Hall : Forall (fun kv => snd kv <> unknown_icon) weather_icons_items).
  { unfold weather_icons_items. repeat constructor; discriminate. }
  rewrite List.Forall_forall in Hall. exact (Hall _ H).
Qed.

Lemma descriptions_not_unknown (code : Z) (d : string) :
  weather_descriptions !! code = Some d -> d <> unknown_description.
Proof.
  unfold weather_descriptions. intros H%elem_of_list_to_map_2.
  apply list_elem_of_In in H.
  assert (Hall : Forall (fun kv => snd kv <> unknown_description)
                        weather_descriptions_items).
  { unfold weather_descriptions_items. repeat constructor; discriminate. }
  rewrite List.Forall_forall in Hall. exact (Hall _ H).
Qed.

Lemma catalogs_same_codes (code : Z) :
  weather_icons !! code = None <-> weather_descriptions !! code = None.
Proof.
  unfold weather_icons, weather_descriptions.
  rewrite <- !not_elem_of_list_to_map.
  replace (weather_icons_items.*1) with (weather_descriptions_items.*1)
    by reflexivity.
  reflexivity.
Qed.

(** C4: for an integer code both lookups return, without failing; a
    code of the catalog gets its own glyph and description, both
    different from the fallback, and any other code, 999 for one, gets
    the fallback glyph and the text "Unknown". *)
Theorem C4_catalog_lookup_total (code : Z) :
  match weather_icons !! code, weather_descriptions !! code with
  | Some g, Some d =>
      get_condition_icon (VInt code) = Ok g
      /\ get_condition_description (VInt code) = Ok d
      /\ g <> "❓" /\ d <> "Unknown"
  | None, None =>
      get_condition_icon (VInt code) = Ok "❓"
      /\ get_condition_description (VInt code) = Ok "Unknown"
  | _, _ => False
  end
  /\ get_condition_icon (VInt 999) = Ok "❓"
  /\ get_condition_description (VInt 999) = Ok "Unknown".
Proof.
  split; [| split; vm_compute; reflexivity].
  unfold get_condition_icon, get_condition_description, dict_get, int_key, rbind.
  destruct (weather_icons !! code) as [g |] eqn:Hi;
    destruct (weather_descriptions !! code) as [d |] eqn:Hd;
    unfold default.
  - repeat split; try reflexivity.
    + exact (icons_not_unknown _ _ Hi).
    + exact (descriptions_not_unknown _ _ Hd).
  - apply catalogs_same_codes in Hd. congruence.
  - apply catalogs_same_codes in Hi. congruence.
  - split; reflexivity.
Qed.

(** ** Fetching *)

Lemma get_weather_data_eq (net : http_outcome) (w : world) :
  get_weather_data net w = (Ok (weather_body net), w).
Proof.
  unfold get_weather_data, try_except, bind, lift, ret, weather_body.
  destruct net as [| st [v |]]; cbn; try reflexivity;
    destruct (st =? 200); reflexivity.
Qed.

(** A request that fails in transport, by its status or by a body that
    is not JSON, and a body that is falsy, leave the state as it was. *)
Lemma update_weather_data_no_data (net : http_outcome) (w : world) :
  truthy (weather_body net) = false ->
  update_weather_data net w = (Ok false, w).
Proof.
  intros H. unfold update_weather_data, bind at 1.
  rewrite get_weather_data_eq, H. reflexivity.
Qed.

(** [update_weather_data] catches every exception. *)
Lemma update_weather_data_returns (net : http_outcome) (w : world) :
  exists b, fst (update_weather_data net w) = Ok b.
Proof.
  unfold update_weather_data, bind at 1. rewrite get_weather_data_eq.
  destruct (negb (truthy (weather_body net))); [exists false; reflexivity |].
  unfold try_except, ret.
  match goal with |- context [match ?c w with _ => _ end] => destruct (c w) as [[b | e] w'] end;
    cbn; eauto.
Qed.

(** C1: a 200 response with the current conditions and no ["daily"]
    member makes [update_weather_data] return [False] after it has
    stored the new temperature and condition and emptied the forecast:
    the state is not the prior one. *)
Theorem C1_failed_fetch_mutates_state :
  let w' := snd (update_weather_data response_without_daily earlier_world) in
  fst (update_weather_data response_without_daily earlier_world) = Ok false
  /\ current_temp (self earlier_world) = f10 100
  /\ current_temp (self w') = f10 215
  /\ current_condition (self earlier_world) = VInt 3
  /\ current_condition (self w') = VInt 61
  /\ forecast (self earlier_world)
     = [mk_day (VStr "2024-01-03") (VInt 0) (f10 200) (f10 100)]
  /\ forecast (self w') = [].
Proof. vm_compute. repeat split. Qed.

Lemma append_forecast_eq (data : pyval) (i : nat) (w : world) :
  append_forecast data i w =
  match entry data i with
  | Ok d => (Ok tt, mk_world (set_forecast (forecast (self w) ++ [d]) (self w)) (gtk w))
  | Raise e => (Raise e, w)
  end.
Proof.
  unfold append_forecast, entry, bind, lift, rbind, modify_self.
  destruct (getitem_str data "daily") as [daily |]; [| reflexivity].
  destruct (getitem_str daily "time") as [times |]; [| reflexivity].
  destruct (getitem_idx times i); [| reflexivity].
  destruct (getitem_str daily "weather_code") as [codes |]; [| reflexivity].
  destruct (getitem_idx codes i); [| reflexivity].
  destruct (getitem_str daily "temperature_2m_max") as [maxs |]; [| reflexivity].
  destruct (getitem_idx maxs i); [| reflexivity].
  destruct (getitem_str daily "temperature_2m_min") as [mins |]; [| reflexivity].
  destruct (getitem_idx mins i); reflexivity.
Qed.

Lemma for_each_append_ok (data : pyval) (l : list nat) :
  forall (w : world) (ds : list forecast_day),
    entries data l = Ok ds ->
    for_each l (append_forecast data) w =
    (Ok tt, mk_world (set_forecast (forecast (self w) ++ ds) (self w)) (gtk w)).
Proof.
  induction l as [| i l IH]; intros w ds H; cbn in H.
  - injection H as <-. cbn. rewrite app_nil_r. destruct w as [[] ?]; reflexivity.
  - unfold rbind in H. destruct (entry data i) as [d |] eqn:Hd; [| discriminate].
    destruct (entries data l) as [ds' |] eqn:Hds; [| discriminate].
    injection H as <-. cbn [for_each]. unfold bind.
    rewrite append_forecast_eq, Hd. rewrite (IH _ ds' eq_refl). cbn.
    rewrite <- app_assoc. reflexivity.
Qed.

Lemma for_each_append_raise (data : pyval) (l : list nat) :
  forall (w : world) (e : exn),
    entries data l = Raise e ->
    fst (for_each l (append_forecast data) w) = Raise e.
Proof.
  induction l as [| i l IH]; intros w e H; cbn in H; [discriminate |].
  unfold rbind in H. cbn [for_each]. unfold bind. rewrite append_forecast_eq.
  destruct (entry data i) as [d |] eqn:Hd; [| cbn; congruence].
  destruct (entries data l) as [ds' |] eqn:Hds; [discriminate |].
  injection H as <-.
  specialize (IH (mk_world (set_forecast (forecast (self w) ++ [d]) (self w)) (gtk w)) _ eq_refl).
  destruct (for_each l _ _) as [[u | e'] w']; cbn in *; congruence.
Qed.

Lemma entries_seq (data : pyval) (n : nat) :
  forall (a : nat) (ds : list forecast_day),
    entries data (seq a n) = Ok ds ->
    List.length ds = n
    /\ forall i d, nth_error ds i = Some d -> entry data (a + i) = Ok d.
Proof.
  induction n as [| n IH]; intros a ds H; cbn in H.
  - injection H as <-. split; [reflexivity |]. intros [| i] d Hd; discriminate.
  - unfold rbind in H. destruct (entry data a) as [d0 |] eqn:Hd0; [| discriminate].
    destruct (entries data (seq (S a) n)) as [ds' |] eqn:Hds; [| discriminate].
    injection H as <-. destruct (IH _ _ Hds) as [Hlen Hnth]. split.
    + cbn. congruence.
    + intros [| i] d Hd; cbn in Hd.
      * injection Hd as <-. rewrite Nat.add_0_r. exact Hd0.
      * rewrite Nat.add_succ_r. exact (Hnth i d Hd).
Qed.

(** The state a successful [update_weather_data] leaves. *)
Lemma update_weather_data_true (net : http_outcome) (w : world) :
  fst (update_weather_data net w) = Ok true ->
  exists current temp code daily times n ds,
    truthy (weather_body net) = true
    /\ getitem_str (weather_body net) "current" = Ok current
    /\ getitem_str current "temperature_2m" = Ok temp
    /\ getitem_str current "weather_code" = Ok code
    /\ getitem_str (weather_body net) "daily" = Ok daily
    /\ getitem_str daily "time" = Ok times
    /\ py_len times = Ok n
    /\ entries (weather_body net) (seq 0 n) = Ok ds
    /\ snd (update_weather_data net w) =
       mk_world
         (set_forecast ds (set_current_condition code
                             (set_current_temp temp (self w))))
         (set_idle (idle (gtk w) ++ [CbUpdateLocationItem]) (gtk w)).
Proof.
  destruct (update_weather_data net w) as [r w'] eqn:E. cbn [fst snd].
  intros ->. unfold update_weather_data in E. unfold bind at 1 in E.
  rewrite get_weather_data_eq in E.
  set (data := weather_body net) in *.
  destruct (truthy data) eqn:Htruthy; [| discriminate]. cbn [negb] in E.
  unfold try_except, bind, lift, ret, modify_self, idle_add, modify_gtk in E.
  cbn in E.
  destruct (getitem_str data "current") as [current |] eqn:E1; [| discriminate].
  destruct (getitem_str current "temperature_2m") as [temp |] eqn:E2; [| discriminate].
  destruct (getitem_str current "weather_code") as [code |] eqn:E3; [| discriminate].
  destruct (getitem_str data "daily") as [daily |] eqn:E4; [| discriminate].
  destruct (getitem_str daily "time") as [times |] eqn:E5; [| discriminate].
  destruct (py_len times) as [n |] eqn:E6; [| discriminate].
  destruct (entries data (seq 0 n)) as [ds | e] eqn:Hds.
  - rewrite (for_each_append_ok _ _ _ ds Hds) in E. cbn in E.
    injection E as <-.
    exists current, temp, code, daily, times, n, ds.
    repeat split; assumption || reflexivity.
  - match type of E with context [for_each ?l ?f ?x] =>
      pose proof (for_each_append_raise data l x e Hds) as Hr;
      destruct (for_each l f x) as [[u | e'] w'']
    end; cbn in *; congruence.
Qed.

Lemma update_weather_data_ok (net : http_outcome) (w : world)
    (current temp code daily times : pyval) (n : nat) (ds : list forecast_day) :
  truthy (weather_body net) = true ->
  getitem_str (weather_body net) "current" = Ok current ->
  getitem_str current "temperature_2m" = Ok temp ->
  getitem_str current "weather_code" = Ok code ->
  getitem_str (weather_body net) "daily" = Ok daily ->
  getitem_str daily "time" = Ok times ->
  py_len times = Ok n ->
  entries (weather_body net) (seq 0 n) = Ok ds ->
  update_weather_data net w =
  (Ok true,
   mk_world
     (set_forecast ds (set_current_condition code
                         (set_current_temp temp (self w))))
     (set_idle (idle (gtk w) ++ [CbUpdateLocationItem]) (gtk w))).
Proof.
  intros Ht E1 E2 E3 E4 E5 E6 Hds.
  unfold update_weather_data. unfold bind at 1. rewrite get_weather_data_eq.
  rewrite Ht. cbn [negb].
  unfold try_except, bind, lift, ret, modify_self, idle_add, modify_gtk.
  cbn. rewrite E1, E2, E3, E4, E5, E6.
  rewrite (for_each_append_ok _ _ _ ds Hds). reflexivity.
Qed.

Lemma entry_fields (data daily times : pyval) (i : nat) (d : forecast_day) :
  getitem_str data "daily" = Ok daily ->
  getitem_str daily "time" = Ok times ->
  entry data i = Ok d ->
  getitem_idx times i = Ok (fd_date d)
  /\ (exists codes, getitem_str daily "weather_code" = Ok codes
                    /\ getitem_idx codes i = Ok (fd_condition d))
  /\ (exists maxs, getitem_str daily "temperature_2m_max" = Ok maxs
                   /\ getitem_idx maxs i = Ok (fd_max_temp d))
  /\ (exists mins, getitem_str daily "temperature_2m_min" = Ok mins
                   /\ getitem_idx mins i = Ok (fd_min_temp d)).
Proof.
  intros E4 E5. unfold entry, rbind. rewrite E4, E5.
  destruct (getitem_idx times i) as [x |] eqn:Ex; [| discriminate].
  destruct (getitem_str daily "weather_code") as [codes |] eqn:Ec; [| discriminate].
  destruct (getitem_idx codes i) as [c |] eqn:Eci; [| discriminate].
  destruct (getitem_str daily "temperature_2m_max") as [maxs |] eqn:Em; [| discriminate].
  destruct (getitem_idx maxs i) as [mx |] eqn:Emi; [| discriminate].
  destruct (getitem_str daily "temperature_2m_min") as [mins |] eqn:En; [| discriminate].
  destruct (getitem_idx mins i) as [mn |] eqn:Eni; [| discriminate].
  intros H. injection H as <-. cbn. repeat split; eauto.
Qed.

(** C7, as stated, fails: a fetch succeeds on a response whose daily
    arrays hold two days, and the stored forecast then has two records,
    not 15. *)
Lemma C7_forecast_length_not_always_15 :
  ~ (forall (net : http_outcome) (w : world),
       fst (update_weather_data net w) = Ok true ->
       List.length (forecast (self (snd (update_weather_data net w)))) = 15%nat).
Proof.
  intros H. specialize (H response_two_days earlier_world).
  assert (Hok : fst (update_weather_data response_two_days earlier_world) = Ok true)
    by (vm_compute; reflexivity).
  specialize (H Hok). vm_compute in H. discriminate.
Qed.

(** C7, amended: after a successful fetch the stored forecast has one
    record per entry of the response's ["daily"]["time"], in that
    order, record [i] holding entry [i] of each daily array; it does
    not depend on the forecast stored before. *)
Theorem C7_forecast_follows_response (net : http_outcome) (w : world) :
  fst (update_weather_data net w) = Ok true ->
  let f := forecast (self (snd (update_weather_data net w))) in
  exists daily times n,
    getitem_str (weather_body net) "daily" = Ok daily
    /\ getitem_str daily "time" = Ok times
    /\ py_len times = Ok n
    /\ List.length f = n
    /\ (forall i d, nth_error f i = Some d ->
          getitem_idx times i = Ok (fd_date d)
          /\ (exists codes, getitem_str daily "weather_code" = Ok codes
                            /\ getitem_idx codes i = Ok (fd_condition d))
          /\ (exists maxs, getitem_str daily "temperature_2m_max" = Ok maxs
                           /\ getitem_idx maxs i = Ok (fd_max_temp d))
          /\ (exists mins, getitem_str daily "temperature_2m_min" = Ok mins
                           /\ getitem_idx mins i = Ok (fd_min_temp d)))
    /\ (forall w2, forecast (self (snd (update_weather_data net w2))) = f).
Proof.
  intros Hok.
  destruct (update_weather_data_true net w Hok)
    as (current & temp & code & daily & times & n & ds
        & Ht & E1 & E2 & E3 & E4 & E5 & E6 & Hds & Hw).
  cbn zeta. rewrite Hw. cbn [self forecast set_forecast].
  exists daily, times, n.
  destruct (entries_seq _ _ _ _ Hds) as [Hlen Hnth].
  split; [exact E4 |]. split; [exact E5 |]. split; [exact E6 |].
  split; [exact Hlen |]. split.
  - intros i d Hd. apply (entry_fields (weather_body net)); auto.
    exact (Hnth i d Hd).
  - intros w2.
    rewrite (update_weather_data_ok net w2 _ _ _ _ _ _ _ Ht E1 E2 E3 E4 E5 E6 Hds).
    reflexivity.
Qed.

Lemma C7_witness :
  fst (update_weather_data response_two_days earlier_world) = Ok true
  /\ List.length
       (forecast (self (snd (update_weather_data response_two_days earlier_world))))
     = 2%nat.
Proof.
  assert (Hok : fst (update_weather_data response_two_days earlier_world) = Ok true)
    by (vm_compute; reflexivity).
  split; [exact Hok |].
  destruct (C7_forecast_follows_response response_two_days earlier_world Hok)
    as (daily & times & n & E4 & E5 & E6 & Hlen & _).
  rewrite Hlen. vm_compute in E4. injection E4 as <-.
  vm_compute in E5. injection E5 as <-.
  vm_compute in E6. injection E6 as <-. reflexivity.
Defined.

(** ** Resolving the location *)

Ltac unfold_location :=
  unfold get_location_from_ip, try_except, bind, lift, ret, modify_self,
    requests_get, response_json.

(** A response that fails before the first assignment (transport,
    status, body, ["loc"] missing or not of the form [a,b]) leaves the
    state as it was. *)
Lemma get_location_from_ip_early_failure (net : http_outcome) (w : world) :
  lat_long_of net = None ->
  get_location_from_ip net w = (Ok false, w).
Proof.
  unfold lat_long_of. unfold_location.
  destruct net as [| st [data |]]; [reflexivity | | destruct (st =? 200); reflexivity].
  destruct (st =? 200); [| reflexivity]. cbn.
  destruct (py_contains "loc" data) as [[|] |]; try reflexivity.
  destruct (getitem_str data "loc") as [loc |]; [| reflexivity].
  destruct (py_split_comma loc) as [[| lat [| lon [| x l]]] |];
    try reflexivity. discriminate.
Qed.

(** When the first coordinate parses and the second does not, the
    method answers [False] with the new latitude stored. *)
Lemma get_location_from_ip_bad_longitude (net : http_outcome) (w : world)
    (lat lon : string) (la : Float.t) (e : exn) :
  lat_long_of net = Some (lat, lon) ->
  py_float lat = Ok la ->
  py_float lon = Raise e ->
  get_location_from_ip net w = (Ok false, mk_world (set_latitude la (self w)) (gtk w)).
Proof.
  unfold lat_long_of. unfold_location.
  destruct net as [| st [data |]]; try discriminate.
  destruct (st =? 200); [| discriminate]. cbn.
  destruct (py_contains "loc" data) as [[|] |]; try discriminate.
  destruct (getitem_str data "loc") as [loc |]; [| discriminate].
  destruct (py_split_comma loc) as [[| lat' [| lon' [| x l]]] |];
    try discriminate.
  intros H Hla Hlo. injection H as -> ->. rewrite Hla. cbn. rewrite Hlo.
  reflexivity.
Qed.

(** C5: on a 200 response whose ["loc"] is ["51.5,abc"] the method
    answers [False] and has replaced the latitude by 51.5, the
    longitude and the name being the earlier ones: the location is not
    retained unchanged. *)
Theorem C5_failed_resolution_mutates_latitude :
  let w' := snd (get_location_from_ip ipinfo_bad_longitude initial_world) in
  fst (get_location_from_ip ipinfo_bad_longitude initial_world) = Ok false
  /\ latitude (self initial_world) = Float.of_ratio 476062 10000
  /\ latitude (self w') = Float.of_ratio 515 10
  /\ longitude (self w') = longitude (self initial_world)
  /\ location_name (self w') = location_name (self initial_world).
Proof. vm_compute. repeat split. Qed.

(** ** Frame lemmas *)

Section Frames.
Variable R : world -> world -> Prop.
Hypothesis R_refl : forall w, R w w.
Hypothesis R_trans : forall w1 w2 w3, R w1 w2 -> R w2 w3 -> R w1 w3.

Lemma preserves_ret {A} (a : A) : preserves R (ret a).
  Proof. intros w. apply R_refl. Qed.

Lemma preserves_raise {A} (e : exn) : preserves R (raise (A := A) e).
  Proof. intros w. apply R_refl. Qed.

Lemma preserves_lift {A} (r : result A) : preserves R (lift r).
  Proof. intros w. apply R_refl. Qed.

Lemma preserves_get_self : preserves R get_self.
  Proof. intros w. apply R_refl. Qed.

Lemma preserves_get_gtk : preserves R get_gtk.
  Proof. intros w. apply R_refl. Qed.

Lemma preserves_bind {A B} (c : M A) (k : A -> M B) :
    preserves R c -> (forall a, preserves R (k a)) -> preserves R (bind c k).
  Proof.
    intros Hc Hk w. unfold bind. specialize (Hc w).
    destruct (c w) as [[a | e] w1]; cbn in *; [| exact Hc].
    exact (R_trans _ _ _ Hc (Hk a w1)).
  Qed.

Lemma preserves_try_except {A} (c : M A) (h : exn -> M A) :
    preserves R c -> (forall e, preserves R (h e)) -> preserves R (try_except c h).
  Proof.
    intros Hc Hh w. unfold try_except. specialize (Hc w).
    destruct (c w) as [[a | e] w1]; cbn in *; [exact Hc |].
    exact (R_trans _ _ _ Hc (Hh e w1)).
  Qed.

Lemma preserves_for_each {A} (l : list A) (body : A -> M unit) :
    (forall x, preserves R (body x)) -> preserves R (for_each l body).
  Proof.
    intros Hb. induction l as [| x l IH]; cbn [for_each].
    - apply preserves_ret.
    - apply preserves_bind; [apply Hb | intros _; exact IH].
  Qed.

Lemma preserves_modify_self (f : monitor -> monitor) :
    (forall w, R w (mk_world (f (self w)) (gtk w))) -> preserves R (modify_self f).
  Proof. intros H w. apply H. Qed.

Lemma preserves_modify_gtk (f : toolkit -> toolkit) :
    (forall w, R w (mk_world (self w) (f (gtk w)))) -> preserves R (modify_gtk f).
  Proof. intros H w. apply H. Qed.
End Frames.

Lemma same_self_refl (w : world) : same_self w w.
Proof. reflexivity. Qed.

Lemma same_self_trans (w1 w2 w3 : world) :
  same_self w1 w2 -> same_self w2 w3 -> same_self w1 w3.
Proof. unfold same_self. congruence. Qed.

Lemma same_cadence_refl (w : world) : same_cadence w w.
Proof. split; reflexivity. Qed.

Lemma same_cadence_trans (w1 w2 w3 : world) :
  same_cadence w1 w2 -> same_cadence w2 w3 -> same_cadence w1 w3.
Proof. unfold same_cadence. intros [? ?] [? ?]. split; congruence. Qed.

Lemma same_self_cadence (w w' : world) : same_self w w' -> same_cadence w w'.
Proof. unfold same_self, same_cadence. intros ->. split; reflexivity. Qed.

(** Steps of a frame proof: split binds, open the matches the methods
    branch on, and close the leaves. *)
Ltac frame_leaf R_refl R_trans :=
  first
    [ apply (preserves_ret _ R_refl)
    | apply (preserves_raise _ R_refl)
    | apply (preserves_lift _ R_refl)
    | apply (preserves_get_self _ R_refl)
    | apply (preserves_get_gtk _ R_refl)
    | apply preserves_modify_gtk; intros ?; reflexivity
    | apply preserves_modify_gtk; intros ?; split; reflexivity
    | apply preserves_modify_self; intros ?; split; reflexivity ].

Ltac frame_step R_refl R_trans :=
  first
    [ frame_leaf R_refl R_trans
    | apply (preserves_bind _ R_trans); [| intros ?]
    | apply (preserves_try_except _ R_trans); [| intros ?]
    | apply (preserves_for_each _ R_refl R_trans); intros ?
    | match goal with
      | |- preserves _ (match ?x with _ => _ end) => destruct x
      | |- preserves _ (let '(_, _) := ?x in _) => destruct x
      end ].

Ltac frame R_refl R_trans := repeat frame_step R_refl R_trans.

Lemma idle_add_same_self (cb : callback) : preserves same_self (idle_add cb).
Proof. unfold idle_add. frame same_self_refl same_self_trans. Qed.

Lemma update_weather_data_cadence (net : http_outcome) :
  preserves same_cadence (update_weather_data net).
Proof.
  unfold update_weather_data, get_weather_data, append_forecast, idle_add.
  frame same_cadence_refl same_cadence_trans.
Qed.

Lemma get_location_from_ip_cadence (net : http_outcome) :
  preserves same_cadence (get_location_from_ip net).
Proof.
  unfold get_location_from_ip.
  frame same_cadence_refl same_cadence_trans.
Qed.

Lemma blank_separator_same_self : preserves same_self blank_separator.
Proof.
  unfold blank_separator, create_monospace_menu_item, new_widget, set_sensitive.
  frame same_self_refl same_self_trans.
Qed.

Lemma forecast_loop_same_self (imp : bool) (unit : string) (days : list forecast_day) :
  forall acc, preserves same_self (forecast_loop imp unit days acc).
Proof.
  induction days as [| d days IH]; intros acc; cbn [forecast_loop].
  - frame same_self_refl same_self_trans.
  - apply (preserves_bind _ same_self_trans); [| intros ?; apply IH].
    unfold forecast_step, create_monospace_menu_item, new_widget, set_sensitive.
    destruct acc as [new_items last].
    repeat first [ apply blank_separator_same_self
                 | frame_step same_self_refl same_self_trans ].
Qed.

Lemma insert_all_same_self (items : list nat) :
  forall pos, preserves same_self (insert_all items pos).
Proof.
  induction items as [| x items IH]; intros pos; cbn [insert_all].
  - frame same_self_refl same_self_trans.
  - apply (preserves_bind _ same_self_trans); [| intros ?; apply IH].
    unfold menu_insert. frame same_self_refl same_self_trans.
Qed.

Lemma update_weather_ui_same_self : preserves same_self update_weather_ui.
Proof.
  unfold update_weather_ui, indicator_set_label, update_monospace_menu_item,
    menu_remove.
  repeat first [ apply blank_separator_same_self
               | apply forecast_loop_same_self
               | apply insert_all_same_self
               | frame_step same_self_refl same_self_trans ].
Qed.

Lemma update_location_item_same_self : preserves same_self update_location_item.
Proof.
  unfold update_location_item, update_monospace_menu_item.
  frame same_self_refl same_self_trans.
Qed.

Lemma run_callback_same_self (cb : callback) (w : world) :
  self (run_callback cb w) = self w.
Proof.
  destruct cb; cbn.
  - apply update_location_item_same_self.
  - apply update_weather_ui_same_self.
Qed.

Lemma run_callbacks_same_self (l : list callback) :
  forall w, self (fold_left (fun w cb => run_callback cb w) l w) = self w.
Proof.
  induction l as [| cb l IH]; intros w; cbn; [reflexivity |].
  rewrite IH. apply run_callback_same_self.
Qed.

Lemma dispatch_idle_same_self (w : world) : self (dispatch_idle w) = self w.
Proof. unfold dispatch_idle. rewrite run_callbacks_same_self. reflexivity. Qed.

Lemma refresh_weather_cadence (nl nw : http_outcome) :
  preserves same_cadence (refresh_weather nl nw).
Proof.
  unfold refresh_weather.
  apply (preserves_bind _ same_cadence_trans); [apply get_location_from_ip_cadence |].
  intros _.
  apply (preserves_bind _ same_cadence_trans); [apply update_weather_data_cadence |].
  intros [|]; unfold idle_add; frame same_cadence_refl same_cadence_trans.
Qed.

(** ** The cadence of the update thread *)

Lemma ui_step_cadence (w : world) (e : ui_event) :
  update_interval (self (ui_step w e))
  = interval_after [e] (update_interval (self w))
  /\ running (self (ui_step w e)) = (if is_quit e then false else running (self w)).
Proof.
  destruct e as [a i | a imp | nl nw | |]; cbn [ui_step interval_after is_quit].
  - destruct a; cbn; split; reflexivity.
  - unfold on_unit_toggled, bind, get_self, idle_add, modify_gtk, modify_self. cbn.
    destruct (a && negb (Bool.eqb imp (use_imperial (self w)))); cbn; split; reflexivity.
  - exact (refresh_weather_cadence nl nw w).
  - cbn. split; reflexivity.
  - rewrite dispatch_idle_same_self. split; reflexivity.
Qed.

Lemma interval_after_cons (e : ui_event) (es : list ui_event) (i : Z) :
  interval_after (e :: es) i = interval_after es (interval_after [e] i).
Proof. destruct e as [[|] j | | | |]; reflexivity. Qed.

Lemma interval_after_app (es1 es2 : list ui_event) :
  forall i, interval_after (es1 ++ es2) i = interval_after es2 (interval_after es1 i).
Proof.
  induction es1 as [| e es1 IH]; intros i; [reflexivity |].
  rewrite <- app_comm_cons, interval_after_cons, IH.
  rewrite (interval_after_cons e es1). reflexivity.
Qed.

Lemma no_quit_app (es1 es2 : list ui_event) :
  no_quit (es1 ++ es2) = no_quit es1 && no_quit es2.
Proof. unfold no_quit. apply forallb_app. Qed.

(** What a run of user actions does to the cadence: the interval is
    the last one activated, and the thread keeps running unless one of
    the actions is a quit. *)
Lemma ui_steps_cadence (es : list ui_event) :
  forall w,
    update_interval (self (ui_steps es w))
    = interval_after es (update_interval (self w))
    /\ running (self (ui_steps es w)) = running (self w) && no_quit es.
Proof.
  induction es as [| e es IH]; intros w.
  - cbn. rewrite andb_true_r. split; reflexivity.
  - change (ui_steps (e :: es) w) with (ui_steps es (ui_step w e)).
    destruct (IH (ui_step w e)) as [Hi Hr].
    destruct (ui_step_cadence w e) as [Hi1 Hr1].
    rewrite Hi, Hr, Hi1, Hr1, (interval_after_cons e es).
    split; [reflexivity |].
    destruct e; cbn; try reflexivity. rewrite andb_false_r. reflexivity.
Qed.

(** A wait started while running: it sleeps as [spec_sleeps] says; when
    no quit comes it makes all its [n] turns, and the intervals chosen
    meanwhile are only stored. *)
Lemma sleep_loop_spec (n : nat) :
  forall (ticks : list (list ui_event)) (w : world),
    running (self w) = true ->
    fst (sleep_loop n ticks w) = fst (spec_sleeps n ticks)
    /\ running (self (snd (sleep_loop n ticks w))) = snd (spec_sleeps n ticks)
    /\ (snd (spec_sleeps n ticks) = true ->
        fst (spec_sleeps n ticks) = n
        /\ update_interval (self (snd (sleep_loop n ticks w)))
           = interval_after (concat (firstn n ticks)) (update_interval (self w))).
Proof.
  induction n as [| n IH]; intros ticks w Hrun; cbn [sleep_loop spec_sleeps].
  - cbn. auto.
  - destruct (ui_steps_cadence (hd [] ticks) w) as [Hi Hr].
    rewrite Hrun in Hr. cbn [andb] in Hr. rewrite Hr.
    destruct (no_quit (hd [] ticks)) eqn:Hq; cbn [negb].
    + destruct (IH (tl ticks) _ Hr) as (Hk & Hr2 & Hfull).
      destruct (sleep_loop n (tl ticks) (ui_steps (hd [] ticks) w)) as [k w2].
      destruct (spec_sleeps n (tl ticks)) as [k' r']. cbn [fst snd] in *.
      split; [congruence |]. split; [exact Hr2 |].
      intros Hr'. destruct (Hfull Hr') as [Hn Hi2].
      split; [congruence |]. rewrite Hi2, Hi.
      destruct ticks as [| t ticks]; cbn [hd tl firstn concat].
      * destruct n; reflexivity.
      * rewrite interval_after_app. reflexivity.
    + cbn [fst snd]. split; [reflexivity |]. split; [exact Hr |]. discriminate.
Qed.

(** A wait started after a quit makes no sleep. *)
Lemma sleep_loop_stopped (n : nat) (ticks : list (list ui_event)) (w : world) :
  running (self w) = false ->
  fst (sleep_loop n ticks w) = O
  /\ running (self (snd (sleep_loop n ticks w))) = false.
Proof.
  intros Hrun. destruct n as [| n]; cbn [sleep_loop]; [auto |].
  destruct (ui_steps_cadence (hd [] ticks) w) as [_ Hr].
  rewrite Hrun in Hr. cbn [andb] in Hr. rewrite Hr. cbn. auto.
Qed.

Lemma spec_waits_stopped (cycles : list cycle) (i : Z) :
  spec_waits cycles i false = [].
Proof. destruct cycles; reflexivity. Qed.

Lemma while_running_waits (cycles : list cycle) :
  forall w,
    fst (while_running cycles w)
    = spec_waits cycles (update_interval (self w)) (running (self w)).
Proof.
  induction cycles as [| c cs IH]; intros w; [reflexivity |].
  cbn [while_running spec_waits].
  destruct (ui_steps_cadence (before_check c) w) as [Hi0 Hr0].
  set (w0 := ui_steps (before_check c) w) in *.
  rewrite Hr0.
  destruct (running (self w) && no_quit (before_check c)) eqn:Hrun0;
    cbn [negb]; [| reflexivity].
  destruct (ui_steps_cadence (during_request c) w0) as [Hi1 Hr1].
  set (w1 := ui_steps (during_request c) w0) in *.
  destruct (update_weather_data_returns (response c) w1) as [ok Hok].
  pose proof (update_weather_data_cadence (response c) w1) as [Hi2 Hr2].
  destruct (update_weather_data (response c) w1) as [r w2].
  cbn [fst snd] in *. subst r.
  set (w3 := if ok then snd (idle_add CbUpdateWeatherUI w2) else w2).
  assert (H3' : update_interval (self w3) = update_interval (self w2)
                /\ running (self w3) = running (self w2)).
  { subst w3. destruct ok; split; reflexivity. }
  destruct H3' as [Hi3 Hr3].
  destruct (ui_steps_cadence (before_wait c) w3) as [Hi4 Hr4].
  set (w4 := ui_steps (before_wait c) w3) in *.
  assert (Hat : update_interval (self w4)
                = interval_after
                    (before_check c ++ during_request c ++ before_wait c)
                    (update_interval (self w))).
  { rewrite !interval_after_app. congruence. }
  assert (Hrun4 : running (self w4)
                  = no_quit (during_request c ++ before_wait c)).
  { rewrite no_quit_app, Hr4, Hr3, Hr2, Hr1, Hr0. reflexivity. }
  rewrite <- Hat.
  set (n := Z.to_nat (update_interval (self w4) * 60)).
  destruct (no_quit (during_request c ++ before_wait c)) eqn:Hq.
  - destruct (sleep_loop_spec n (during_wait c) w4 Hrun4) as (Hk & Hr5 & Hfull).
    destruct (sleep_loop n (during_wait c) w4) as [k w5].
    destruct (spec_sleeps n (during_wait c)) as [k' r']. cbn [fst snd] in *.
    specialize (IH w5). destruct (while_running cs w5) as [ks w6].
    cbn [fst] in *. subst k. rewrite IH, Hr5. f_equal.
    destruct r'; [| rewrite !spec_waits_stopped; reflexivity].
    destruct (Hfull eq_refl) as [_ Hi5]. rewrite Hi5. reflexivity.
  - destruct (sleep_loop_stopped n (during_wait c) w4 Hrun4) as [Hk Hr5].
    destruct (sleep_loop n (during_wait c) w4) as [k w5]. cbn [fst snd] in *.
    specialize (IH w5). destruct (while_running cs w5) as [ks w6].
    cbn [fst] in *. subst k. rewrite IH, Hr5, !spec_waits_stopped. reflexivity.
Qed.

(** C8: in every run of the update thread, each wait makes the sleeps
    of one second that the specification of the cadence gives: 60 per
    minute of the interval read when the wait starts, all of them
    unless a quit comes; an interval chosen during a wait neither
    shortens nor lengthens that wait and is the one the next wait
    reads. *)
Theorem C8_wait_follows_interval_at_start
    (net_loc : http_outcome) (cycles : list cycle) (w : world) :
  fst (update_weather_loop net_loc cycles w)
  = spec_waits cycles (update_interval (self w)) (running (self w))
  /\ (forall n ticks, forallb no_quit (firstn n ticks) = true ->
                      spec_sleeps n ticks = (n, true)).
Proof.
  split.
  - unfold update_weather_loop.
    destruct (get_location_from_ip_cadence net_loc w) as [Hi Hr].
    rewrite while_running_waits, Hi, Hr. reflexivity.
  - induction n as [| n IH]; intros ticks Hq; [reflexivity |].
    cbn [spec_sleeps]. destruct ticks as [| t ticks]; cbn [hd tl firstn] in *.
    + rewrite (IH [] ltac:(destruct n; reflexivity)). reflexivity.
    + cbn [forallb] in Hq. apply andb_prop in Hq as [Ht Hq].
      rewrite Ht, (IH ticks Hq). reflexivity.
Qed.

Lemma C8_witness :
  fst (update_weather_loop ConnectionFailed schedule_pick_30 initial_world)
  = [900%nat; 1800%nat; 4%nat].
Proof.
  rewrite (proj1 (C8_wait_follows_interval_at_start ConnectionFailed
                    schedule_pick_30 initial_world)).
  vm_compute. reflexivity.
Defined.

(** ** The render, step by step *)

Lemma world_eta (w : world) : mk_world (self w) (gtk w) = w.
Proof. destruct w; reflexivity. Qed.

Lemma toolkit_eta (t : toolkit) :
  mk_toolkit (widgets t) (next_widget t) (menu t) (indicator_label t) (idle t) = t.
Proof. destruct t; reflexivity. Qed.

Lemma blank_separator_eq (w : world) :
  blank_separator w
  = (Ok (next_widget (gtk w)), mk_world (self w) (alloc_item EmptyString (gtk w))).
Proof.
  unfold blank_separator, create_monospace_menu_item, new_widget, set_sensitive,
    bind, get_gtk, modify_gtk, ret, alloc_item, item_widget.
  cbn. rewrite alter_insert_eq. reflexivity.
Qed.

Lemma create_item_eq (text : string) (w : world) :
  bind (create_monospace_menu_item text)
       (fun item => bind (set_sensitive item false) (fun _ => ret item)) w
  = (Ok (next_widget (gtk w)), mk_world (self w) (alloc_item text (gtk w))).
Proof.
  unfold create_monospace_menu_item, new_widget, set_sensitive,
    bind, get_gtk, modify_gtk, ret, alloc_item, item_widget.
  cbn. rewrite alter_insert_eq. reflexivity.
Qed.

Lemma alloc_items_app (xs ys : list string) :
  forall t, alloc_items (xs ++ ys) t = alloc_items ys (alloc_items xs t).
Proof. induction xs as [| x xs IH]; intros t; cbn; [reflexivity | apply IH]. Qed.

Lemma alloc_items_next (xs : list string) :
  forall t, next_widget (alloc_items xs t) = (next_widget t + List.length xs)%nat.
Proof.
  induction xs as [| x xs IH]; intros t; cbn [alloc_items List.length].
  - lia.
  - rewrite IH. cbn. lia.
Qed.

Lemma alloc_items_frame (xs : list string) :
  forall t, menu (alloc_items xs t) = menu t
            /\ indicator_label (alloc_items xs t) = indicator_label t
            /\ idle (alloc_items xs t) = idle t.
Proof.
  induction xs as [| x xs IH]; intros t; cbn [alloc_items]; [auto |].
  destruct (IH (alloc_item x t)) as (H1 & H2 & H3).
  rewrite H1, H2, H3. auto.
Qed.

(** An integer temperature of at most three digits is converted and
    written as the float of the same value. *)
Lemma same_as_float_all : forallb same_as_float whole_degrees = true.
Proof. vm_compute. reflexivity. Qed.

Lemma same_as_float_at (z : Z) :
  -999 <= z <= 999 ->
  celsius_to_fahrenheit (VInt z) = Ok (VFloat (float_c2f (Float.of_Z z)))
  /\ format_temp (VInt z) = Ok (Float.format_1f (Float.of_Z z)).
Proof.
  intros Hz. pose proof same_as_float_all as H. rewrite forallb_forall in H.
  assert (Hin : In z whole_degrees).
  { unfold whole_degrees. apply in_map_iff. exists (Z.to_nat (z + 999)).
    split; [lia |]. apply in_seq. lia. }
  specialize (H z Hin). unfold same_as_float in H.
  destruct (celsius_to_fahrenheit (VInt z)) as [[| | | f | | |] |]; try discriminate.
  destruct (format_temp (VInt z)) as [s |]; try discriminate.
  apply andb_prop in H as [Hf Hs]. apply String.eqb_eq in Hs. subst s.
  split; [| reflexivity]. f_equal. f_equal.
  destruct (float_c2f (Float.of_Z z)) as [s1 | | | s1 m1 e1];
    destruct f as [s2 | | | s2 m2 e2]; try discriminate.
  - apply Bool.eqb_prop in Hf. congruence.
  - apply andb_prop in Hf as [Hf He]. apply andb_prop in Hf as [Hsg Hm].
    apply Bool.eqb_prop in Hsg. apply Pos.eqb_eq in Hm. apply Z.eqb_eq in He.
    congruence.
Qed.

Lemma as_float_c2f (v : pyval) (f : Float.t) :
  as_float v = Some f ->
  celsius_to_fahrenheit v = Ok (VFloat (float_c2f f)).
Proof.
  destruct v as [| | z | g | | |]; try discriminate; cbn [as_float].
  - destruct (Z.leb_spec (-999) z) as [Hlo |]; [| discriminate].
    destruct (Z.leb_spec z 999) as [Hhi |]; [| discriminate].
    cbn [andb]. intros Heq. injection Heq as <-. apply same_as_float_at. lia.
  - intros H. injection H as <-. reflexivity.
Qed.

Lemma as_float_format (v : pyval) (f : Float.t) :
  as_float v = Some f ->
  format_temp v = Ok (Float.format_1f f).
Proof.
  destruct v as [| | z | g | | |]; try discriminate; cbn [as_float].
  - destruct (Z.leb_spec (-999) z) as [Hlo |]; [| discriminate].
    destruct (Z.leb_spec z 999) as [Hhi |]; [| discriminate].
    cbn [andb]. intros Heq. injection Heq as <-. apply same_as_float_at. lia.
  - intros H. injection H as <-. reflexivity.
Qed.

Lemma as_float_not_none (v : pyval) (f : Float.t) :
  as_float v = Some f -> is_none v = false.
Proof. destruct v; try discriminate; reflexivity. Qed.

Lemma decode_day_fields (d : forecast_day) (td : typed_day) :
  decode_day d = Some td ->
  fromisoformat (fd_date d) = Ok (td_date td)
  /\ fd_condition d = VInt (td_code td)
  /\ as_float (fd_max_temp d) = Some (td_max td)
  /\ as_float (fd_min_temp d) = Some (td_min td).
Proof.
  unfold decode_day.
  destruct (fromisoformat (fd_date d)) as [dt |]; [| discriminate].
  destruct (fd_condition d); try discriminate.
  destruct (as_float (fd_max_temp d)); try discriminate.
  destruct (as_float (fd_min_temp d)); try discriminate.
  intros H. injection H as <-. cbn. auto.
Qed.

Lemma get_condition_icon_int (code : Z) :
  get_condition_icon (VInt code) = Ok (icon_of code).
Proof. reflexivity. Qed.

Lemma get_condition_description_int (code : Z) :
  get_condition_description (VInt code) = Ok (description_of code).
Proof. reflexivity. Qed.

Ltac unfold_monad :=
  unfold bind, lift, ret, raise, get_self, get_gtk, modify_self, modify_gtk.

Lemma forecast_step_typed (imp : bool) (d : forecast_day) (td : typed_day)
    (acc : list nat) (last : bool) (w : world) :
  decode_day d = Some td ->
  forecast_step imp (unit_suffix imp) (acc, last) d w
  = (Ok (acc ++ seq (next_widget (gtk w)) (List.length (step_rows imp td last)),
         is_weekend td),
     mk_world (self w) (alloc_items (step_rows imp td last) (gtk w))).
Proof.
  intros Hd. destruct (decode_day_fields d td Hd) as (Hdate & Hcode & Hmax & Hmin).
  pose proof (as_float_c2f _ _ Hmax) as Hcmax.
  pose proof (as_float_c2f _ _ Hmin) as Hcmin.
  pose proof (as_float_format _ _ Hmax) as Hfmax.
  pose proof (as_float_format _ _ Hmin) as Hfmin.
  unfold forecast_step. unfold bind at 1. unfold lift at 1. rewrite Hdate.
  fold (is_weekend td). rewrite Hcode.
  rewrite get_condition_icon_int, get_condition_description_int.
  unfold step_rows, forecast_line, shown.
  destruct (is_weekend td), last, imp; cbn [andb negb];
    unfold_monad; rewrite ?blank_separator_eq;
    rewrite ?Hcmax, ?Hcmin, ?Hfmax, ?Hfmin;
    unfold create_monospace_menu_item, new_widget, set_sensitive;
    unfold_monad; cbn [format_temp rbind fst snd gtk self
                       next_widget widgets set_next_widget set_widgets alloc_item
                       alloc_items List.length app seq unit_suffix];
    rewrite alter_insert_eq; rewrite <- ?app_assoc; reflexivity.
Qed.

Lemma loop_rows_split (imp : bool) (tds : list typed_day) :
  forall last,
    loop_rows imp tds last
    = body_rows imp tds last ++ (if last_flag tds last then [EmptyString] else []).
Proof.
  induction tds as [| d ds IH]; intros last; cbn [loop_rows body_rows last_flag].
  - reflexivity.
  - rewrite IH, app_assoc. reflexivity.
Qed.

Lemma forecast_loop_typed (imp : bool) (days : list forecast_day) :
  forall (tds : list typed_day) (acc : list nat) (last : bool) (w : world),
    decode_forecast days = Some tds ->
    forecast_loop imp (unit_suffix imp) days (acc, last) w
    = (Ok (acc ++ seq (next_widget (gtk w)) (List.length (body_rows imp tds last)),
           last_flag tds last),
       mk_world (self w) (alloc_items (body_rows imp tds last) (gtk w))).
Proof.
  induction days as [| d days IH]; intros tds acc last w Hdec; cbn in Hdec.
  - injection Hdec as <-. cbn. rewrite app_nil_r, world_eta. reflexivity.
  - destruct (decode_day d) as [td |] eqn:Hd; [| discriminate].
    destruct (decode_forecast days) as [tds' |] eqn:Hds; [| discriminate].
    injection Hdec as <-. cbn [forecast_loop body_rows last_flag].
    unfold bind. rewrite (forecast_step_typed imp d td acc last w Hd).
    rewrite (IH tds' _ _ _ eq_refl). cbn [self gtk].
    rewrite alloc_items_next, <- app_assoc, alloc_items_app.
    rewrite length_app, seq_app. reflexivity.
Qed.

(** The removal pass takes out of the menu exactly the children that
    pass its test. *)
Lemma remove_each (l : list nat) :
  forall w,
    for_each l menu_remove w
    = (Ok tt,
       mk_world (self w)
         (set_menu (List.filter (fun x => negb (existsb (Nat.eqb x) l))
                                (menu (gtk w))) (gtk w))).
Proof.
  induction l as [| y l IH]; intros w; cbn [for_each].
  - unfold ret. cbn [existsb negb]. f_equal.
    replace (List.filter (fun _ => true) (menu (gtk w))) with (menu (gtk w)).
    + destruct w as [m t]. cbn. unfold set_menu. rewrite toolkit_eta. reflexivity.
    + induction (menu (gtk w)) as [| x m IHm]; cbn; congruence.
  - unfold bind. unfold menu_remove at 1, modify_gtk. rewrite IH. cbn.
    f_equal. f_equal. unfold set_menu. cbn. f_equal.
    induction (menu (gtk w)) as [| x m IHm]; cbn; [reflexivity |].
    destruct (Nat.eqb x y); cbn; [exact IHm |].
    destruct (existsb (Nat.eqb x) l); cbn; congruence.
Qed.

Lemma filter_selected {A} (P : A -> bool) (eqb : A -> A -> bool) (l : list A) :
  (forall x y, eqb x y = true <-> x = y) ->
  List.filter (fun x => negb (existsb (eqb x) (List.filter P l))) l
  = List.filter (fun x => negb (P x)) l.
Proof.
  intros Heq. apply List.filter_ext_in. intros x Hx. f_equal.
  destruct (P x) eqn:HP.
  - apply existsb_exists. exists x. split; [| apply Heq; reflexivity].
    apply List.filter_In. auto.
  - apply not_true_is_false. intros H. apply existsb_exists in H as (y & Hy & Hxy).
    apply Heq in Hxy. subst y. apply List.filter_In in Hy as [_ Hy]. congruence.
Qed.

Lemma insert_all_eq (items : list nat) :
  forall pos w,
    insert_all items pos w
    = (Ok tt,
       mk_world (self w)
         (set_menu (firstn pos (menu (gtk w)) ++ items ++ skipn pos (menu (gtk w)))
                   (gtk w))).
Proof.
  induction items as [| x items IH]; intros pos w; cbn [insert_all].
  - unfold ret. cbn [app]. rewrite firstn_skipn.
    destruct w as [m t]. cbn. unfold set_menu. rewrite toolkit_eta. reflexivity.
  - unfold bind, menu_insert, modify_gtk. rewrite IH. cbn. f_equal. f_equal.
    unfold set_menu. cbn. f_equal.
    set (m := menu (gtk w)).
    assert (Hlen : List.length (firstn pos m) = pos
                   \/ (skipn pos m = [] /\ (List.length (firstn pos m) < pos)%nat)).
    { destruct (Nat.le_gt_cases pos (List.length m)) as [Hle | Hgt].
      - left. apply firstn_length_le. exact Hle.
      - right. split; [apply skipn_all2; lia |]. rewrite length_firstn. lia. }
    assert (Hf : firstn (S pos) (firstn pos m ++ x :: skipn pos m)
                 = firstn pos m ++ [x]).
    { rewrite firstn_app. destruct Hlen as [Hl | [Hs Hl]].
      - rewrite Hl. replace (S pos - pos)%nat with 1%nat by lia.
        rewrite firstn_all2 by lia. reflexivity.
      - rewrite Hs. rewrite firstn_all2 by lia.
        f_equal. apply firstn_all2. cbn. lia. }
    assert (Hs : skipn (S pos) (firstn pos m ++ x :: skipn pos m) = skipn pos m).
    { rewrite skipn_app. destruct Hlen as [Hl | [Hs Hl]].
      - rewrite Hl. replace (S pos - pos)%nat with 1%nat by lia.
        rewrite skipn_all2 by lia. reflexivity.
      - rewrite Hs. rewrite skipn_all2 by lia.
        apply skipn_all2. cbn. lia. }
    rewrite Hf, Hs, <- app_assoc. reflexivity.
Qed.

Lemma decode_weather_fields (m : monitor) (tw : typed_weather) :
  decode_weather m = Some tw ->
  as_float (current_temp m) = Some (tw_temp tw)
  /\ current_condition m = VInt (tw_code tw)
  /\ decode_forecast (forecast m) = Some (tw_days tw).
Proof.
  unfold decode_weather.
  destruct (as_float (current_temp m)); try discriminate.
  destruct (current_condition m); try discriminate.
  destruct (decode_forecast (forecast m)); try discriminate.
  intros H. injection H as <-. cbn. auto.
Qed.

Lemma update_monospace_menu_item_eq (item : nat) (text : string) (w : world) :
  has_label (gtk w) item = true ->
  update_monospace_menu_item item text w
  = (Ok tt, mk_world (self w) (set_label_text item text (gtk w))).
Proof.
  unfold has_label, label_of, update_monospace_menu_item, set_label_text.
  unfold_monad.
  destruct (widgets (gtk w) !! item) as [[c [l |] sv] |]; try discriminate.
  reflexivity.
Qed.

(** The render on a state of the data model's types: it returns, and
    the world it leaves is [rendered]. *)
Lemma update_weather_ui_typed (w : world) (tw : typed_weather) :
  decode_weather (self w) = Some tw ->
  has_label (gtk w) (current_item (self w)) = true ->
  update_weather_ui w = (Ok false, rendered tw w).
Proof.
  intros Hdec Hlab.
  destruct (decode_weather_fields _ _ Hdec) as (Htemp & Hcode & Hdays).
  unfold update_weather_ui. unfold bind at 1. unfold get_self at 1.
  rewrite (as_float_not_none _ _ Htemp), Hcode. cbn [is_none orb].
  rewrite get_condition_icon_int, get_condition_description_int.
  unfold bind at 1. unfold lift at 1.
  set (imp := use_imperial (self w)).
  assert (Hunit :
    exists v,
      (if imp
       then bind (lift (celsius_to_fahrenheit (current_temp (self w))))
                 (fun f => ret (f, "°F"))
       else ret (current_temp (self w), "°C")) w
      = (Ok (v, unit_suffix imp), w)
      /\ format_temp v = Ok (Float.format_1f (shown imp (tw_temp tw)))).
  { destruct imp.
    - exists (VFloat (float_c2f (tw_temp tw))).
      unfold bind, lift, ret. rewrite (as_float_c2f _ _ Htemp). split; reflexivity.
    - exists (current_temp (self w)). split; [reflexivity |].
      apply as_float_format. exact Htemp. }
  destruct Hunit as (v & Hunit & Hfmt).
  unfold bind at 1. rewrite Hunit. clear Hunit.
  unfold bind at 1. unfold lift at 1. rewrite Hfmt.
  unfold bind at 1. unfold indicator_set_label at 1, modify_gtk at 1.
  unfold bind at 1. unfold lift at 1.
  unfold bind at 1.
  rewrite update_monospace_menu_item_eq by exact Hlab.
  unfold bind at 1. unfold get_gtk at 1. cbn [gtk self].
  unfold bind at 1. rewrite remove_each. cbn [gtk self menu set_menu].
  rewrite (filter_selected _ Nat.eqb) by apply Nat.eqb_eq.
  unfold bind at 1.
  rewrite (forecast_loop_typed imp _ (tw_days tw) [] false _ Hdays).
  cbn [app gtk self].
  set (t2 := set_label_text _ _ _).
  fold (kept (self w) t2).
  set (t3 := set_menu (kept (self w) t2) t2).
  assert (Htrail : forall last : bool,
    (if last return M (list nat)
     then bind blank_separator
            (fun separator =>
               ret (seq (next_widget t3)
                        (List.length (body_rows imp (tw_days tw) false))
                    ++ [separator]))
     else ret (seq (next_widget t3)
                   (List.length (body_rows imp (tw_days tw) false))))
      (mk_world (self w) (alloc_items (body_rows imp (tw_days tw) false) t3))
    = (Ok (seq (next_widget t3)
               (List.length (body_rows imp (tw_days tw) false
                             ++ (if last then [EmptyString] else [])))),
       mk_world (self w)
         (alloc_items (body_rows imp (tw_days tw) false
                       ++ (if last then [EmptyString] else [])) t3))).
  { intros [|].
    - unfold bind. rewrite blank_separator_eq. unfold ret. cbn [self gtk].
      rewrite alloc_items_next, alloc_items_app, length_app, seq_app.
      reflexivity.
    - unfold ret. rewrite !app_nil_r. reflexivity. }
  unfold bind at 1. rewrite Htrail. clear Htrail.
  rewrite <- loop_rows_split.
  unfold bind at 1. rewrite insert_all_eq. cbn [self gtk].
  unfold ret, rendered. fold imp.
  destruct (alloc_items_frame (loop_rows imp (tw_days tw) false) t3) as (Hm & _ & _).
  rewrite Hm. reflexivity.
Qed.

(** ** Weekend grouping *)

(** The test [weekday() >= 5] of the render is the ISO one: weekday
    number 6 or 7 of the seven. *)
Lemma is_weekend_iso (d : typed_day) : is_weekend d = iso_weekend d.
Proof.
  unfold is_weekend, iso_weekend, weekday, isoweekday.
  set (o := toordinal (td_date d)).
  rewrite Zplus_mod.
  pose proof (Z.mod_pos_bound o 7 ltac:(lia)) as Hr.
  set (r := o mod 7) in *.
  assert (Hcases : r = 0 \/ r = 1 \/ r = 2 \/ r = 3 \/ r = 4 \/ r = 5 \/ r = 6)
    by lia.
  destruct Hcases as [-> | [-> | [-> | [-> | [-> | [-> | ->]]]]]]; reflexivity.
Qed.

Lemma isoweekday_range (d : date) : 1 <= isoweekday d <= 7.
Proof.
  unfold isoweekday.
  pose proof (Z.mod_pos_bound (toordinal d) 7 ltac:(lia)) as Hr.
  destruct (Z.eqb_spec (toordinal d mod 7) 0); lia.
Qed.

Lemma loop_rows_bracket (imp : bool) (tds : list typed_day) :
  forall prev,
    loop_rows imp tds prev
    = (if prev && negb (head_weekend tds) then [EmptyString] else [])
      ++ bracket_rows imp prev tds.
Proof.
  induction tds as [| d ds IH]; intros prev;
    cbn [loop_rows bracket_rows head_weekend].
  - rewrite app_nil_r. destruct prev; reflexivity.
  - rewrite IH. unfold step_rows. rewrite is_weekend_iso.
    destruct (iso_weekend d), prev; cbn [andb negb app]; reflexivity.
Qed.

Lemma weekend_at_app_r (pre suf : list typed_day) (j : nat) :
  weekend_at (pre ++ suf) (List.length pre + j) = weekend_at suf j.
Proof.
  unfold weekend_at. rewrite nth_error_app2 by lia.
  replace (List.length pre + j - List.length pre)%nat with j by lia. reflexivity.
Qed.

Lemma spec_rows_bracket_from (imp : bool) (suf : list typed_day) :
  forall (pre : list typed_day) (prev : bool),
    match List.length pre with
    | O => true
    | S j => negb (weekend_at (pre ++ suf) j)
    end = negb prev ->
    flat_map (spec_rows_at imp (pre ++ suf)) (seq (List.length pre) (List.length suf))
    = bracket_rows imp prev suf.
Proof.
  induction suf as [| d ds IH]; intros pre prev Hprev; [reflexivity |].
  cbn [List.length seq flat_map bracket_rows].
  assert (Hd : nth_error (pre ++ d :: ds) (List.length pre) = Some d).
  { rewrite nth_error_app2 by lia. rewrite Nat.sub_diag. reflexivity. }
  assert (Hwd : weekend_at (pre ++ d :: ds) (List.length pre) = iso_weekend d).
  { unfold weekend_at. rewrite Hd. reflexivity. }
  assert (Hnext : weekend_at (pre ++ d :: ds) (S (List.length pre)) = head_weekend ds).
  { replace (S (List.length pre)) with (List.length pre + 1)%nat by lia.
    rewrite weekend_at_app_r. destruct ds; reflexivity. }
  unfold spec_rows_at at 1. rewrite Hd.
  unfold first_of_run, last_of_run. rewrite Hwd, Hnext, Hprev.
  rewrite <- !app_assoc. f_equal. f_equal. f_equal.
  specialize (IH (pre ++ [d]) (iso_weekend d)).
  rewrite <- app_assoc in IH. cbn [app] in IH.
  rewrite length_app in IH. cbn [List.length] in IH.
  replace (List.length pre + 1)%nat with (S (List.length pre)) in IH by lia.
  apply IH. rewrite Hwd. reflexivity.
Qed.

(** The rows of the render are the rows of the specification: a blank
    before the first day of each run of weekend days, a blank after the
    last day of each run, and no other. *)
Lemma loop_rows_spec (imp : bool) (tds : list typed_day) :
  loop_rows imp tds false = spec_rows imp tds.
Proof.
  rewrite loop_rows_bracket. cbn [andb app]. unfold spec_rows.
  symmetry. exact (spec_rows_bracket_from imp tds [] false eq_refl).
Qed.

(** ** The widgets after a render *)

Lemma alloc_items_lookup_old (xs : list string) :
  forall t i,
    (i < next_widget t)%nat ->
    widgets (alloc_items xs t) !! i = widgets t !! i.
Proof.
  induction xs as [| x xs IH]; intros t i Hi; cbn [alloc_items]; [reflexivity |].
  rewrite IH by (cbn; lia). cbn. apply lookup_insert_ne. lia.
Qed.

Lemma alloc_items_lookup_new (xs : list string) :
  forall t j x,
    nth_error xs j = Some x ->
    widgets (alloc_items xs t) !! (next_widget t + j)%nat = Some (item_widget x).
Proof.
  induction xs as [| y xs IH]; intros t j x Hj; [destruct j; discriminate |].
  cbn [alloc_items]. destruct j as [| j]; cbn in Hj.
  - injection Hj as <-. rewrite Nat.add_0_r.
    rewrite alloc_items_lookup_old by (cbn; lia). cbn. apply lookup_insert_eq.
  - replace (next_widget t + S j)%nat with (next_widget (alloc_item y t) + j)%nat
      by (cbn; lia).
    apply IH. exact Hj.
Qed.

Lemma label_of_alloc_old (xs : list string) (t : toolkit) (i : nat) :
  (i < next_widget t)%nat -> label_of (alloc_items xs t) i = label_of t i.
Proof. intros Hi. unfold label_of. rewrite alloc_items_lookup_old by exact Hi. reflexivity. Qed.

Lemma labels_of_alloc_new (xs : list string) (t : toolkit) :
  map (label_of (alloc_items xs t)) (seq (next_widget t) (List.length xs))
  = map Some xs.
Proof.
  apply nth_error_ext. intros j.
  rewrite !nth_error_map.
  destruct (nth_error xs j) as [x |] eqn:Hx.
  - assert (Hj : (j < List.length xs)%nat) by (apply nth_error_Some; congruence).
    rewrite nth_error_seq. destruct (Nat.ltb_spec j (List.length xs)); [| lia].
    cbn. unfold label_of. rewrite (alloc_items_lookup_new xs t j x Hx). reflexivity.
  - assert (Hj : (List.length xs <= j)%nat) by (apply nth_error_None; exact Hx).
    rewrite nth_error_seq. destruct (Nat.ltb_spec j (List.length xs)); [lia |].
    reflexivity.
Qed.

Lemma label_of_set_menu (m : list nat) (t : toolkit) (i : nat) :
  label_of (set_menu m t) i = label_of t i.
Proof. reflexivity. Qed.

Lemma label_of_set_indicator_label (s : string) (t : toolkit) (i : nat) :
  label_of (set_indicator_label s t) i = label_of t i.
Proof. reflexivity. Qed.

Lemma label_of_set_label_text (item : nat) (text : string) (t : toolkit) (i : nat) :
  label_of (set_label_text item text t) i
  = if Nat.eqb i item
    then match widgets t !! item with Some _ => Some text | None => None end
    else label_of t i.
Proof.
  unfold label_of, set_label_text.
  destruct (Nat.eqb_spec i item) as [-> | Hne].
  - destruct (widgets t !! item) as [wd |] eqn:Hw; cbn.
    + rewrite lookup_insert_eq. reflexivity.
    + rewrite Hw. reflexivity.
  - destruct (widgets t !! item) as [wd |]; cbn; [| reflexivity].
    rewrite lookup_insert_ne by congruence. reflexivity.
Qed.

Lemma set_label_text_frame (item : nat) (text : string) (t : toolkit) :
  menu (set_label_text item text t) = menu t
  /\ next_widget (set_label_text item text t) = next_widget t
  /\ indicator_label (set_label_text item text t) = indicator_label t
  /\ idle (set_label_text item text t) = idle t.
Proof.
  unfold set_label_text. destruct (widgets t !! item); cbn; auto.
Qed.

(** Away from the current-weather item, the removal test does not see
    the change of its text. *)
Lemma to_remove_set_label_text (me : monitor) (text : string) (t : toolkit) (i : nat) :
  to_remove me (set_label_text (current_item me) text t) i = to_remove me t i.
Proof.
  unfold to_remove.
  destruct (Nat.eqb_spec i (current_item me)) as [-> | Hne];
    [rewrite orb_true_r; reflexivity |].
  destruct (Nat.eqb i (location_item me)); [reflexivity |]. cbn [orb].
  unfold set_label_text.
  destruct (widgets t !! current_item me) as [wd |]; cbn; [| reflexivity].
  rewrite lookup_insert_ne by congruence. reflexivity.
Qed.

Lemma wf_fields (w : world) :
  wf w = true ->
  has_label (gtk w) (current_item (self w)) = true
  /\ Forall (fun i => (i < next_widget (gtk w))%nat) (menu (gtk w))
  /\ (current_item (self w) < next_widget (gtk w))%nat
  /\ (location_item (self w) < next_widget (gtk w))%nat.
Proof.
  unfold wf. intros H.
  apply andb_prop in H as [H H4]. apply andb_prop in H as [H H3].
  apply andb_prop in H as [H1 H2].
  apply Nat.ltb_lt in H3, H4.
  split; [exact H1 |]. split; [| split; assumption].
  apply List.Forall_forall. intros i Hi.
  apply Nat.ltb_lt. rewrite forallb_forall in H2. exact (H2 i Hi).
Qed.

Lemma kept_old (me : monitor) (t : toolkit) (n : nat) :
  Forall (fun i => (i < n)%nat) (menu t) ->
  Forall (fun i => (i < n)%nat) (kept me t).
Proof.
  intros H. unfold kept. rewrite List.Forall_forall in *.
  intros i Hi. apply List.filter_In in Hi as [Hi _]. exact (H i Hi).
Qed.

Lemma next_widget_set_label_text (item : nat) (text : string) (t : toolkit) :
  next_widget (set_label_text item text t) = next_widget t.
Proof. apply set_label_text_frame. Qed.

Lemma menu_set_label_text (item : nat) (text : string) (t : toolkit) :
  menu (set_label_text item text t) = menu t.
Proof. apply set_label_text_frame. Qed.

Lemma indicator_label_set_label_text (item : nat) (text : string) (t : toolkit) :
  indicator_label (set_label_text item text t) = indicator_label t.
Proof. apply set_label_text_frame. Qed.

Lemma idle_set_label_text (item : nat) (text : string) (t : toolkit) :
  idle (set_label_text item text t) = idle t.
Proof. apply set_label_text_frame. Qed.

Lemma indicator_label_alloc_items (xs : list string) (t : toolkit) :
  indicator_label (alloc_items xs t) = indicator_label t.
Proof. apply alloc_items_frame. Qed.

Lemma idle_alloc_items (xs : list string) (t : toolkit) :
  idle (alloc_items xs t) = idle t.
Proof. apply alloc_items_frame. Qed.

Section Rendered.
Variables (w : world) (tw : typed_weather).
Hypothesis Hwf : wf w = true.

Lemma kept_rendered :
    kept (self w)
      (set_label_text (current_item (self w))
         (current_line (use_imperial (self w)) (tw_temp tw) (tw_code tw))
         (set_indicator_label
            (label_text (use_imperial (self w)) (tw_temp tw) (tw_code tw)) (gtk w)))
    = kept (self w) (gtk w).
  Proof.
    unfold kept.
    rewrite menu_set_label_text. cbn [menu set_indicator_label].
    apply List.filter_ext. intros i. rewrite to_remove_set_label_text. reflexivity.
  Qed.

Lemma rendered_self : self (rendered tw w) = self w.
  Proof. reflexivity. Qed.

Lemma rendered_indicator_label :
    indicator_label (gtk (rendered tw w))
    = label_text (use_imperial (self w)) (tw_temp tw) (tw_code tw).
  Proof.
    unfold rendered. cbn [gtk indicator_label set_menu].
    rewrite indicator_label_alloc_items.
    cbn [indicator_label set_menu].
    rewrite indicator_label_set_label_text.
    reflexivity.
  Qed.

Lemma rendered_idle : idle (gtk (rendered tw w)) = idle (gtk w).
  Proof.
    unfold rendered. cbn [gtk idle set_menu].
    rewrite idle_alloc_items.
    cbn [idle set_menu].
    rewrite idle_set_label_text.
    reflexivity.
  Qed.

Lemma rendered_menu :
    menu (gtk (rendered tw w))
    = firstn 3 (kept (self w) (gtk w))
      ++ seq (next_widget (gtk w))
             (List.length (loop_rows (use_imperial (self w)) (tw_days tw) false))
      ++ skipn 3 (kept (self w) (gtk w)).
  Proof.
    unfold rendered. cbn [gtk menu set_menu]. rewrite kept_rendered.
    rewrite next_widget_set_label_text.
    reflexivity.
  Qed.

Lemma rendered_next_widget :
    next_widget (gtk (rendered tw w))
    = (next_widget (gtk w)
       + List.length (loop_rows (use_imperial (self w)) (tw_days tw) false))%nat.
  Proof.
    unfold rendered. cbn [gtk next_widget set_menu]. rewrite alloc_items_next.
    cbn [next_widget set_menu].
    rewrite next_widget_set_label_text.
    reflexivity.
  Qed.

Lemma rendered_widget_old (i : nat) :
    (i < next_widget (gtk w))%nat ->
    i <> current_item (self w) ->
    widgets (gtk (rendered tw w)) !! i = widgets (gtk w) !! i.
  Proof.
    intros Hi Hne. unfold rendered. cbn [gtk widgets set_menu].
    rewrite alloc_items_lookup_old.
    - cbn [widgets set_menu]. unfold set_label_text.
      destruct (widgets _ !! current_item (self w)); cbn; [| reflexivity].
      rewrite lookup_insert_ne by congruence. reflexivity.
    - cbn [next_widget set_menu].
      rewrite next_widget_set_label_text.
      exact Hi.
  Qed.

Lemma rendered_widget_new (j : nat) (x : string) :
    nth_error (loop_rows (use_imperial (self w)) (tw_days tw) false) j = Some x ->
    widgets (gtk (rendered tw w)) !! (next_widget (gtk w) + j)%nat
    = Some (item_widget x).
  Proof.
    intros Hj. unfold rendered. cbn [gtk widgets set_menu].
    match goal with |- widgets (alloc_items ?xs ?t) !! _ = _ =>
      rewrite <- (alloc_items_lookup_new xs t j x Hj) end.
    cbn [next_widget set_menu].
    rewrite next_widget_set_label_text.
    reflexivity.
  Qed.

Lemma rendered_current_label :
    label_of (gtk (rendered tw w)) (current_item (self w))
    = Some (current_line (use_imperial (self w)) (tw_temp tw) (tw_code tw)).
  Proof.
    destruct (wf_fields w Hwf) as (Hlab & _ & Hcur & _).
    unfold rendered. cbn [gtk].
    rewrite label_of_set_menu, label_of_alloc_old, label_of_set_menu.
    - rewrite label_of_set_label_text, Nat.eqb_refl.
      unfold has_label, label_of in Hlab. cbn [widgets set_indicator_label].
      destruct (widgets (gtk w) !! current_item (self w)); [reflexivity | discriminate].
    - cbn [next_widget set_menu].
      rewrite next_widget_set_label_text.
      exact Hcur.
  Qed.

Lemma rendered_to_remove_old (i : nat) :
    (i < next_widget (gtk w))%nat ->
    to_remove (self w) (gtk (rendered tw w)) i = to_remove (self w) (gtk w) i.
  Proof.
    intros Hi. unfold to_remove.
    destruct (Nat.eqb_spec i (current_item (self w))) as [-> | Hne];
      [rewrite !orb_true_r; reflexivity |].
    rewrite rendered_widget_old by assumption. reflexivity.
  Qed.

Lemma rendered_to_remove_new (j : nat) (x : string) :
    nth_error (loop_rows (use_imperial (self w)) (tw_days tw) false) j = Some x ->
    to_remove (self w) (gtk (rendered tw w)) (next_widget (gtk w) + j)
    = is_forecast_text x.
  Proof.
    intros Hj. destruct (wf_fields w Hwf) as (_ & _ & Hcur & Hloc).
    unfold to_remove. rewrite (rendered_widget_new j x Hj).
    destruct (Nat.eqb_spec (next_widget (gtk w) + j) (location_item (self w))); [lia |].
    destruct (Nat.eqb_spec (next_widget (gtk w) + j) (current_item (self w))); [lia |].
    reflexivity.
  Qed.

Lemma rendered_wf : wf (rendered tw w) = true.
  Proof.
    destruct (wf_fields w Hwf) as (Hlab & Hmenu & Hcur & Hloc).
    unfold wf. rewrite rendered_self, rendered_next_widget.
    apply andb_true_intro. split; [apply andb_true_intro; split;
      [apply andb_true_intro; split |] |].
    - unfold has_label. rewrite rendered_current_label. reflexivity.
    - rewrite rendered_menu. apply forallb_forall. intros i Hi.
      apply Nat.ltb_lt. apply in_app_or in Hi as [Hi | Hi];
        [| apply in_app_or in Hi as [Hi | Hi]].
      + pose proof (kept_old (self w) (gtk w) _ Hmenu) as Hk.
        rewrite List.Forall_forall in Hk.
        assert (In i (kept (self w) (gtk w)))
          by (rewrite <- (firstn_skipn 3); apply in_or_app; auto).
        specialize (Hk i H). lia.
      + apply in_seq in Hi. lia.
      + pose proof (kept_old (self w) (gtk w) _ Hmenu) as Hk.
        rewrite List.Forall_forall in Hk.
        assert (In i (kept (self w) (gtk w)))
          by (rewrite <- (firstn_skipn 3); apply in_or_app; auto).
        specialize (Hk i H). lia.
    - apply Nat.ltb_lt. lia.
    - apply Nat.ltb_lt. lia.
  Qed.
End Rendered.

(** ** The forecast lines on display *)

Lemma weekday_range (d : date) : 0 <= weekday d < 7.
Proof. unfold weekday. apply Z.mod_pos_bound. lia. Qed.

(** A forecast line starts with a weekday abbreviation, so the removal
    pass takes it. *)
Lemma forecast_line_is_forecast_text (imp : bool) (d : typed_day) :
  is_forecast_text (forecast_line imp d) = true.
Proof.
  unfold forecast_line, strftime_a_b_d.
  pose proof (weekday_range (td_date d)) as Hr.
  set (r := weekday (td_date d)) in *.
  assert (Hcases : r = 0 \/ r = 1 \/ r = 2 \/ r = 3 \/ r = 4 \/ r = 5 \/ r = 6)
    by lia.
  destruct Hcases as [-> | [-> | [-> | [-> | [-> | [-> | ->]]]]]]; reflexivity.
Qed.

Lemma filter_forecast_rows (imp : bool) (tds : list typed_day) :
  forall last,
    List.filter is_forecast_text (loop_rows imp tds last)
    = map (forecast_line imp) tds.
Proof.
  induction tds as [| d ds IH]; intros last; cbn [loop_rows map].
  - destruct last; reflexivity.
  - rewrite List.filter_app, IH. unfold step_rows. rewrite List.filter_app.
    cbn [List.filter]. rewrite forecast_line_is_forecast_text.
    destruct (is_weekend d), last; reflexivity.
Qed.

Lemma labels_filter_seq {A} (L : nat -> option A) (P : nat -> bool)
    (Q : A -> bool) (xs : list A) :
  forall n0,
    (forall j x, nth_error xs j = Some x ->
                 P (n0 + j)%nat = Q x /\ L (n0 + j)%nat = Some x) ->
    map L (List.filter P (seq n0 (List.length xs)))
    = map Some (List.filter Q xs).
Proof.
  induction xs as [| x xs IH]; intros n0 H; [reflexivity |].
  cbn [List.length seq List.filter].
  destruct (H 0%nat x eq_refl) as [HP HL]. rewrite Nat.add_0_r in HP, HL.
  assert (Hrest : map L (List.filter P (seq (S n0) (List.length xs)))
                  = map Some (List.filter Q xs)).
  { apply IH. intros j y Hj. specialize (H (S j) y Hj).
    rewrite Nat.add_succ_r in H. exact H. }
  rewrite HP. destruct (Q x); cbn [map]; rewrite Hrest; congruence.
Qed.

Lemma filter_none {A} (P : A -> bool) (l : list A) :
  (forall x, In x l -> P x = false) -> List.filter P l = [].
Proof.
  induction l as [| x l IH]; intros H; [reflexivity |].
  cbn. rewrite (H x (or_introl eq_refl)). apply IH. intros y Hy. apply H. right. exact Hy.
Qed.

Lemma kept_not_removed (me : monitor) (t : toolkit) (i : nat) :
  In i (kept me t) -> to_remove me t i = false.
Proof.
  unfold kept. intros H. apply List.filter_In in H as [_ H].
  apply negb_true_iff. exact H.
Qed.

Lemma forecast_lines_rendered (w : world) (tw : typed_weather) :
  wf w = true ->
  forecast_lines (rendered tw w)
  = map (fun d => Some (forecast_line (use_imperial (self w)) d)) (tw_days tw).
Proof.
  intros Hwf. destruct (wf_fields w Hwf) as (_ & Hmenu & _).
  pose proof (kept_old (self w) (gtk w) _ Hmenu) as Hk.
  rewrite List.Forall_forall in Hk.
  assert (Hold : forall l, (forall i, In i l -> In i (kept (self w) (gtk w))) ->
            List.filter (to_remove (self w) (gtk (rendered tw w))) l = []).
  { intros l Hl. apply filter_none. intros i Hi.
    rewrite (rendered_to_remove_old w tw i) by (apply Hk, Hl, Hi).
    apply kept_not_removed, Hl, Hi. }
  unfold forecast_lines. rewrite rendered_self, rendered_menu.
  rewrite !List.filter_app, !map_app.
  rewrite (Hold (firstn 3 _)), (Hold (skipn 3 _)); cbn [map app].
  - rewrite app_nil_r.
    rewrite (labels_filter_seq _ _ is_forecast_text).
    + rewrite filter_forecast_rows, map_map. reflexivity.
    + intros j x Hj. split.
      * apply (rendered_to_remove_new w tw Hwf j x Hj).
      * unfold label_of. rewrite (rendered_widget_new w tw j x Hj). reflexivity.
  - intros i Hi. rewrite <- (firstn_skipn 3). apply in_or_app. right. exact Hi.
  - intros i Hi. rewrite <- (firstn_skipn 3). apply in_or_app. left. exact Hi.
Qed.

(** After a render the display is a function of the weather data and
    the unit. *)
Lemma display_rendered (w : world) (tw : typed_weather) :
  wf w = true ->
  display (rendered tw w) = shown_display (use_imperial (self w)) tw.
Proof.
  intros Hwf. unfold display, shown_display.
  rewrite rendered_indicator_label, rendered_self, rendered_current_label
    by exact Hwf.
  rewrite forecast_lines_rendered by exact Hwf. reflexivity.
Qed.

(** ** Toggling the unit *)

Lemma set_idle_nil (t : toolkit) : idle t = [] -> set_idle [] t = t.
Proof. destruct t; cbn. intros ->. reflexivity. Qed.

Lemma select_unit_rendered (w : world) (tw : typed_weather) (b : bool) :
  decode_weather (self w) = Some tw ->
  wf w = true ->
  idle (gtk w) = [] ->
  use_imperial (self w) = negb b ->
  ui_steps (select_unit b) w
  = rendered tw (mk_world (set_use_imperial b (self w)) (gtk w)).
Proof.
  intros Hdec Hwf Hidle Himp.
  destruct (wf_fields w Hwf) as (Hlab & _).
  unfold select_unit, ui_steps. cbn [fold_left ui_step].
  unfold on_unit_toggled at 2. unfold_monad. cbn [andb snd].
  unfold on_unit_toggled, idle_add. unfold_monad. cbn [self gtk fst snd].
  rewrite Himp.
  replace (Bool.eqb b (negb b)) with false by (destruct b; reflexivity).
  cbn [andb negb snd].
  unfold dispatch_idle. cbn [gtk self idle set_idle]. rewrite Hidle.
  cbn [app fold_left run_callback].
  rewrite (update_weather_ui_typed _ tw).
  - cbn [snd]. f_equal. f_equal. destruct (gtk w); cbn in *. subst. reflexivity.
  - destruct w as [[] ?]; exact Hdec.
  - exact Hlab.
Qed.

Lemma wf_set_use_imperial (b : bool) (m : monitor) (t : toolkit) :
  wf (mk_world (set_use_imperial b m) t) = wf (mk_world m t).
Proof. reflexivity. Qed.

Lemma decode_weather_set_use_imperial (b : bool) (m : monitor) :
  decode_weather (set_use_imperial b m) = decode_weather m.
Proof. reflexivity. Qed.

(** C6: for a weather state at the data model's types, shown under
    imperial, picking metric and then imperial again shows the first
    display again: label, current line and forecast lines are the ones
    the data and the unit determine. *)
Theorem C6_unit_toggle_twice_restores_display (w : world) (tw : typed_weather) :
  decode_weather (self w) = Some tw ->
  wf w = true ->
  idle (gtk w) = [] ->
  use_imperial (self w) = true ->
  let w1 := snd (update_weather_ui w) in
  let w2 := ui_steps (select_unit false) w1 in
  let w3 := ui_steps (select_unit true) w2 in
  display w1 = shown_display true tw
  /\ display w2 = shown_display false tw
  /\ display w3 = display w1.
Proof.
  intros Hdec Hwf Hidle Himp.
  destruct (wf_fields w Hwf) as (Hlab & _).
  cbn zeta. rewrite (update_weather_ui_typed w tw Hdec Hlab). cbn [snd].
  pose proof (rendered_wf w tw Hwf) as Hwf1.
  assert (Hd1 : display (rendered tw w) = shown_display true tw)
    by (rewrite display_rendered, Himp by exact Hwf; reflexivity).
  rewrite (select_unit_rendered (rendered tw w) tw false);
    [| exact Hdec | exact Hwf1 | rewrite rendered_idle; exact Hidle
     | rewrite rendered_self; exact Himp].
  set (w1' := mk_world (set_use_imperial false (self (rendered tw w)))
                       (gtk (rendered tw w))).
  assert (Hwf1' : wf w1' = true) by exact Hwf1.
  pose proof (rendered_wf w1' tw Hwf1') as Hwf2.
  assert (Hd2 : display (rendered tw w1') = shown_display false tw)
    by (rewrite display_rendered by exact Hwf1'; reflexivity).
  rewrite (select_unit_rendered (rendered tw w1') tw true);
    [| exact Hdec | exact Hwf2 | rewrite rendered_idle; subst w1'; cbn [gtk];
       rewrite rendered_idle; exact Hidle | reflexivity].
  set (w2' := mk_world (set_use_imperial true (self (rendered tw w1')))
                       (gtk (rendered tw w1'))).
  assert (Hwf2' : wf w2' = true) by exact Hwf2.
  split; [exact Hd1 |]. split; [exact Hd2 |].
  rewrite Hd1. rewrite display_rendered by exact Hwf2'. reflexivity.
Qed.

(** ** Temperatures on display *)

(** [tenths] is the nearest integer to ten times the float, a tie going
    to the even one. *)
Lemma tenths_nearest (m : positive) (e : Z) :
  let n := Float.tenths m e in
  if 0 <=? e then n = Zpos m * 2 ^ e * 10
  else 2 * Z.abs (Zpos m * 10 - n * 2 ^ (- e)) <= 2 ^ (- e)
       /\ (2 * Z.abs (Zpos m * 10 - n * 2 ^ (- e)) = 2 ^ (- e) -> Z.even n = true).
Proof.
  unfold Float.tenths. destruct (Z.leb_spec 0 e) as [He | He]; [reflexivity |].
  cbn zeta.
  assert (Hden : 0 < 2 ^ (- e)) by (apply Z.pow_pos_nonneg; lia).
  set (den := 2 ^ (- e)) in *. set (a := Zpos m * 10).
  pose proof (Z.div_mod a den ltac:(lia)) as Hdm.
  pose proof (Z.mod_pos_bound a den Hden) as Hr.
  set (q := a / den) in *. set (r := a mod den) in *.
  destruct (Z.compare_spec (2 * r) den) as [Heq | Hlt | Hgt].
  - destruct (Z.even q) eqn:Hev.
    + split; [nia |]. intros _. exact Hev.
    + split; [nia |]. intros _. rewrite Z.even_add, Hev. reflexivity.
  - split; [nia |]. intros H. exfalso. nia.
  - split; [nia |]. intros H. exfalso. nia.
Qed.

(** On the temperatures with one decimal between -100.0 and 100.0
    degrees, the text shown is the exact value, [c * 9/5 + 32] under
    imperial and [c] under metric, rounded to one decimal. *)
Lemma grid_exact_all : forallb grid_exact tenths_grid = true.
Proof. vm_compute. reflexivity. Qed.

Lemma grid_exact_at (k : Z) :
  -1000 <= k <= 1000 ->
  Float.format_1f (float_c2f (Float.of_ratio k 10))
  = decimal_1f (18 * k + 3200) 100
  /\ Float.format_1f (Float.of_ratio k 10) = decimal_1f k 10.
Proof.
  intros Hk. pose proof grid_exact_all as H. rewrite forallb_forall in H.
  assert (Hin : In k tenths_grid).
  { unfold tenths_grid. apply in_map_iff. exists (Z.to_nat (k + 1000)).
    split; [lia |]. apply in_seq. lia. }
  specialize (H k Hin). unfold grid_exact in H.
  apply andb_prop in H as [H1 H2].
  apply String.eqb_eq in H1, H2. auto.
Qed.

Lemma decode_wednesday :
  decode_weather (self wednesday_world) = Some wednesday_weather.
Proof. vm_compute. reflexivity. Qed.

Lemma wf_wednesday : wf wednesday_world = true.
Proof. vm_compute. reflexivity. Qed.

(** C3: a render of a weather state at the data model's types shows the
    current temperature and every forecast maximum and minimum through
    the same conversion, [(c * 9/5) + 32] in float arithmetic under
    imperial and [c] itself under metric, each written with one decimal
    (the nearest tenth of the float); on temperatures with one decimal
    up to 100 degrees that text is the exact [c * 9/5 + 32] rounded to
    one decimal; 20.0 degrees with code 0 gives the label "☀️ 68.0°F"
    under imperial and "☀️ 20.0°C" under metric. *)
Theorem C3_conversion_and_one_decimal (w : world) (tw : typed_weather) :
  decode_weather (self w) = Some tw ->
  wf w = true ->
  (fst (update_weather_ui w) = Ok false
   /\ display (snd (update_weather_ui w))
      = shown_display (use_imperial (self w)) tw)
  /\ (forall c,
        shown true c
        = Float.add (Float.div (Float.mul c (Float.of_Z 9)) (Float.of_Z 5))
                    (Float.of_Z 32)
        /\ shown false c = c)
  /\ (forall m e,
        let n := Float.tenths m e in
        if 0 <=? e then n = Zpos m * 2 ^ e * 10
        else 2 * Z.abs (Zpos m * 10 - n * 2 ^ (- e)) <= 2 ^ (- e)
             /\ (2 * Z.abs (Zpos m * 10 - n * 2 ^ (- e)) = 2 ^ (- e)
                 -> Z.even n = true))
  /\ (forall k, -1000 <= k <= 1000 ->
        Float.format_1f (shown true (Float.of_ratio k 10))
        = decimal_1f (18 * k + 3200) 100
        /\ Float.format_1f (shown false (Float.of_ratio k 10)) = decimal_1f k 10)
  /\ indicator_label (gtk (snd (update_weather_ui wednesday_world))) = "☀️ 68.0°F"
  /\ indicator_label (gtk (snd (update_weather_ui wednesday_world_metric)))
     = "☀️ 20.0°C".
Proof.
  intros Hdec Hwf. destruct (wf_fields w Hwf) as (Hlab & _).
  split; [| split; [| split; [| split; [| split]]]].
  - rewrite (update_weather_ui_typed w tw Hdec Hlab). cbn [fst snd].
    split; [reflexivity | apply display_rendered; exact Hwf].
  - intros c. split; reflexivity.
  - exact tenths_nearest.
  - exact grid_exact_at.
  - vm_compute. reflexivity.
  - vm_compute. reflexivity.
Qed.

Lemma C3_witness :
  decode_weather (self wednesday_world) = Some wednesday_weather
  /\ wf wednesday_world = true
  /\ display (snd (update_weather_ui wednesday_world))
     = shown_display true wednesday_weather.
Proof.
  split; [exact decode_wednesday |]. split; [exact wf_wednesday |].
  exact (proj2 (proj1 (C3_conversion_and_one_decimal wednesday_world
                         wednesday_weather decode_wednesday wf_wednesday))).
Defined.

Lemma C6_witness :
  decode_weather (self wednesday_world) = Some wednesday_weather
  /\ wf wednesday_world = true
  /\ idle (gtk wednesday_world) = []
  /\ use_imperial (self wednesday_world) = true
  /\ display (ui_steps (select_unit true)
                (ui_steps (select_unit false)
                   (snd (update_weather_ui wednesday_world))))
     = display (snd (update_weather_ui wednesday_world)).
Proof.
  split; [exact decode_wednesday |]. split; [exact wf_wednesday |].
  split; [reflexivity |]. split; [reflexivity |].
  exact (proj2 (proj2 (C6_unit_toggle_twice_restores_display wednesday_world
                         wednesday_weather decode_wednesday wf_wednesday
                         eq_refl eq_refl))).
Defined.

(** ** The menu after a render *)

Lemma rendered_label_old (w : world) (tw : typed_weather) (i : nat) :
  (i < next_widget (gtk w))%nat ->
  i <> current_item (self w) ->
  label_of (gtk (rendered tw w)) i = label_of (gtk w) i.
Proof.
  intros Hi Hne. unfold label_of. rewrite rendered_widget_old by assumption.
  reflexivity.
Qed.

Lemma rendered_labels_new (w : world) (tw : typed_weather) :
  map (label_of (gtk (rendered tw w)))
      (seq (next_widget (gtk w))
           (List.length (loop_rows (use_imperial (self w)) (tw_days tw) false)))
  = map Some (loop_rows (use_imperial (self w)) (tw_days tw) false).
Proof.
  apply nth_error_ext. intros j. rewrite !nth_error_map, nth_error_seq.
  destruct (nth_error (loop_rows _ _ _) j) as [x |] eqn:Hx.
  - assert (Hj : (j < List.length (loop_rows (use_imperial (self w)) (tw_days tw) false))%nat)
      by (apply nth_error_Some; congruence).
    destruct (Nat.ltb_spec j (List.length (loop_rows (use_imperial (self w)) (tw_days tw) false)));
      [| lia].
    cbn [option_map]. unfold label_of.
    rewrite (rendered_widget_new w tw j x Hx). reflexivity.
  - assert (Hj : (List.length (loop_rows (use_imperial (self w)) (tw_days tw) false) <= j)%nat)
      by (apply nth_error_None; exact Hx).
    destruct (Nat.ltb_spec j (List.length (loop_rows (use_imperial (self w)) (tw_days tw) false)));
      [lia | reflexivity].
Qed.

Lemma kept_refs (me me' : monitor) (t : toolkit) :
  location_item me = location_item me' ->
  current_item me = current_item me' ->
  kept me t = kept me' t.
Proof.
  intros Hl Hc. unfold kept. apply List.filter_ext. intros i.
  unfold to_remove. rewrite Hl, Hc. reflexivity.
Qed.

Lemma kept_initial :
  kept (self initial_world) (gtk initial_world)
  = [0; 1; 2; 18; 19; 20; 21; 22]%nat.
Proof. vm_compute. reflexivity. Qed.

Lemma forecast_line_not_blank (imp : bool) (d : typed_day) :
  forecast_line imp d <> EmptyString.
Proof.
  pose proof (forecast_line_is_forecast_text imp d) as H.
  intros Heq. rewrite Heq in H. discriminate.
Qed.

(** C2: rendered on the menu the constructor builds, a forecast at the
    data model's types puts between the first separator and the
    preferences the forecast lines in order, with a blank item before
    the first day of each maximal run of weekend days and after the
    last day of each run, the end of the forecast included, and no
    other blank item; the render's weekend test is ISO weekday 6 or 7,
    the two highest of the seven. *)
Theorem C2_weekend_separators (w : world) (tw : typed_weather) :
  decode_weather (self w) = Some tw ->
  gtk w = gtk initial_world ->
  location_item (self w) = location_item (self initial_world) ->
  current_item (self w) = current_item (self initial_world) ->
  let imp := use_imperial (self w) in
  fst (update_weather_ui w) = Ok false
  /\ menu_labels (snd (update_weather_ui w))
     = [Some "Location: Detecting...";
        Some (current_line imp (tw_temp tw) (tw_code tw));
        None]
       ++ map Some (spec_rows imp (tw_days tw))
       ++ [None; Some "Preferences"; None; Some "Refresh Now"; Some "Quit"]
  /\ (forall d, forecast_line imp d <> EmptyString)
  /\ (forall d, is_weekend d = iso_weekend d)
  /\ (forall d, 1 <= isoweekday d <= 7).
Proof.
  intros Hdec Hgtk Hloc Hcur. cbn zeta.
  assert (Hwf : wf w = true).
  { unfold wf. rewrite Hgtk, Hloc, Hcur. vm_compute. reflexivity. }
  destruct (wf_fields w Hwf) as (Hlab & _).
  rewrite (update_weather_ui_typed w tw Hdec Hlab). cbn [fst snd].
  split; [reflexivity |].
  split; [| split; [apply forecast_line_not_blank
                   | split; [exact is_weekend_iso | exact isoweekday_range]]].
  unfold menu_labels. rewrite rendered_menu.
  rewrite (kept_refs (self w) (self initial_world) (gtk w) Hloc Hcur).
  replace (kept (self initial_world) (gtk w)) with [0; 1; 2; 18; 19; 20; 21; 22]%nat
    by (rewrite Hgtk; symmetry; apply kept_initial).
  cbn [firstn skipn].
  rewrite !map_app, rendered_labels_new, loop_rows_spec.
  assert (Hn : next_widget (gtk w) = 23%nat) by (rewrite Hgtk; reflexivity).
  assert (Hc : current_item (self w) = 1%nat) by (rewrite Hcur; reflexivity).
  cbn [map].
  pose proof (rendered_current_label w tw Hwf) as Hcl. rewrite Hc in Hcl.
  rewrite Hcl.
  rewrite !rendered_label_old by (rewrite ?Hn, ?Hc; lia).
  rewrite Hgtk. reflexivity.
Qed.

Lemma wednesday_clean :
  gtk wednesday_world = gtk initial_world
  /\ location_item (self wednesday_world) = location_item (self initial_world)
  /\ current_item (self wednesday_world) = current_item (self initial_world).
Proof. split; [| split]; vm_compute; reflexivity. Qed.

Lemma C2_witness :
  decode_weather (self wednesday_world) = Some wednesday_weather
  /\ fst (update_weather_ui wednesday_world) = Ok false
  /\ map (fun s => String.eqb s EmptyString) (spec_rows true (tw_days wednesday_weather))
     = [false; false; false; true; false; false; true;
        false; false; false; false; false; true; false; false; true;
        false; false; false].
Proof.
  split; [exact decode_wednesday |].
  split; [| vm_compute; reflexivity].
  destruct wednesday_clean as (Hg & Hl & Hc).
  destruct (C2_weekend_separators wednesday_world wednesday_weather
              decode_wednesday Hg Hl Hc) as [H _].
  exact H.
Defined.

(** ** Blank items pile up *)

(** The removal pass takes only items with a non-empty label text that
    starts with one of its prefixes. *)
Lemma to_remove_only_prefixed (me : monitor) (t : toolkit) (item : nat) :
  to_remove me t item = true ->
  exists text,
    label_of t item = Some text
    /\ text <> EmptyString
    /\ Exists (fun p => String.prefix p text = true) forecast_prefixes.
Proof.
  unfold to_remove, label_of, is_forecast_text.
  destruct (Nat.eqb item (location_item me) || Nat.eqb item (current_item me));
    [discriminate |].
  destruct (widgets t !! item) as [[[|] [text |] sv] |]; try discriminate.
  intros H. apply andb_prop in H as [Hne Hp].
  exists text. split; [reflexivity |]. split.
  - intros ->. discriminate.
  - apply List.Exists_exists. apply existsb_exists in Hp as (p & Hin & Hp).
    exists p. split; assumption.
Qed.

Lemma blank_not_removed (me : monitor) (t : toolkit) (item : nat) :
  is_blank t item = true -> to_remove me t item = false.
Proof.
  unfold is_blank, to_remove.
  destruct (Nat.eqb item (location_item me) || Nat.eqb item (current_item me));
    [reflexivity |].
  destruct (widgets t !! item) as [[[|] [text |] sv] |]; try discriminate.
  intros H. apply String.eqb_eq in H. subst text. reflexivity.
Qed.

Lemma closing_blank (imp : bool) (tds : list typed_day) :
  In EmptyString (loop_rows imp tds true).
Proof.
  induction tds as [| d ds IH]; cbn [loop_rows]; [left; reflexivity |].
  unfold step_rows. destruct (is_weekend d) eqn:Hd; cbn [andb negb app].
  - right. exact IH.
  - left. reflexivity.
Qed.

Lemma weekend_has_blank (imp : bool) (tds : list typed_day) :
  forall last,
    existsb is_weekend tds = true -> In EmptyString (loop_rows imp tds last).
Proof.
  induction tds as [| d ds IH]; intros last H; [discriminate |].
  cbn [existsb] in H. destruct (is_weekend d) eqn:Hd.
  - destruct last.
    + apply closing_blank.
    + cbn [loop_rows]. unfold step_rows. rewrite Hd. left. reflexivity.
  - cbn [orb] in H. cbn [loop_rows]. apply in_or_app. right.
    rewrite Hd. apply IH. exact H.
Qed.

Lemma filter_filter_sub {A} (P Q : A -> bool) (l : list A) :
  (forall x, P x = true -> Q x = true) ->
  List.filter P (List.filter Q l) = List.filter P l.
Proof.
  intros H. induction l as [| x l IH]; [reflexivity |]. cbn.
  destruct (Q x) eqn:HQ; cbn.
  - rewrite IH. reflexivity.
  - destruct (P x) eqn:HP; [rewrite (H x HP) in HQ; discriminate | exact IH].
Qed.

Section BlankItems.
Variables (v : world) (tw : typed_weather).
Hypothesis Hwf : wf v = true.
Hypothesis Hcur : is_blank (gtk v) (current_item (self v)) = false.

Lemma current_line_not_blank :
    is_blank (gtk (rendered tw v)) (current_item (self v)) = false.
  Proof.
    pose proof (rendered_current_label v tw Hwf) as H.
    unfold is_blank. unfold label_of in H.
    destruct (widgets (gtk (rendered tw v)) !! current_item (self v))
      as [[c l sv] |]; [| reflexivity].
    cbn in H. subst l. destruct c; reflexivity.
  Qed.

Lemma rendered_is_blank_old (i : nat) :
    (i < next_widget (gtk v))%nat ->
    is_blank (gtk (rendered tw v)) i = is_blank (gtk v) i.
  Proof.
    intros Hi. destruct (Nat.eq_dec i (current_item (self v))) as [-> | Hne].
    - rewrite current_line_not_blank, Hcur. reflexivity.
    - unfold is_blank. rewrite rendered_widget_old by assumption. reflexivity.
  Qed.

Lemma rendered_is_blank_new (j : nat) (x : string) :
    nth_error (loop_rows (use_imperial (self v)) (tw_days tw) false) j = Some x ->
    is_blank (gtk (rendered tw v)) (next_widget (gtk v) + j) = String.eqb x EmptyString.
  Proof.
    intros Hj. unfold is_blank. rewrite (rendered_widget_new v tw j x Hj).
    reflexivity.
  Qed.

Lemma kept_in_rendered_menu (i : nat) :
    In i (kept (self v) (gtk v)) -> In i (menu (gtk (rendered tw v))).
  Proof.
    intros Hi. rewrite rendered_menu.
    rewrite <- (firstn_skipn 3 (kept (self v) (gtk v))) in Hi.
    apply in_app_or in Hi as [Hi | Hi]; apply in_or_app; [left; exact Hi |].
    right. apply in_or_app. right. exact Hi.
  Qed.

  (** A blank item of the menu is still a blank item of the menu after
      a render. *)
Lemma blank_items_stay (i : nat) :
    In i (blank_items v) -> In i (blank_items (rendered tw v)).
  Proof.
    destruct (wf_fields v Hwf) as (_ & Hmenu & _).
    rewrite List.Forall_forall in Hmenu.
    unfold blank_items. intros Hi. apply List.filter_In in Hi as [Hin Hb].
    apply List.filter_In. split.
    - apply kept_in_rendered_menu. unfold kept. apply List.filter_In.
      split; [exact Hin |]. rewrite (blank_not_removed _ _ _ Hb). reflexivity.
    - rewrite rendered_is_blank_old by (apply Hmenu; exact Hin). exact Hb.
  Qed.

  (** The render adds one blank item per blank row. *)
Lemma blank_items_grow :
    List.length (blank_items (rendered tw v))
    = (List.length (blank_items v)
       + List.length (List.filter (fun x => String.eqb x EmptyString)
                        (loop_rows (use_imperial (self v)) (tw_days tw) false)))%nat.
  Proof.
    destruct (wf_fields v Hwf) as (_ & Hmenu & _).
    pose proof (kept_old (self v) (gtk v) _ Hmenu) as Hk.
    rewrite List.Forall_forall in Hk.
    assert (Hold : forall l, (forall i, In i l -> In i (kept (self v) (gtk v))) ->
              List.filter (is_blank (gtk (rendered tw v))) l
              = List.filter (is_blank (gtk v)) l).
    { intros l Hl. apply List.filter_ext_in. intros i Hi.
      apply rendered_is_blank_old, Hk, Hl, Hi. }
    unfold blank_items at 1. rewrite rendered_menu, !List.filter_app, !length_app.
    rewrite (Hold (firstn 3 _)), (Hold (skipn 3 _)).
    - assert (Hnew :
        List.length (List.filter (is_blank (gtk (rendered tw v)))
          (seq (next_widget (gtk v))
             (List.length (loop_rows (use_imperial (self v)) (tw_days tw) false))))
        = List.length (List.filter (fun x => String.eqb x EmptyString)
            (loop_rows (use_imperial (self v)) (tw_days tw) false))).
      { rewrite <- (length_map (label_of (gtk (rendered tw v)))).
        rewrite (labels_filter_seq _ _ (fun x => String.eqb x EmptyString)).
        - apply length_map.
        - intros j x Hj. split.
          + apply rendered_is_blank_new. exact Hj.
          + unfold label_of. rewrite (rendered_widget_new v tw j x Hj). reflexivity. }
      rewrite Hnew.
      assert (Hsplit :
        (List.length (List.filter (is_blank (gtk v)) (firstn 3 (kept (self v) (gtk v))))
         + List.length (List.filter (is_blank (gtk v)) (skipn 3 (kept (self v) (gtk v)))))%nat
        = List.length (blank_items v)).
      { rewrite <- length_app, <- List.filter_app, firstn_skipn.
        unfold kept, blank_items. rewrite filter_filter_sub; [reflexivity |].
        intros x Hx. rewrite (blank_not_removed _ _ _ Hx). reflexivity. }
      lia.
    - intros i Hi. rewrite <- (firstn_skipn 3). apply in_or_app. right. exact Hi.
    - intros i Hi. rewrite <- (firstn_skipn 3). apply in_or_app. left. exact Hi.
  Qed.

  (** With a weekend day in the forecast the render creates a blank
      item. *)
Lemma rendered_creates_blank :
    existsb is_weekend (tw_days tw) = true ->
    exists i, (next_widget (gtk v) <= i)%nat /\ In i (blank_items (rendered tw v)).
  Proof.
    intros Hwe.
    pose proof (weekend_has_blank (use_imperial (self v)) _ false Hwe) as Hin.
    apply In_nth_error in Hin as [j Hj].
    exists (next_widget (gtk v) + j)%nat. split; [lia |].
    unfold blank_items. apply List.filter_In. split.
    - rewrite rendered_menu. apply in_or_app. right. apply in_or_app. left.
      apply in_seq.
      assert (j < List.length (loop_rows (use_imperial (self v)) (tw_days tw) false))%nat
        by (apply nth_error_Some; congruence).
      lia.
    - rewrite (rendered_is_blank_new j EmptyString Hj). reflexivity.
  Qed.
End BlankItems.

(** C10: the removal pass takes only items whose label text is
    non-empty and starts with a weekday abbreviation or with "Day", so
    never a blank item; a render of a forecast with a weekend day
    creates blank items, and after a second render every blank item of
    the menu, those of the first render included, is still a child of
    the menu, next to the blank items the second render adds. *)
Theorem C10_blank_separators_accumulate
    (w : world) (tw tw2 : typed_weather) (me2 : monitor) :
  decode_weather (self w) = Some tw ->
  wf w = true ->
  existsb is_weekend (tw_days tw) = true ->
  decode_weather me2 = Some tw2 ->
  location_item me2 = location_item (self w) ->
  current_item me2 = current_item (self w) ->
  let w1 := snd (update_weather_ui w) in
  let w2 := snd (update_weather_ui (mk_world me2 (gtk w1))) in
  (forall me t item,
      to_remove me t item = true ->
      exists text,
        label_of t item = Some text
        /\ text <> EmptyString
        /\ Exists (fun p => String.prefix p text = true) forecast_prefixes)
  /\ (forall me t item, is_blank t item = true -> to_remove me t item = false)
  /\ (exists i, (next_widget (gtk w) <= i)%nat /\ In i (blank_items w1))
  /\ (forall i, In i (blank_items w1) ->
                In i (menu (gtk w2)) /\ is_blank (gtk w2) i = true)
  /\ List.length (blank_items w2)
     = (List.length (blank_items w1)
        + List.length (List.filter (fun x => String.eqb x EmptyString)
                         (loop_rows (use_imperial me2) (tw_days tw2) false)))%nat.
Proof.
  intros Hdec Hwf Hwe Hdec2 Hloc Hcur. cbn zeta.
  destruct (wf_fields w Hwf) as (Hlab & _).
  rewrite (update_weather_ui_typed w tw Hdec Hlab). cbn [snd].
  pose proof (rendered_wf w tw Hwf) as Hwf1.
  set (v := mk_world me2 (gtk (rendered tw w))).
  assert (Hwfv : wf v = true).
  { unfold wf in *. subst v. cbn [self gtk]. rewrite Hloc, Hcur. exact Hwf1. }
  assert (Hcurv : is_blank (gtk v) (current_item (self v)) = false).
  { subst v. cbn [self gtk]. rewrite Hcur. apply current_line_not_blank. exact Hwf. }
  destruct (wf_fields v Hwfv) as (Hlabv & _).
  rewrite (update_weather_ui_typed v tw2 Hdec2 Hlabv). cbn [snd].
  split; [exact to_remove_only_prefixed |].
  split; [intros me t item; apply blank_not_removed |].
  split; [exact (rendered_creates_blank w tw Hwe) |].
  split.
  - intros i Hi.
    pose proof (blank_items_stay v tw2 Hwfv Hcurv i Hi) as H.
    unfold blank_items in H. apply List.filter_In in H. exact H.
  - exact (blank_items_grow v tw2 Hwfv Hcurv).
Qed.

Lemma wednesday_has_weekend :
  existsb is_weekend (tw_days wednesday_weather) = true.
Proof. vm_compute. reflexivity. Qed.

Lemma C10_witness :
  decode_weather (self wednesday_world) = Some wednesday_weather
  /\ wf wednesday_world = true
  /\ existsb is_weekend (tw_days wednesday_weather) = true
  /\ List.length
       (blank_items
          (snd (update_weather_ui
                  (mk_world (self wednesday_world)
                     (gtk (snd (update_weather_ui wednesday_world)))))))
     = 8%nat.
Proof.
  split; [exact decode_wednesday |]. split; [exact wf_wednesday |].
  split; [exact wednesday_has_weekend |].
  destruct (C10_blank_separators_accumulate wednesday_world wednesday_weather
              wednesday_weather (self wednesday_world)
              decode_wednesday wf_wednesday wednesday_has_weekend
              decode_wednesday eq_refl eq_refl) as (_ & _ & _ & _ & H).
  rewrite H. vm_compute. reflexivity.
Defined.

(** * Further properties of the methods *)

(** ** Frames of the network methods and of the callbacks *)

Lemma same_widgets_refl (w : world) : same_widgets w w.
Proof. repeat split. Qed.

Lemma same_widgets_trans (w1 w2 w3 : world) :
  same_widgets w1 w2 -> same_widgets w2 w3 -> same_widgets w1 w3.
Proof. unfold same_widgets. intros (? & ? & ? & ?) (? & ? & ? & ?). repeat split; congruence. Qed.

Lemma same_gtk_refl (w : world) : same_gtk w w.
Proof. reflexivity. Qed.

Lemma same_gtk_trans (w1 w2 w3 : world) :
  same_gtk w1 w2 -> same_gtk w2 w3 -> same_gtk w1 w3.
Proof. unfold same_gtk. congruence. Qed.

Lemma same_self_and_idle_refl (w : world) : same_self_and_idle w w.
Proof. split; reflexivity. Qed.

Lemma same_self_and_idle_trans (w1 w2 w3 : world) :
  same_self_and_idle w1 w2 -> same_self_and_idle w2 w3 -> same_self_and_idle w1 w3.
Proof. unfold same_self_and_idle. intros [? ?] [? ?]. split; congruence. Qed.

Lemma same_settings_refl (w : world) : same_settings w w.
Proof. repeat split. Qed.

Lemma same_settings_trans (w1 w2 w3 : world) :
  same_settings w1 w2 -> same_settings w2 w3 -> same_settings w1 w3.
Proof.
  unfold same_settings.
  intros (? & ? & ? & ? & ? & ?) (? & ? & ? & ? & ? & ?). repeat split; congruence.
Qed.

Lemma same_weather_refl (w : world) : same_weather w w.
Proof. repeat split. Qed.

Lemma same_weather_trans (w1 w2 w3 : world) :
  same_weather w1 w2 -> same_weather w2 w3 -> same_weather w1 w3.
Proof. unfold same_weather. intros (? & ? & ?) (? & ? & ?). repeat split; congruence. Qed.

Lemma same_location_refl (w : world) : same_location w w.
Proof. repeat split. Qed.

Lemma same_location_trans (w1 w2 w3 : world) :
  same_location w1 w2 -> same_location w2 w3 -> same_location w1 w3.
Proof. unfold same_location. intros (? & ? & ?) (? & ? & ?). repeat split; congruence. Qed.

Lemma same_menu_refl (w : world) : same_menu w w.
Proof. reflexivity. Qed.

Lemma same_menu_trans (w1 w2 w3 : world) :
  same_menu w1 w2 -> same_menu w2 w3 -> same_menu w1 w3.
Proof. unfold same_menu. congruence. Qed.

(** Frame proofs for relations that are conjunctions of equalities of
    fields. *)
Ltac fields_leaf R_refl :=
  first
    [ apply (preserves_ret _ R_refl)
    | apply (preserves_raise _ R_refl)
    | apply (preserves_lift _ R_refl)
    | apply (preserves_get_self _ R_refl)
    | apply (preserves_get_gtk _ R_refl)
    | apply preserves_modify_gtk; intros ?; red; cbn; repeat split; reflexivity
    | apply preserves_modify_self; intros ?; red; cbn; repeat split; reflexivity ].

Ltac fields_step R_refl R_trans :=
  first
    [ fields_leaf R_refl
    | apply (preserves_bind _ R_trans); [| intros ?]
    | apply (preserves_try_except _ R_trans); [| intros ?]
    | apply (preserves_for_each _ R_refl R_trans); intros ?
    | match goal with
      | |- preserves _ (match ?x with _ => _ end) => destruct x
      | |- preserves _ (let '(_, _) := ?x in _) => destruct x
      end ].

Ltac fields R_refl R_trans := repeat fields_step R_refl R_trans.

(** X1: [get_location_from_ip] and [update_weather_data], the methods
    the update thread runs, never touch a widget: the widgets, the
    children of the menu and the indicator label are the same after
    them, whatever the response; the location method leaves the whole
    toolkit, the idle queue included, as it was. *)
Theorem X1_network_methods_leave_widgets
    (net : http_outcome) (w : world) :
  gtk (snd (get_location_from_ip net w)) = gtk w
  /\ same_widgets w (snd (update_weather_data net w))
  /\ same_widgets w (snd (get_weather_data net w)).
Proof.
  split; [| split].
  - assert (H : preserves same_gtk (get_location_from_ip net)).
    { unfold get_location_from_ip. fields same_gtk_refl same_gtk_trans. }
    exact (H w).
  - assert (H : preserves same_widgets (update_weather_data net)).
    { unfold update_weather_data, get_weather_data, append_forecast, idle_add.
      fields same_widgets_refl same_widgets_trans. }
    exact (H w).
  - rewrite get_weather_data_eq. apply same_widgets_refl.
Qed.

(** X2: the two network methods keep to their own attributes:
    [get_location_from_ip] leaves the weather data as they were,
    [update_weather_data] leaves the location as it was, and both leave
    the unit, the interval, the running flag and the widget attributes
    as they were, whether they return [True] or [False]. *)
Theorem X2_network_methods_frames (net : http_outcome) (w : world) :
  same_weather w (snd (get_location_from_ip net w))
  /\ same_settings w (snd (get_location_from_ip net w))
  /\ same_location w (snd (update_weather_data net w))
  /\ same_settings w (snd (update_weather_data net w)).
Proof.
  split; [| split; [| split]].
  - assert (H : preserves same_weather (get_location_from_ip net)).
    { unfold get_location_from_ip. fields same_weather_refl same_weather_trans. }
    exact (H w).
  - assert (H : preserves same_settings (get_location_from_ip net)).
    { unfold get_location_from_ip. fields same_settings_refl same_settings_trans. }
    exact (H w).
  - assert (H : preserves same_location (update_weather_data net)).
    { unfold update_weather_data, get_weather_data, append_forecast, idle_add.
      fields same_location_refl same_location_trans. }
    exact (H w).
  - assert (H : preserves same_settings (update_weather_data net)).
    { unfold update_weather_data, get_weather_data, append_forecast, idle_add.
      fields same_settings_refl same_settings_trans. }
    exact (H w).
Qed.

Lemma blank_separator_idle : preserves same_self_and_idle blank_separator.
Proof.
  unfold blank_separator, create_monospace_menu_item, new_widget, set_sensitive.
  fields same_self_and_idle_refl same_self_and_idle_trans.
Qed.

Lemma forecast_loop_idle (imp : bool) (unit : string) (days : list forecast_day) :
  forall acc, preserves same_self_and_idle (forecast_loop imp unit days acc).
Proof.
  induction days as [| d days IH]; intros acc; cbn [forecast_loop].
  - fields same_self_and_idle_refl same_self_and_idle_trans.
  - apply (preserves_bind _ same_self_and_idle_trans); [| intros ?; apply IH].
    unfold forecast_step, create_monospace_menu_item, new_widget, set_sensitive.
    destruct acc as [new_items last].
    repeat first [ apply blank_separator_idle
                 | fields_step same_self_and_idle_refl same_self_and_idle_trans ].
Qed.

Lemma insert_all_idle (items : list nat) :
  forall pos, preserves same_self_and_idle (insert_all items pos).
Proof.
  induction items as [| x items IH]; intros pos; cbn [insert_all].
  - fields same_self_and_idle_refl same_self_and_idle_trans.
  - apply (preserves_bind _ same_self_and_idle_trans); [| intros ?; apply IH].
    unfold menu_insert. fields same_self_and_idle_refl same_self_and_idle_trans.
Qed.

Lemma update_weather_ui_idle : preserves same_self_and_idle update_weather_ui.
Proof.
  unfold update_weather_ui, indicator_set_label, update_monospace_menu_item,
    menu_remove.
  repeat first [ apply blank_separator_idle
               | apply forecast_loop_idle
               | apply insert_all_idle
               | fields_step same_self_and_idle_refl same_self_and_idle_trans ].
Qed.

Lemma update_location_item_idle : preserves same_self_and_idle update_location_item.
Proof.
  unfold update_location_item, update_monospace_menu_item.
  fields same_self_and_idle_refl same_self_and_idle_trans.
Qed.

Lemma run_callbacks_idle (l : list callback) :
  forall w, same_self_and_idle w (fold_left (fun w cb => run_callback cb w) l w).
Proof.
  induction l as [| cb l IH]; intros w; cbn [fold_left].
  - apply same_self_and_idle_refl.
  - apply (same_self_and_idle_trans _ (run_callback cb w)); [| apply IH].
    destruct cb; cbn [run_callback].
    + apply update_location_item_idle.
    + apply update_weather_ui_idle.
Qed.

(** X3: the two idle callbacks, [update_weather_ui] and
    [update_location_item], change no attribute of the object and queue
    no callback, whether they return or raise; so a dispatch of the
    idle queue leaves the attributes as they were and the queue
    empty. *)
Theorem X3_callbacks_leave_attributes (w : world) :
  same_self_and_idle w (snd (update_weather_ui w))
  /\ same_self_and_idle w (snd (update_location_item w))
  /\ self (dispatch_idle w) = self w
  /\ idle (gtk (dispatch_idle w)) = [].
Proof.
  split; [apply update_weather_ui_idle |].
  split; [apply update_location_item_idle |].
  unfold dispatch_idle.
  destruct (run_callbacks_idle (idle (gtk w))
              (mk_world (self w) (set_idle [] (gtk w)))) as [Hs Hi].
  split; [exact Hs | exact Hi].
Qed.

(** ** What the render returns and what it leaves when it raises *)

Lemma returns_only_ret {A} (b : A) : returns_only b (ret b).
Proof. intros w a H. cbn in H. congruence. Qed.

Lemma returns_only_bind {A B} (b : B) (c : M A) (k : A -> M B) :
  (forall a, returns_only b (k a)) -> returns_only b (bind c k).
Proof.
  intros Hk w x. unfold bind. destruct (c w) as [[a | e] w1]; cbn.
  - apply Hk.
  - discriminate.
Qed.

Ltac returns_step :=
  first
    [ apply returns_only_ret
    | apply returns_only_bind; intros ?
    | match goal with
      | |- returns_only _ (match ?x with _ => _ end) => destruct x
      | |- returns_only _ (let '(_, _) := ?x in _) => destruct x
      end ].

(** X4: [update_weather_ui] and [update_location_item] return [False]
    whenever they return, for every state: as idle callbacks they are
    never run a second time by the main loop. *)
Theorem X4_callbacks_return_false (w : world) :
  match fst (update_weather_ui w) with
  | Ok b => b = false
  | Raise _ => True
  end
  /\ match fst (update_location_item w) with
     | Ok b => b = false
     | Raise _ => True
     end.
Proof.
  split.
  - assert (H : returns_only false update_weather_ui).
    { unfold update_weather_ui. repeat returns_step. }
    specialize (H w). destruct (fst (update_weather_ui w)); auto.
  - assert (H : returns_only false update_location_item).
    { unfold update_location_item. repeat returns_step. }
    specialize (H w). destruct (fst (update_location_item w)); auto.
Qed.

Lemma no_new_child_refl (w : world) : no_new_child w w.
Proof. apply incl_refl. Qed.

Lemma no_new_child_trans (w1 w2 w3 : world) :
  no_new_child w1 w2 -> no_new_child w2 w3 -> no_new_child w1 w3.
Proof. unfold no_new_child. intros H1 H2. exact (incl_tran H2 H1). Qed.

Lemma same_menu_no_new_child (w w' : world) : same_menu w w' -> no_new_child w w'.
Proof. unfold same_menu, no_new_child. intros ->. apply incl_refl. Qed.

Lemma preserves_weaken {A} (R R' : world -> world -> Prop) (c : M A) :
  (forall w w', R w w' -> R' w w') -> preserves R c -> preserves R' c.
Proof. intros H Hc w. apply H, Hc. Qed.

Lemma raises_within_bind {A B} (R : world -> world -> Prop) (c : M A) (k : A -> M B) :
  (forall w1 w2 w3, R w1 w2 -> R w2 w3 -> R w1 w3) ->
  preserves R c -> (forall a, raises_within R (k a)) ->
  raises_within R (bind c k).
Proof.
  intros Htrans Hc Hk w e. unfold bind. specialize (Hc w).
  destruct (c w) as [[a | e'] w1] eqn:Hcw; cbn in *.
  - intros H. exact (Htrans _ _ _ Hc (Hk a w1 e H)).
  - intros _. exact Hc.
Qed.

Lemma raises_within_ret {A} (R : world -> world -> Prop) (a : A) :
  raises_within R (ret a).
Proof. intros w e H. discriminate. Qed.

Lemma blank_separator_menu : preserves same_menu blank_separator.
Proof.
  unfold blank_separator, create_monospace_menu_item, new_widget, set_sensitive.
  fields same_menu_refl same_menu_trans.
Qed.

Lemma forecast_loop_menu (imp : bool) (unit : string) (days : list forecast_day) :
  forall acc, preserves same_menu (forecast_loop imp unit days acc).
Proof.
  induction days as [| d days IH]; intros acc; cbn [forecast_loop].
  - fields same_menu_refl same_menu_trans.
  - apply (preserves_bind _ same_menu_trans); [| intros ?; apply IH].
    unfold forecast_step, create_monospace_menu_item, new_widget, set_sensitive.
    destruct acc as [new_items last].
    repeat first [ apply blank_separator_menu
                 | fields_step same_menu_refl same_menu_trans ].
Qed.

Lemma menu_remove_no_new_child (item : nat) : preserves no_new_child (menu_remove item).
Proof.
  intros w. unfold no_new_child, menu_remove, modify_gtk. cbn.
  intros i Hi. apply List.filter_In in Hi. tauto.
Qed.

Lemma insert_all_returns (items : list nat) (pos : nat) (w : world) :
  fst (insert_all items pos w) = Ok tt.
Proof. rewrite insert_all_eq. reflexivity. Qed.

Ltac menu_leaf :=
  first
    [ apply (preserves_for_each _ no_new_child_refl no_new_child_trans);
      intros ?; apply menu_remove_no_new_child
    | apply (preserves_weaken same_menu no_new_child _ same_menu_no_new_child);
      first [ apply forecast_loop_menu | apply blank_separator_menu
            | solve [fields same_menu_refl same_menu_trans] ] ].

(** X5: a render that raises has added no child to the menu: every
    child of the menu after it was a child before.  The rows removed by
    the removal pass are not put back. *)
Theorem X5_failed_render_adds_no_child (w : world) :
  match fst (update_weather_ui w) with
  | Raise _ => incl (menu (gtk (snd (update_weather_ui w)))) (menu (gtk w))
  | Ok _ => True
  end.
Proof.
  assert (H : raises_within no_new_child update_weather_ui).
  { unfold update_weather_ui, indicator_set_label, update_monospace_menu_item.
    apply (raises_within_bind _ _ _ no_new_child_trans); [menu_leaf |]. intros me.
    destruct (is_none (current_temp me) || is_none (current_condition me));
      [apply raises_within_ret |].
    apply (raises_within_bind _ _ _ no_new_child_trans); [menu_leaf |]. intros icon.
    apply (raises_within_bind _ _ _ no_new_child_trans).
    { destruct (use_imperial me); menu_leaf. }
    intros [display_temp unit].
    apply (raises_within_bind _ _ _ no_new_child_trans); [menu_leaf |]. intros temp.
    apply (raises_within_bind _ _ _ no_new_child_trans); [menu_leaf |]. intros ?.
    apply (raises_within_bind _ _ _ no_new_child_trans); [menu_leaf |]. intros desc.
    apply (raises_within_bind _ _ _ no_new_child_trans); [menu_leaf |]. intros ?.
    apply (raises_within_bind _ _ _ no_new_child_trans); [menu_leaf |]. intros t.
    apply (raises_within_bind _ _ _ no_new_child_trans); [menu_leaf |]. intros ?.
    apply (raises_within_bind _ _ _ no_new_child_trans); [menu_leaf |].
    intros [new_items last].
    apply (raises_within_bind _ _ _ no_new_child_trans).
    { destruct last; menu_leaf. }
    intros items w1 e. unfold bind.
    pose proof (insert_all_returns items 3 w1) as Hins.
    destruct (insert_all items 3 w1) as [[[] | e'] w2]; cbn in *; discriminate. }
  specialize (H w). destruct (fst (update_weather_ui w)) as [b | e]; [exact I |].
  exact (H e eq_refl).
Qed.

(** ** The network methods: what they return and what they store *)

Lemma try_except_ret_returns {A} (c : M A) (a : A) (w : world) :
  exists b, fst (try_except c (fun _ => ret a) w) = Ok b.
Proof.
  unfold try_except, ret. destruct (c w) as [[b | e] w']; cbn; eauto.
Qed.

(** X6: the methods that talk to the network never raise, whatever the
    request does and whatever the body holds: [get_location_from_ip]
    and [update_weather_data] answer a boolean, [get_weather_data] a
    value, and [refresh_weather] returns. *)
Theorem X6_network_methods_never_raise
    (net net' : http_outcome) (w : world) :
  (exists b, fst (get_location_from_ip net w) = Ok b)
  /\ (exists v, fst (get_weather_data net w) = Ok v)
  /\ (exists b, fst (update_weather_data net w) = Ok b)
  /\ fst (refresh_weather net net' w) = Ok tt.
Proof.
  split; [| split; [| split]].
  - unfold get_location_from_ip. apply try_except_ret_returns.
  - rewrite get_weather_data_eq. eauto.
  - apply update_weather_data_returns.
  - unfold refresh_weather, bind.
    assert (Hloc : exists b, fst (get_location_from_ip net w) = Ok b).
    { unfold get_location_from_ip. apply try_except_ret_returns. }
    destruct Hloc as [b Hb].
    destruct (get_location_from_ip net w) as [r1 w1]. cbn in Hb. subst r1.
    destruct (update_weather_data_returns net' w1) as [ok Hok].
    destruct (update_weather_data net' w1) as [r2 w2]. cbn in Hok. subst r2.
    destruct ok; reflexivity.
Qed.

(** X7: a forecast request that gives no usable body (the transport
    fails, the status is not 200, the body is not JSON, or the parsed
    body is falsy) makes [update_weather_data] answer [False] with the
    whole state, the idle queue included, as it was. *)
Theorem X7_fetch_without_body_changes_nothing (net : http_outcome) (w : world) :
  net = ConnectionFailed
  \/ (exists st body, net = Response st body
        /\ (st <> 200 \/ body = None
            \/ exists v, body = Some v /\ truthy v = false)) ->
  update_weather_data net w = (Ok false, w).
Proof.
  intros H. apply update_weather_data_no_data.
  destruct H as [-> | (st & body & -> & H)]; [reflexivity |].
  unfold weather_body. destruct body as [v |]; [| reflexivity].
  destruct (st =? 200) eqn:Hst; [| reflexivity].
  destruct H as [H | [H | (v' & H & Hv)]].
  - apply Z.eqb_eq in Hst. contradiction.
  - discriminate.
  - injection H as ->. exact Hv.
Qed.

Lemma X7_witness :
  (ConnectionFailed = ConnectionFailed
   \/ (exists st body, ConnectionFailed = Response st body
         /\ (st <> 200 \/ body = None
             \/ exists v, body = Some v /\ truthy v = false)))
  /\ update_weather_data ConnectionFailed earlier_world = (Ok false, earlier_world).
Proof.
  split; [left; reflexivity |].
  apply (X7_fetch_without_body_changes_nothing ConnectionFailed earlier_world).
  left; reflexivity.
Defined.

Lemma weather_body_truthy (net : http_outcome) :
  truthy (weather_body net) = true ->
  net = Response 200 (Some (weather_body net)).
Proof.
  unfold weather_body. destruct net as [| st [v |]]; try discriminate.
  destruct (st =? 200) eqn:Hst; [| discriminate].
  apply Z.eqb_eq in Hst. subst st. reflexivity.
Qed.

(** X8: a fetch that answers [True] had a 200 response with a truthy
    body; the stored temperature and condition are the body's
    ["current"]["temperature_2m"] and ["current"]["weather_code"];
    exactly one callback, [update_location_item], has been added at the
    end of the idle queue; and nothing else of the toolkit changed. *)
Theorem X8_successful_fetch_stores_current (net : http_outcome) (w : world) :
  fst (update_weather_data net w) = Ok true ->
  let w' := snd (update_weather_data net w) in
  exists data current,
    net = Response 200 (Some data)
    /\ truthy data = true
    /\ getitem_str data "current" = Ok current
    /\ getitem_str current "temperature_2m" = Ok (current_temp (self w'))
    /\ getitem_str current "weather_code" = Ok (current_condition (self w'))
    /\ gtk w' = set_idle (idle (gtk w) ++ [CbUpdateLocationItem]) (gtk w).
Proof.
  intros H.
  destruct (update_weather_data_true net w H)
    as (current & temp & code & daily & times & n & ds
        & Ht & Hc & Htemp & Hcode & _ & _ & _ & _ & Hw).
  cbn zeta. rewrite Hw. cbn.
  exists (weather_body net), current.
  split; [exact (weather_body_truthy net Ht) |].
  repeat split; assumption.
Qed.

Lemma X8_witness :
  fst (update_weather_data response_two_days earlier_world) = Ok true
  /\ exists data current,
       response_two_days = Response 200 (Some data)
       /\ truthy data = true
       /\ getitem_str data "current" = Ok current
       /\ getitem_str current "temperature_2m"
          = Ok (current_temp
                  (self (snd (update_weather_data response_two_days earlier_world))))
       /\ getitem_str current "weather_code"
          = Ok (current_condition
                  (self (snd (update_weather_data response_two_days earlier_world))))
       /\ gtk (snd (update_weather_data response_two_days earlier_world))
          = set_idle (idle (gtk earlier_world) ++ [CbUpdateLocationItem])
                     (gtk earlier_world).
Proof.
  assert (H : fst (update_weather_data response_two_days earlier_world) = Ok true)
    by (vm_compute; reflexivity).
  split; [exact H |].
  exact (X8_successful_fetch_stores_current response_two_days earlier_world H).
Defined.

(** ** The location lookup *)

(** X9: a location request that fails before the coordinates are read
    (the transport fails, the status is not 200, the body is not JSON,
    the body has no ["loc"], or ["loc"] is not two fields around one
    comma) makes [get_location_from_ip] answer [False] with the whole
    state as it was: the default or earlier location stays. *)
Theorem X9_unresolved_location_changes_nothing (net : http_outcome) (w : world) :
  net = ConnectionFailed
  \/ (exists st body, net = Response st body /\ (st <> 200 \/ body = None))
  \/ (exists st d, net = Response st (Some (VDict d))
        /\ (dict_lookup "loc" d = None
            \/ exists v, dict_lookup "loc" d = Some v
                 /\ forall lat lon, py_split_comma v <> Ok [lat; lon])) ->
  get_location_from_ip net w = (Ok false, w).
Proof.
  intros H. apply get_location_from_ip_early_failure.
  destruct H as [-> | [(st & body & -> & H) | (st & d & -> & H)]].
  - reflexivity.
  - cbn. destruct body as [data |]; [| reflexivity].
    destruct (st =? 200) eqn:Hst; [| reflexivity].
    apply Z.eqb_eq in Hst. destruct H as [H | H]; [contradiction | discriminate].
  - cbn. destruct (st =? 200); [| reflexivity].
    destruct H as [H | (v & H & Hv)]; rewrite H; [reflexivity |].
    destruct (py_split_comma v) as [[| lat [| lon [| x l]]] |]; try reflexivity.
    exfalso. exact (Hv lat lon eq_refl).
Qed.

Lemma X9_witness :
  (Response 404 None = ConnectionFailed
   \/ (exists st body, Response 404 None = Response st body
         /\ (st <> 200 \/ body = None))
   \/ (exists st d, Response 404 None = Response st (Some (VDict d))
         /\ (dict_lookup "loc" d = None
             \/ exists v, dict_lookup "loc" d = Some v
                  /\ forall lat lon, py_split_comma v <> Ok [lat; lon])))
  /\ get_location_from_ip (Response 404 None) initial_world
     = (Ok false, initial_world).
Proof.
  assert (H : Response 404 None = ConnectionFailed
   \/ (exists st body, Response 404 None = Response st body
         /\ (st <> 200 \/ body = None))
   \/ (exists st d, Response 404 None = Response st (Some (VDict d))
         /\ (dict_lookup "loc" d = None
             \/ exists v, dict_lookup "loc" d = Some v
                  /\ forall lat lon, py_split_comma v <> Ok [lat; lon]))).
  { right; left. exists 404, None. split; [reflexivity | right; reflexivity]. }
  split; [exact H |].
  exact (X9_unresolved_location_changes_nothing (Response 404 None) initial_world H).
Defined.

Lemma location_part_dict (d : list (string * pyval)) (key : string)
    (parts : list pyval) :
  location_part (VDict d) key parts = Ok (parts ++ truthy_member d key).
Proof.
  unfold location_part, truthy_member, py_contains, getitem_str, rbind.
  destruct (dict_lookup key d) as [v |]; [| now rewrite app_nil_r].
  destruct (truthy v); [reflexivity | now rewrite app_nil_r].
Qed.

Lemma all_strs_nil (l : list pyval) (names : list string) :
  all_strs l = Some names -> (l = [] <-> names = []).
Proof.
  destruct l as [| v l]; cbn.
  - intros H. injection H as <-. tauto.
  - destruct v; try discriminate.
    destruct (all_strs l); cbn; [| discriminate].
    intros H. injection H as <-. split; discriminate.
Qed.

(** The name shown for the names found in the response. *)
Lemma get_location_from_ip_dict (d : list (string * pyval)) (loc lat lon : string)
    (la lo : Float.t) (w : world) :
  dict_lookup "loc" d = Some (VStr loc) ->
  split_on ","%char loc = [lat; lon] ->
  py_float lat = Ok la ->
  py_float lon = Ok lo ->
  get_location_from_ip (Response 200 (Some (VDict d))) w
  = match py_join ", " (location_parts d) with
    | Ok joined =>
        (Ok true,
         mk_world
           (set_location_name
              (match location_parts d with
               | [] => "Unknown Location"
               | _ => joined
               end)
              (set_longitude lo (set_latitude la (self w))))
           (gtk w))
    | Raise _ =>
        (Ok false, mk_world (set_longitude lo (set_latitude la (self w))) (gtk w))
    end.
Proof.
  intros Hloc Hsplit Hla Hlo. unfold_location. cbn -[location_part py_join].
  rewrite Hloc. cbn -[location_part py_join]. rewrite Hsplit, Hla.
  cbn -[location_part py_join]. rewrite Hlo. cbn -[location_part py_join].
  rewrite !location_part_dict. cbn -[location_part py_join truthy_member].
  rewrite <- !app_assoc. fold (location_parts d).
  destruct (location_parts d) as [| p ps] eqn:Hp.
  - reflexivity.
  - destruct (py_join ", " (p :: ps)); reflexivity.
Qed.

(** X10: on a 200 response whose body is an object with ["loc"] of the
    form [lat,lon], both parsing as floats, and whose ["city"],
    ["region"] and ["country"], where present and truthy, are strings,
    [get_location_from_ip] answers [True], stores both coordinates, and
    names the location by those of the three that are present and
    truthy, in that order, joined by [", "]; with none of them the name
    is "Unknown Location".  Nothing else changes. *)
Theorem X10_resolved_location
    (d : list (string * pyval)) (loc lat lon : string) (la lo : Float.t)
    (names : list string) (w : world) :
  dict_lookup "loc" d = Some (VStr loc) ->
  split_on ","%char loc = [lat; lon] ->
  py_float lat = Ok la ->
  py_float lon = Ok lo ->
  all_strs (location_parts d) = Some names ->
  get_location_from_ip (Response 200 (Some (VDict d))) w
  = (Ok true,
     mk_world
       (set_location_name
          (match names with
           | [] => "Unknown Location"
           | _ => join_strs ", " names
           end)
          (set_longitude lo (set_latitude la (self w))))
       (gtk w)).
Proof.
  intros Hloc Hsplit Hla Hlo Hnames.
  rewrite (get_location_from_ip_dict d loc lat lon la lo w Hloc Hsplit Hla Hlo).
  unfold py_join. rewrite Hnames.
  pose proof (all_strs_nil _ _ Hnames) as Hnil.
  destruct (location_parts d) as [| p ps]; destruct names as [| n ns];
    try reflexivity.
  - destruct Hnil as [Hnil _]. discriminate (Hnil eq_refl).
  - destruct Hnil as [_ Hnil]. discriminate (Hnil eq_refl).
Qed.

Lemma X10_witness :
  (dict_lookup "loc" ipinfo_seattle = Some (VStr "47.6062,-122.3321")
   /\ split_on ","%char "47.6062,-122.3321" = ["47.6062"; "-122.3321"]
   /\ py_float "47.6062" = Ok (Float.of_ratio 476062 10000)
   /\ py_float "-122.3321" = Ok (Float.of_ratio (-1223321) 10000)
   /\ all_strs (location_parts ipinfo_seattle) = Some ["Seattle"; "US"])
  /\ get_location_from_ip (Response 200 (Some (VDict ipinfo_seattle))) initial_world
     = (Ok true,
        mk_world
          (set_location_name "Seattle, US"
             (set_longitude (Float.of_ratio (-1223321) 10000)
                (set_latitude (Float.of_ratio 476062 10000) (self initial_world))))
          (gtk initial_world)).
Proof.
  assert (H1 : dict_lookup "loc" ipinfo_seattle = Some (VStr "47.6062,-122.3321"))
    by reflexivity.
  assert (H2 : split_on ","%char "47.6062,-122.3321" = ["47.6062"; "-122.3321"])
    by reflexivity.
  assert (H3 : py_float "47.6062" = Ok (Float.of_ratio 476062 10000))
    by (vm_compute; reflexivity).
  assert (H4 : py_float "-122.3321" = Ok (Float.of_ratio (-1223321) 10000))
    by (vm_compute; reflexivity).
  assert (H5 : all_strs (location_parts ipinfo_seattle) = Some ["Seattle"; "US"])
    by reflexivity.
  split; [repeat split; assumption |].
  exact (X10_resolved_location ipinfo_seattle _ _ _ _ _ _ initial_world
           H1 H2 H3 H4 H5).
Defined.

Lemma truthy_member_truthy (d : list (string * pyval)) (key : string) :
  Forall (fun v => truthy v = true) (truthy_member d key).
Proof.
  unfold truthy_member. destruct (dict_lookup key d) as [v |]; [| constructor].
  destruct (truthy v) eqn:Hv; repeat constructor. exact Hv.
Qed.

Lemma location_parts_truthy (d : list (string * pyval)) :
  Forall (fun v => truthy v = true) (location_parts d).
Proof.
  unfold location_parts. rewrite !Forall_app.
  repeat split; apply truthy_member_truthy.
Qed.

Lemma all_strs_nonempty (l : list pyval) :
  forall names,
    Forall (fun v => truthy v = true) l ->
    all_strs l = Some names ->
    Forall (fun s => s <> EmptyString) names.
Proof.
  induction l as [| v l IH]; intros names Ht H; cbn in H.
  - injection H as <-. constructor.
  - destruct v; try discriminate.
    destruct (all_strs l) as [ss |] eqn:Hl; cbn in H; [| discriminate].
    injection H as <-. inversion Ht as [| ? ? Hs Ht']; subst.
    constructor; [| exact (IH ss Ht' eq_refl)].
    intros ->. cbn in Hs. discriminate.
Qed.

Lemma join_strs_nonempty (sep : string) (x : string) (l : list string) :
  x <> EmptyString -> join_strs sep (x :: l) <> EmptyString.
Proof.
  intros Hx. destruct x as [| c x]; [contradiction |].
  cbn. destruct l; discriminate.
Qed.

(** X11: [get_location_from_ip] answers [True] only on a 200 response
    whose body is an object with a ["loc"] string of two fields that
    are the stored latitude and longitude; and the stored name is then
    never empty. *)
Theorem X11_resolved_location_has_a_name (net : http_outcome) (w : world) :
  fst (get_location_from_ip net w) = Ok true ->
  let me := self (snd (get_location_from_ip net w)) in
  exists d loc lat lon,
    net = Response 200 (Some (VDict d))
    /\ dict_lookup "loc" d = Some (VStr loc)
    /\ split_on ","%char loc = [lat; lon]
    /\ py_float lat = Ok (latitude me)
    /\ py_float lon = Ok (longitude me)
    /\ location_name me <> EmptyString.
Proof.
  intros H. cbn zeta.
  destruct (lat_long_of net) as [[lat lon] |] eqn:Hll.
  2:{ rewrite (get_location_from_ip_early_failure net w Hll) in H. discriminate. }
  unfold lat_long_of in Hll. destruct net as [| st [data |]]; try discriminate.
  destruct (st =? 200) eqn:Hst; [| discriminate].
  apply Z.eqb_eq in Hst. subst st.
  destruct (py_contains "loc" data) as [[|] |] eqn:Hc; try discriminate.
  destruct (getitem_str data "loc") as [v |] eqn:Hg; [| discriminate].
  destruct data as [| | | | | | d]; try discriminate.
  cbn in Hg. destruct (dict_lookup "loc" d) as [v' |] eqn:Hd; [| discriminate].
  injection Hg as ->.
  destruct v as [| | | | loc | |]; try discriminate. cbn in Hll.
  destruct (split_on ","%char loc) as [| lat' [| lon' [| x l]]] eqn:Hs;
    try discriminate.
  injection Hll as -> ->.
  destruct (py_float lat) as [la | e] eqn:Hla.
  2:{ revert H. unfold_location. cbn. rewrite Hd. cbn. rewrite Hs, Hla. cbn.
      discriminate. }
  destruct (py_float lon) as [lo | e] eqn:Hlo.
  2:{ revert H. unfold_location. cbn. rewrite Hd. cbn. rewrite Hs, Hla. cbn.
      rewrite Hlo. cbn. discriminate. }
  rewrite (get_location_from_ip_dict d loc lat lon la lo w Hd Hs Hla Hlo) in *.
  exists d, loc, lat, lon.
  unfold py_join in *.
  destruct (all_strs (location_parts d)) as [names |] eqn:Hn; [| discriminate].
  cbn. repeat split; try assumption; try reflexivity.
  destruct (location_parts d) as [| p ps] eqn:Hp; [discriminate |].
  pose proof (location_parts_truthy d) as Ht. rewrite Hp in Ht.
  pose proof (all_strs_nonempty _ _ Ht Hn) as Hne.
  destruct names as [| n ns].
  - apply all_strs_nil in Hn. destruct Hn as [_ Hn]. discriminate (Hn eq_refl).
  - inversion Hne; subst. now apply join_strs_nonempty.
Qed.

Lemma X11_witness :
  fst (get_location_from_ip (Response 200 (Some (VDict ipinfo_seattle)))
         initial_world) = Ok true
  /\ exists d loc lat lon,
       Response 200 (Some (VDict ipinfo_seattle)) = Response 200 (Some (VDict d))
       /\ dict_lookup "loc" d = Some (VStr loc)
       /\ split_on ","%char loc = [lat; lon]
       /\ py_float lat
          = Ok (latitude (self (snd (get_location_from_ip
                   (Response 200 (Some (VDict ipinfo_seattle))) initial_world))))
       /\ py_float lon
          = Ok (longitude (self (snd (get_location_from_ip
                   (Response 200 (Some (VDict ipinfo_seattle))) initial_world))))
       /\ location_name (self (snd (get_location_from_ip
             (Response 200 (Some (VDict ipinfo_seattle))) initial_world)))
          <> EmptyString.
Proof.
  assert (H : fst (get_location_from_ip (Response 200 (Some (VDict ipinfo_seattle)))
                     initial_world) = Ok true)
    by (vm_compute; reflexivity).
  split; [exact H |].
  exact (X11_resolved_location_has_a_name _ initial_world H).
Defined.

(** ** The update thread and [quit] *)

Lemma ui_steps_app (es es' : list ui_event) (w : world) :
  ui_steps (es ++ es') w = ui_steps es' (ui_steps es w).
Proof. unfold ui_steps. apply fold_left_app. Qed.

Lemma ui_steps_stopped (es : list ui_event) (w : world) :
  running (self w) = false -> running (self (ui_steps es w)) = false.
Proof.
  intros H. destruct (ui_steps_cadence es w) as [_ Hr]. rewrite Hr, H. reflexivity.
Qed.

(** X12: [quit] is final.  Whatever the user does after it (interval
    or unit picked, refresh, idle callbacks), [running] stays false;
    the thread's loop then ends at its next test without a request,
    and a wait under way makes no further sleep. *)
Theorem X12_quit_is_final
    (w : world) (es : list ui_event) (c : cycle) (cs : list cycle)
    (n : nat) (ticks : list (list ui_event)) :
  let w1 := ui_steps es (snd (quit w)) in
  running (self w1) = false
  /\ while_running (c :: cs) w1 = ([], ui_steps (before_check c) w1)
  /\ fst (sleep_loop n ticks w1) = O.
Proof.
  cbn zeta.
  assert (H : running (self (ui_steps es (snd (quit w)))) = false)
    by (apply ui_steps_stopped; reflexivity).
  split; [exact H |]. split.
  - cbn [while_running].
    rewrite (ui_steps_stopped (before_check c) _ H). reflexivity.
  - apply sleep_loop_stopped. exact H.
Qed.

(** X13: a wait of [n] turns makes at most [n] sleeps, and fewer only
    when [running] has become false.  The thread changes nothing
    during the wait: the state after it is the one the main loop's
    actions of the turns gone through have made. *)
Theorem X13_wait_is_cut_only_by_quit (n : nat) :
  forall (ticks : list (list ui_event)) (w : world),
    (fst (sleep_loop n ticks w) <= n)%nat
    /\ (fst (sleep_loop n ticks w) = n
        \/ running (self (snd (sleep_loop n ticks w))) = false)
    /\ exists k, (k <= n)%nat
         /\ snd (sleep_loop n ticks w) = ui_steps (concat (firstn k ticks)) w.
Proof.
  induction n as [| n IH]; intros ticks w; cbn [sleep_loop].
  - cbn. split; [lia |]. split; [left; reflexivity |].
    exists O. split; [lia | reflexivity].
  - destruct (running (self (ui_steps (hd [] ticks) w))) eqn:Hr; cbn [negb].
    + destruct (IH (tl ticks) (ui_steps (hd [] ticks) w)) as (Hle & Hor & k & Hk & Hw).
      destruct (sleep_loop n (tl ticks) (ui_steps (hd [] ticks) w)) as [j w2].
      cbn [fst snd] in *. split; [lia |]. split.
      * destruct Hor as [-> | Hor]; [left; reflexivity | right; exact Hor].
      * exists (S k). split; [lia |]. rewrite Hw.
        destruct ticks as [| t ticks]; cbn [hd tl firstn concat].
        -- rewrite firstn_nil. reflexivity.
        -- rewrite ui_steps_app. reflexivity.
    + cbn [fst snd]. split; [lia |]. split; [right; exact Hr |].
      exists 1%nat. split; [lia |].
      destruct ticks as [| t ticks]; cbn [hd firstn concat]; [reflexivity |].
      rewrite app_nil_r. reflexivity.
Qed.

(** ** A render on any data *)

Lemma blank_if (b : bool) (acc : list nat) (w : world) :
  (if b
   then bind blank_separator (fun separator => ret (acc ++ [separator]))
   else ret acc) w
  = (Ok (acc ++ seq (next_widget (gtk w))
                    (List.length (if b then [EmptyString] else []))),
     mk_world (self w) (alloc_items (if b then [EmptyString] else []) (gtk w))).
Proof.
  destruct b.
  - unfold bind. rewrite blank_separator_eq. reflexivity.
  - unfold ret. cbn. rewrite app_nil_r, world_eta. reflexivity.
Qed.

Lemma create_item_then {A} (text : string) (f : nat -> A) (w : world) :
  bind (create_monospace_menu_item text)
       (fun item => bind (set_sensitive item false) (fun _ => ret (f item))) w
  = (Ok (f (next_widget (gtk w))), mk_world (self w) (alloc_item text (gtk w))).
Proof.
  unfold create_monospace_menu_item, new_widget, set_sensitive.
  unfold_monad. cbn. unfold alloc_item, item_widget. cbn.
  rewrite alter_insert_eq. reflexivity.
Qed.

Lemma forecast_step_allocs (imp : bool) (unit : string) (acc : list nat)
    (last : bool) (d : forecast_day) (w : world) :
  allocates acc w (forecast_step imp unit (acc, last) d w).
Proof.
  unfold forecast_step. unfold bind at 1. unfold lift at 1.
  destruct (fromisoformat (fd_date d)) as [date_obj | e].
  2:{ exists []. cbn. split; [symmetry; apply world_eta | discriminate]. }
  set (we := 5 <=? weekday date_obj).
  set (bt := if (we && negb last) || (negb we && last) then [EmptyString] else []).
  assert (Hb : (if we && negb last
                then bind blank_separator (fun separator => ret (acc ++ [separator]))
                else if negb we && last
                then bind blank_separator (fun separator => ret (acc ++ [separator]))
                else ret acc) w
               = (Ok (acc ++ seq (next_widget (gtk w)) (List.length bt)),
                  mk_world (self w) (alloc_items bt (gtk w)))).
  { unfold bt. rewrite <- (blank_if _ acc w). destruct we, last; reflexivity. }
  unfold bind at 1. rewrite Hb. clear Hb.
  assert (Hraise : forall (e : exn),
    allocates acc w (Raise e, mk_world (self w) (alloc_items bt (gtk w)))).
  { intros e. exists bt. split; [reflexivity | discriminate]. }
  unfold bind at 1. unfold lift at 1.
  destruct (get_condition_icon (fd_condition d)) as [icon | e]; [| apply Hraise].
  set (w1 := mk_world (self w) (alloc_items bt (gtk w))) in *.
  unfold bind at 1.
  match goal with
  | |- allocates _ _ (let (r, w') := ?c ?w0 in _) =>
      assert (Hunit : exists r, c w0 = (r, w0))
  end.
  { destruct imp; unfold bind, lift, ret; [| eauto].
    destruct (celsius_to_fahrenheit (fd_max_temp d)); [| eauto].
    destruct (celsius_to_fahrenheit (fd_min_temp d)); eauto. }
  destruct Hunit as [[[max_temp min_temp] | e] Hunit]; rewrite Hunit;
    [| apply Hraise].
  unfold bind at 1. unfold lift at 1.
  destruct (get_condition_description (fd_condition d)) as [desc | e];
    [| apply Hraise].
  unfold bind at 1. unfold lift at 1.
  destruct (format_temp max_temp) as [mx | e]; [| apply Hraise].
  unfold bind at 1. unfold lift at 1.
  destruct (format_temp min_temp) as [mn | e]; [| apply Hraise].
  rewrite create_item_then.
  match goal with
  | |- context [alloc_item ?text _] => exists (bt ++ [text])
  end.
  cbn [fst snd]. unfold w1. cbn [self gtk]. split.
  - rewrite alloc_items_app. reflexivity.
  - intros items l' H. injection H as <- _.
    rewrite alloc_items_next, length_app, seq_app, app_assoc. reflexivity.
Qed.

Lemma allocates_trans (acc acc' : list nat) (w w' : world)
    (p : result (list nat * bool) * world) (texts : list string) :
  w' = mk_world (self w) (alloc_items texts (gtk w)) ->
  acc' = acc ++ seq (next_widget (gtk w)) (List.length texts) ->
  allocates acc' w' p -> allocates acc w p.
Proof.
  intros -> -> (texts' & Hw & Hitems). exists (texts ++ texts'). split.
  - rewrite Hw. cbn [self gtk]. rewrite alloc_items_app. reflexivity.
  - intros items l' H. rewrite (Hitems items l' H). cbn [gtk].
    rewrite alloc_items_next, length_app, seq_app, app_assoc. reflexivity.
Qed.

Lemma forecast_loop_allocs (imp : bool) (unit : string) (days : list forecast_day) :
  forall (acc : list nat) (last : bool) (w : world),
    allocates acc w (forecast_loop imp unit days (acc, last) w).
Proof.
  induction days as [| d days IH]; intros acc last w; cbn [forecast_loop].
  - exists []. cbn. split; [symmetry; apply world_eta |].
    intros items l' H. injection H as <- _. rewrite app_nil_r. reflexivity.
  - unfold bind. destruct (forecast_step_allocs imp unit acc last d w) as (texts & Hw & Hitems).
    destruct (forecast_step imp unit (acc, last) d w) as [[[items l'] | e] w'];
      cbn [fst snd] in *.
    + apply (allocates_trans acc items w w' _ texts Hw (Hitems _ _ eq_refl)).
      apply IH.
    + exists texts. split; [exact Hw | discriminate].
Qed.

Lemma update_monospace_menu_item_no_label (item : nat) (text : string) (w : world) :
  has_label (gtk w) item = false ->
  update_monospace_menu_item item text w = (Raise AttributeError, w).
Proof.
  unfold has_label, label_of, update_monospace_menu_item.
  unfold_monad.
  destruct (widgets (gtk w) !! item) as [[c [l |] sv] |]; try discriminate;
    reflexivity.
Qed.

Lemma update_weather_ui_outcome (w : world) :
  render_outcome w (fst (update_weather_ui w)) (snd (update_weather_ui w)).
Proof.
  destruct (update_weather_ui w) as [r w'] eqn:E. cbn [fst snd].
  unfold update_weather_ui in E. unfold bind at 1 in E. unfold get_self at 1 in E.
  destruct (is_none (current_temp (self w)) || is_none (current_condition (self w))).
  { injection E as <- <-. left. reflexivity. }
  unfold bind at 1 in E. unfold lift at 1 in E.
  destruct (get_condition_icon (current_condition (self w))) as [icon | e].
  2:{ injection E as <- <-. left. reflexivity. }
  unfold bind at 1 in E.
  match type of E with
  | (let (r, w') := ?c ?w0 in _) = _ =>
      assert (Hunit : exists r, c w0 = (r, w0))
  end.
  { destruct (use_imperial (self w)); unfold bind, lift, ret; [| eauto].
    destruct (celsius_to_fahrenheit (current_temp (self w))); eauto. }
  destruct Hunit as [[[display_temp unit] | e] Hunit]; rewrite Hunit in E.
  2:{ injection E as <- <-. left. reflexivity. }
  clear Hunit.
  unfold bind at 1 in E. unfold lift at 1 in E.
  destruct (format_temp display_temp) as [temp | e].
  2:{ injection E as <- <-. left. reflexivity. }
  unfold bind at 1 in E. unfold indicator_set_label at 1, modify_gtk at 1 in E.
  set (lbl := icon +:+ " " +:+ temp +:+ unit) in *.
  unfold bind at 1 in E. unfold lift at 1 in E.
  destruct (get_condition_description (current_condition (self w))) as [desc | e].
  2:{ injection E as <- <-. right; left. exists lbl, e. split; reflexivity. }
  unfold bind at 1 in E.
  set (txt := "Current: " +:+ icon +:+ " " +:+ desc +:+ ", " +:+ temp +:+ unit) in *.
  destruct (has_label (gtk w) (current_item (self w))) eqn:Hlab.
  2:{ rewrite update_monospace_menu_item_no_label in E by exact Hlab.
      injection E as <- <-. right; left. exists lbl, AttributeError.
      split; reflexivity. }
  rewrite update_monospace_menu_item_eq in E by exact Hlab.
  unfold bind at 1 in E. unfold get_gtk at 1 in E. cbn [gtk self] in E.
  unfold bind at 1 in E. rewrite remove_each in E. cbn [gtk self menu set_menu] in E.
  rewrite (filter_selected _ Nat.eqb) in E by apply Nat.eqb_eq.
  set (t2 := set_label_text _ _ _) in *.
  fold (kept (self w) t2) in E.
  set (t3 := set_menu (kept (self w) t2) t2) in *.
  unfold bind at 1 in E.
  destruct (forecast_loop_allocs (use_imperial (self w)) unit (forecast (self w))
              [] false (mk_world (self w) t3)) as (texts & Hw & Hitems).
  destruct (forecast_loop (use_imperial (self w)) unit (forecast (self w))
              ([], false) (mk_world (self w) t3)) as [[[items last] | e] w4];
    cbn [fst snd self gtk] in *.
  2:{ injection E as <- <-. right; right. exists lbl, txt, texts.
      split; [exact Hlab |]. right. exists e. split; [reflexivity |].
      rewrite Hw. reflexivity. }
  specialize (Hitems _ _ eq_refl). cbn [app] in Hitems. subst items w4.
  unfold bind at 1 in E. rewrite blank_if in E. cbn [self gtk] in E.
  unfold bind at 1 in E. rewrite insert_all_eq in E. cbn [self gtk] in E.
  unfold ret in E. injection E as <- <-. right; right.
  exists lbl, txt, (texts ++ (if last then [EmptyString] else [])).
  split; [exact Hlab |]. left. split; [reflexivity |].
  unfold render_world. fold t2. fold t3.
  rewrite alloc_items_app, length_app, seq_app.
  rewrite alloc_items_next.
  destruct (alloc_items_frame (if last then [EmptyString] else [])
              (alloc_items texts t3)) as (Hm & _ & _).
  destruct (alloc_items_frame texts t3) as (Hm' & _ & _).
  rewrite Hm, Hm'. reflexivity.
Qed.

(** ** What every render keeps *)

Section RenderWorld.
Variables (w : world) (lbl txt : string) (texts : list string) (ins : bool).

Lemma kept_render_world :
    kept (self w)
      (set_label_text (current_item (self w)) txt
         (set_indicator_label lbl (gtk w)))
    = kept (self w) (gtk w).
  Proof.
    unfold kept.
    rewrite menu_set_label_text. cbn [menu set_indicator_label].
    apply List.filter_ext. intros i. rewrite to_remove_set_label_text. reflexivity.
  Qed.

Lemma render_world_self : self (render_world lbl txt texts ins w) = self w.
  Proof. reflexivity. Qed.

Lemma render_world_idle : idle (gtk (render_world lbl txt texts ins w)) = idle (gtk w).
  Proof.
    unfold render_world. cbn [gtk].
    destruct ins; cbn [idle set_menu]; rewrite idle_alloc_items;
      cbn [idle set_menu]; rewrite idle_set_label_text; reflexivity.
  Qed.

Lemma render_world_next_widget :
    next_widget (gtk (render_world lbl txt texts ins w))
    = (next_widget (gtk w) + List.length texts)%nat.
  Proof.
    unfold render_world. cbn [gtk].
    destruct ins; cbn [next_widget set_menu]; rewrite alloc_items_next;
      cbn [next_widget set_menu]; rewrite next_widget_set_label_text; reflexivity.
  Qed.

Lemma render_world_menu :
    menu (gtk (render_world lbl txt texts ins w))
    = if ins
      then firstn 3 (kept (self w) (gtk w))
           ++ seq (next_widget (gtk w)) (List.length texts)
           ++ skipn 3 (kept (self w) (gtk w))
      else kept (self w) (gtk w).
  Proof.
    unfold render_world. cbn [gtk]. rewrite kept_render_world.
    destruct ins; cbn [menu set_menu].
    - rewrite next_widget_set_label_text. reflexivity.
    - destruct (alloc_items_frame texts
                  (set_menu (kept (self w) (gtk w))
                     (set_label_text (current_item (self w)) txt
                        (set_indicator_label lbl (gtk w))))) as (Hm & _ & _).
      rewrite Hm. reflexivity.
  Qed.

Lemma render_world_widget_old (i : nat) :
    (i < next_widget (gtk w))%nat ->
    i <> current_item (self w) ->
    widgets (gtk (render_world lbl txt texts ins w)) !! i = widgets (gtk w) !! i.
  Proof.
    intros Hi Hne. unfold render_world. cbn [gtk].
    assert (H : forall m t, widgets (if ins then set_menu m t else t) = widgets t)
      by (intros; destruct ins; reflexivity).
    rewrite H. rewrite alloc_items_lookup_old.
    - cbn [widgets set_menu]. unfold set_label_text.
      destruct (widgets _ !! current_item (self w)); cbn; [| reflexivity].
      rewrite lookup_insert_ne by congruence. reflexivity.
    - cbn [next_widget set_menu]. rewrite next_widget_set_label_text. exact Hi.
  Qed.

Lemma render_world_label_current :
    has_label (gtk w) (current_item (self w)) = true ->
    (current_item (self w) < next_widget (gtk w))%nat ->
    label_of (gtk (render_world lbl txt texts ins w)) (current_item (self w))
    = Some txt.
  Proof.
    intros Hlab Hcur. unfold render_world. cbn [gtk].
    assert (H : forall m t i, label_of (if ins then set_menu m t else t) i
                              = label_of t i)
      by (intros; destruct ins; reflexivity).
    rewrite H, label_of_alloc_old, label_of_set_menu.
    - rewrite label_of_set_label_text, Nat.eqb_refl.
      unfold has_label, label_of in Hlab. cbn [widgets set_indicator_label].
      destruct (widgets (gtk w) !! current_item (self w)); [reflexivity | discriminate].
    - cbn [next_widget set_menu]. rewrite next_widget_set_label_text. exact Hcur.
  Qed.

Lemma render_world_menu_fresh :
    Forall (fun i => (i < next_widget (gtk w))%nat) (menu (gtk w)) ->
    Forall (fun i => (i < next_widget (gtk (render_world lbl txt texts ins w)))%nat)
           (menu (gtk (render_world lbl txt texts ins w))).
  Proof.
    intros Hmenu. rewrite render_world_next_widget, render_world_menu.
    pose proof (kept_old (self w) (gtk w) _ Hmenu) as Hk.
    assert (Hk' : Forall (fun i => (i < next_widget (gtk w) + List.length texts)%nat)
                         (kept (self w) (gtk w))).
    { eapply List.Forall_impl; [| exact Hk]. cbn. intros; lia. }
    destruct ins; [| exact Hk'].
    rewrite <- (firstn_skipn 3 (kept (self w) (gtk w))) in Hk'.
    apply Forall_app in Hk' as [H1 H2].
    apply Forall_app. split; [exact H1 |]. apply Forall_app. split; [| exact H2].
    apply List.Forall_forall. intros i Hi. apply in_seq in Hi. lia.
  Qed.

Lemma render_world_old_other_children :
    Forall (fun i => (i < next_widget (gtk w))%nat) (menu (gtk w)) ->
    old_other_children w (render_world lbl txt texts ins w)
    = kept (self w) (gtk w).
  Proof.
    intros Hmenu. unfold old_other_children. rewrite render_world_menu.
    pose proof (kept_old (self w) (gtk w) _ Hmenu) as Hk.
    assert (Hall : forall l,
      Forall (fun i => (i < next_widget (gtk w))%nat) l ->
      Forall (fun i => to_remove (self w) (gtk w) i = false) l ->
      List.filter (fun i => Nat.ltb i (next_widget (gtk w))
                            && negb (to_remove (self w) (gtk w) i)) l = l).
    { induction l as [| x l IH]; intros H1 H2; [reflexivity |].
      inversion H1 as [| ? ? Hx H1']; subst.
      inversion H2 as [| ? ? Hr H2']; subst. cbn [List.filter].
      apply Nat.ltb_lt in Hx. rewrite Hx, Hr. cbn [negb andb].
      f_equal. apply IH; assumption. }
    assert (Hnot : Forall (fun i => to_remove (self w) (gtk w) i = false)
                          (kept (self w) (gtk w))).
    { apply List.Forall_forall. intros i Hi. apply kept_not_removed. exact Hi. }
    destruct ins; [| apply Hall; assumption].
    rewrite !List.filter_app.
    assert (Hnew : List.filter
                     (fun i => Nat.ltb i (next_widget (gtk w))
                               && negb (to_remove (self w) (gtk w) i))
                     (seq (next_widget (gtk w)) (List.length texts)) = []).
    { apply filter_none. intros i Hi. apply in_seq in Hi.
      destruct (Nat.ltb_spec i (next_widget (gtk w))); [lia | reflexivity]. }
    rewrite Hnew. cbn [app]. rewrite <- List.filter_app, firstn_skipn.
    apply Hall; assumption.
  Qed.
End RenderWorld.

Lemma old_other_children_same_menu (w w' : world) :
  Forall (fun i => (i < next_widget (gtk w))%nat) (menu (gtk w)) ->
  menu (gtk w') = menu (gtk w) ->
  old_other_children w w' = kept (self w) (gtk w).
Proof.
  intros Hmenu Hm. unfold old_other_children, kept. rewrite Hm.
  apply List.filter_ext_in. intros i Hi.
  rewrite List.Forall_forall in Hmenu. specialize (Hmenu i Hi).
  apply Nat.ltb_lt in Hmenu. rewrite Hmenu. reflexivity.
Qed.

Lemma render_outcome_menu (w : world) (r : result bool) (w' : world) :
  render_outcome w r w' ->
  menu (gtk w') = menu (gtk w)
  \/ menu (gtk w') = kept (self w) (gtk w)
  \/ exists n, menu (gtk w')
               = firstn 3 (kept (self w) (gtk w))
                 ++ seq (next_widget (gtk w)) n
                 ++ skipn 3 (kept (self w) (gtk w)).
Proof.
  intros [-> | [(lbl & e & _ & ->) | (lbl & txt & texts & _ & H)]].
  - left. reflexivity.
  - left. reflexivity.
  - destruct H as [[_ ->] | (e & _ & ->)]; rewrite render_world_menu.
    + right; right. eexists. reflexivity.
    + right; left. reflexivity.
Qed.

(** X14: a render never takes out nor reorders a child of the menu
    that is not a forecast row, whether it returns or raises: the
    children from before the render that fail the removal test are,
    after it, the same in the same order; and every child from before
    the render that is in the menu after it was in the menu before. *)
Theorem X14_render_keeps_other_children (w : world) :
  wf w = true ->
  let w' := snd (update_weather_ui w) in
  List.filter (fun i => Nat.ltb i (next_widget (gtk w))
                        && negb (to_remove (self w) (gtk w) i))
              (menu (gtk w'))
  = List.filter (fun i => negb (to_remove (self w) (gtk w) i)) (menu (gtk w))
  /\ forall i, In i (menu (gtk w')) -> (i < next_widget (gtk w))%nat ->
               In i (menu (gtk w)).
Proof.
  intros Hwf. cbn zeta.
  destruct (wf_fields w Hwf) as (_ & Hmenu & _ & _).
  pose proof (update_weather_ui_outcome w) as Hout. split.
  - fold (old_other_children w (snd (update_weather_ui w))).
    fold (kept (self w) (gtk w)).
    destruct Hout as [-> | [(lbl & e & _ & ->) | (lbl & txt & texts & _ & H)]].
    + apply old_other_children_same_menu; [exact Hmenu | reflexivity].
    + apply old_other_children_same_menu; [exact Hmenu | reflexivity].
    + destruct H as [[_ ->] | (e & _ & ->)];
        apply render_world_old_other_children; exact Hmenu.
  - intros i Hi Hold.
    assert (Hkept : forall j, In j (kept (self w) (gtk w)) -> In j (menu (gtk w))).
    { intros j Hj. apply List.filter_In in Hj. tauto. }
    destruct (render_outcome_menu _ _ _ Hout) as [Hm | [Hm | (n & Hm)]];
      rewrite Hm in Hi.
    + exact Hi.
    + apply Hkept. exact Hi.
    + apply Hkept. rewrite <- (firstn_skipn 3 (kept (self w) (gtk w))).
      apply in_app_or in Hi as [Hi | Hi]; [apply in_or_app; left; exact Hi |].
      apply in_app_or in Hi as [Hi | Hi]; [| apply in_or_app; right; exact Hi].
      apply in_seq in Hi. lia.
Qed.

Lemma X14_witness :
  wf wednesday_world = true
  /\ List.filter (fun i => Nat.ltb i (next_widget (gtk wednesday_world))
                           && negb (to_remove (self wednesday_world)
                                      (gtk wednesday_world) i))
                 (menu (gtk (snd (update_weather_ui wednesday_world))))
     = List.filter (fun i => negb (to_remove (self wednesday_world)
                                     (gtk wednesday_world) i))
                   (menu (gtk wednesday_world)).
Proof.
  split; [exact wf_wednesday |].
  exact (proj1 (X14_render_keeps_other_children wednesday_world wf_wednesday)).
Defined.

(** X15: a render changes no widget that existed before it other than
    the current-weather item: every other item keeps its label text,
    its class and its sensitivity, whether the render returns or
    raises. *)
Theorem X15_render_changes_only_current_item (w : world) (i : nat) :
  (i < next_widget (gtk w))%nat ->
  i <> current_item (self w) ->
  widgets (gtk (snd (update_weather_ui w))) !! i = widgets (gtk w) !! i.
Proof.
  intros Hi Hne.
  destruct (update_weather_ui_outcome w)
    as [-> | [(lbl & e & _ & ->) | (lbl & txt & texts & _ & H)]];
    try reflexivity.
  destruct H as [[_ ->] | (e & _ & ->)];
    apply render_world_widget_old; assumption.
Qed.

Lemma X15_witness :
  ((0 < next_widget (gtk wednesday_world))%nat
   /\ 0%nat <> current_item (self wednesday_world))
  /\ widgets (gtk (snd (update_weather_ui wednesday_world))) !! 0%nat
     = widgets (gtk wednesday_world) !! 0%nat.
Proof.
  assert (H1 : (0 < next_widget (gtk wednesday_world))%nat)
    by (vm_compute; lia).
  assert (H2 : 0%nat <> current_item (self wednesday_world))
    by (vm_compute; discriminate).
  split; [split; assumption |].
  exact (X15_render_changes_only_current_item wednesday_world 0%nat H1 H2).
Defined.

Lemma wf_intro (w : world) :
  has_label (gtk w) (current_item (self w)) = true ->
  Forall (fun i => (i < next_widget (gtk w))%nat) (menu (gtk w)) ->
  (current_item (self w) < next_widget (gtk w))%nat ->
  (location_item (self w) < next_widget (gtk w))%nat ->
  wf w = true.
Proof.
  intros H1 H2 H3 H4. unfold wf. rewrite H1. cbn [andb].
  apply andb_true_intro. split; [apply andb_true_intro; split |].
  - apply forallb_forall. intros i Hi. apply Nat.ltb_lt.
    rewrite List.Forall_forall in H2. exact (H2 i Hi).
  - apply Nat.ltb_lt. exact H3.
  - apply Nat.ltb_lt. exact H4.
Qed.

Lemma render_world_wf (w : world) (lbl txt : string) (texts : list string)
    (ins : bool) :
  wf w = true -> wf (render_world lbl txt texts ins w) = true.
Proof.
  intros Hwf. destruct (wf_fields w Hwf) as (Hlab & Hmenu & Hcur & Hloc).
  apply wf_intro.
  - unfold has_label. rewrite render_world_self.
    rewrite render_world_label_current by assumption. reflexivity.
  - apply render_world_menu_fresh. exact Hmenu.
  - rewrite render_world_self, render_world_next_widget. lia.
  - rewrite render_world_self, render_world_next_widget. lia.
Qed.

Lemma update_weather_ui_wf (w : world) :
  wf w = true -> wf (snd (update_weather_ui w)) = true.
Proof.
  intros Hwf.
  destruct (update_weather_ui_outcome w)
    as [-> | [(lbl & e & _ & ->) | (lbl & txt & texts & _ & H)]].
  - exact Hwf.
  - exact Hwf.
  - destruct H as [[_ ->] | (e & _ & ->)]; apply render_world_wf; exact Hwf.
Qed.

(** ** Invariants of the main loop and of the update thread *)

Section Invariant.
Variable P : world -> Prop.
Variable ok : ui_event -> bool.
Hypothesis P_step : forall w e, ok e = true -> P w -> P (ui_step w e).
Hypothesis P_fetch : forall net w, P w -> P (snd (update_weather_data net w)).
Hypothesis P_queue : forall cb w, P w -> P (snd (idle_add cb w)).

Lemma ui_steps_inv (es : list ui_event) :
    forall w, forallb ok es = true -> P w -> P (ui_steps es w).
  Proof.
    induction es as [| e es IH]; intros w Hok Hw; [exact Hw |].
    cbn in Hok. apply andb_prop in Hok as [He Hes].
    cbn. apply IH; [exact Hes |]. apply P_step; assumption.
  Qed.

Lemma sleep_loop_inv (n : nat) :
    forall ticks w,
      forallb ok (concat ticks) = true -> P w -> P (snd (sleep_loop n ticks w)).
  Proof.
    induction n as [| n IH]; intros ticks w Hok Hw; [exact Hw |].
    cbn [sleep_loop].
    assert (Hhd : forallb ok (hd [] ticks) = true
                  /\ forallb ok (concat (tl ticks)) = true).
    { destruct ticks as [| t ticks]; [split; reflexivity |].
      cbn in Hok. rewrite forallb_app in Hok. apply andb_prop in Hok. exact Hok. }
    destruct Hhd as [Hhd Htl].
    pose proof (ui_steps_inv (hd [] ticks) w Hhd Hw) as Hw1.
    destruct (negb (running (self (ui_steps (hd [] ticks) w)))); [exact Hw1 |].
    specialize (IH (tl ticks) _ Htl Hw1).
    destruct (sleep_loop n (tl ticks) (ui_steps (hd [] ticks) w)). exact IH.
  Qed.

Lemma while_running_inv (cycles : list cycle) :
    forall w,
      forallb (fun c => forallb ok (cycle_events c)) cycles = true ->
      P w -> P (snd (while_running cycles w)).
  Proof.
    induction cycles as [| c cs IH]; intros w Hok Hw; [exact Hw |].
    cbn in Hok. apply andb_prop in Hok as [Hc Hcs].
    unfold cycle_events in Hc. rewrite !forallb_app in Hc.
    apply andb_prop in Hc as [H1 Hc]. apply andb_prop in Hc as [H2 Hc].
    apply andb_prop in Hc as [H3 H4].
    cbn [while_running].
    pose proof (ui_steps_inv _ w H1 Hw) as Hw0.
    destruct (negb (running (self (ui_steps (before_check c) w)))); [exact Hw0 |].
    pose proof (ui_steps_inv _ _ H2 Hw0) as Hw1.
    pose proof (P_fetch (response c) _ Hw1) as Hw2.
    destruct (update_weather_data (response c)
                (ui_steps (during_request c) (ui_steps (before_check c) w)))
      as [[b | e] w2]; cbn [snd] in *; [| exact Hw2].
    set (w3 := if b then snd (idle_add CbUpdateWeatherUI w2) else w2).
    assert (Hw3 : P w3) by (unfold w3; destruct b; [apply P_queue |]; exact Hw2).
    pose proof (ui_steps_inv _ _ H3 Hw3) as Hw4.
    pose proof (sleep_loop_inv
                  (Z.to_nat (update_interval (self (ui_steps (before_wait c) w3)) * 60))
                  (during_wait c) _ H4 Hw4) as Hw5.
    destruct (sleep_loop _ (during_wait c) (ui_steps (before_wait c) w3)) as [k w5].
    cbn [snd] in Hw5. specialize (IH w5 Hcs Hw5).
    destruct (while_running cs w5). exact IH.
  Qed.
End Invariant.

Lemma same_layout_refl (w : world) : same_layout w w.
Proof. repeat split. Qed.

Lemma same_layout_trans (w1 w2 w3 : world) :
  same_layout w1 w2 -> same_layout w2 w3 -> same_layout w1 w3.
Proof.
  unfold same_layout. intros (A1 & A2 & A3 & A4 & A5 & A6) (B1 & B2 & B3 & B4 & B5 & B6).
  repeat split; congruence.
Qed.

Lemma get_location_from_ip_layout (net : http_outcome) :
  preserves same_layout (get_location_from_ip net).
Proof.
  unfold get_location_from_ip. fields same_layout_refl same_layout_trans.
Qed.

Lemma update_weather_data_layout (net : http_outcome) :
  preserves same_layout (update_weather_data net).
Proof.
  unfold update_weather_data, get_weather_data, append_forecast, idle_add.
  fields same_layout_refl same_layout_trans.
Qed.

Lemma idle_add_layout (cb : callback) : preserves same_layout (idle_add cb).
Proof. unfold idle_add. fields same_layout_refl same_layout_trans. Qed.

Lemma refresh_weather_layout (nl nw : http_outcome) :
  preserves same_layout (refresh_weather nl nw).
Proof.
  unfold refresh_weather.
  apply (preserves_bind _ same_layout_trans); [apply get_location_from_ip_layout |].
  intros _.
  apply (preserves_bind _ same_layout_trans); [apply update_weather_data_layout |].
  intros [|]; [apply idle_add_layout | apply (preserves_ret _ same_layout_refl)].
Qed.

Lemma ui_step_layout (w : world) (e : ui_event) :
  is_idle e = false -> same_layout w (ui_step w e).
Proof.
  destruct e as [a i | a imp | nl nw | |]; cbn [ui_step is_idle]; intros H;
    try discriminate.
  - assert (Hp : preserves same_layout (on_interval_toggled a i)).
    { unfold on_interval_toggled. fields same_layout_refl same_layout_trans. }
    exact (Hp w).
  - assert (Hp : preserves same_layout (on_unit_toggled a imp)).
    { unfold on_unit_toggled, idle_add.
      apply (preserves_bind _ same_layout_trans);
        [apply (preserves_get_self _ same_layout_refl) |].
      intros me. destruct (a && negb (Bool.eqb imp (use_imperial me)));
        fields same_layout_refl same_layout_trans. }
    exact (Hp w).
  - apply refresh_weather_layout.
  - assert (Hp : preserves same_layout quit).
    { unfold quit. fields same_layout_refl same_layout_trans. }
    exact (Hp w).
Qed.

Lemma wf_same_layout (w w' : world) : same_layout w w' -> wf w' = wf w.
Proof.
  intros (H1 & H2 & H3 & _ & H5 & H6). unfold wf, has_label, label_of.
  rewrite H1, H2, H3, H5, H6. reflexivity.
Qed.

Lemma wf_rows_same_layout (w w' : world) : same_layout w w' -> wf_rows w' = wf_rows w.
Proof.
  intros H. unfold wf_rows. rewrite (wf_same_layout w w' H).
  destruct H as (H1 & _ & _ & _ & H5 & _). unfold has_label, label_of.
  rewrite H1, H5. reflexivity.
Qed.

(** X16: without idle callbacks, neither the update thread nor the
    handlers touch a widget.  Through a whole run of the thread, with
    any requests and any user actions in between (interval, unit,
    refresh, quit) but no dispatch of the idle queue, the widgets, the
    children of the menu and the indicator label stay as they were:
    every change of the display is made by a queued callback. *)
Theorem X16_display_changes_only_in_idle_callbacks
    (net : http_outcome) (cycles : list cycle) (w : world) :
  forallb (fun c => no_idle (cycle_events c)) cycles = true ->
  same_widgets w (snd (update_weather_loop net cycles w)).
Proof.
  intros Hok. unfold update_weather_loop.
  assert (H : same_layout w (snd (while_running cycles
                                    (snd (get_location_from_ip net w))))).
  { apply (while_running_inv (same_layout w) (fun e => negb (is_idle e))).
    - intros w1 e He Hw1. apply (same_layout_trans _ w1); [exact Hw1 |].
      apply ui_step_layout. destruct (is_idle e); [discriminate | reflexivity].
    - intros nw w1 Hw1. apply (same_layout_trans _ w1); [exact Hw1 |].
      apply update_weather_data_layout.
    - intros cb w1 Hw1. apply (same_layout_trans _ w1); [exact Hw1 |].
      apply idle_add_layout.
    - exact Hok.
    - apply get_location_from_ip_layout. }
  destruct H as (H1 & H2 & H3 & H4 & _). repeat split; assumption.
Qed.

Lemma X16_witness :
  forallb (fun c => no_idle (cycle_events c)) schedule_pick_30 = true
  /\ same_widgets initial_world
       (snd (update_weather_loop response_two_days schedule_pick_30 initial_world)).
Proof.
  assert (H : forallb (fun c => no_idle (cycle_events c)) schedule_pick_30 = true)
    by reflexivity.
  split; [exact H |].
  exact (X16_display_changes_only_in_idle_callbacks
           response_two_days schedule_pick_30 initial_world H).
Defined.

(** ** Well-formed states *)

Lemma wf_rows_fields (w : world) :
  wf_rows w = true ->
  wf w = true /\ has_label (gtk w) (location_item (self w)) = true.
Proof. unfold wf_rows. intros H. apply andb_prop in H. exact H. Qed.

Lemma has_label_set_label_text (i : nat) (text : string) (t : toolkit) (j : nat) :
  has_label t j = true -> has_label (set_label_text i text t) j = true.
Proof.
  unfold has_label. rewrite label_of_set_label_text.
  destruct (Nat.eqb_spec j i) as [-> | Hne]; [| tauto].
  unfold label_of. destruct (widgets t !! i); [reflexivity | discriminate].
Qed.

Lemma wf_rows_set_label_text (i : nat) (text : string) (w : world) :
  wf_rows w = true ->
  wf_rows (mk_world (self w) (set_label_text i text (gtk w))) = true.
Proof.
  intros H. destruct (wf_rows_fields w H) as [Hwf Hloc].
  destruct (wf_fields w Hwf) as (Hlab & Hmenu & Hcur & Hl).
  unfold wf_rows. apply andb_true_intro. split.
  - apply wf_intro; cbn [self gtk];
      rewrite ?menu_set_label_text, ?next_widget_set_label_text; try assumption.
    apply has_label_set_label_text. exact Hlab.
  - cbn [self gtk]. apply has_label_set_label_text. exact Hloc.
Qed.

Lemma update_location_item_eq (w : world) :
  has_label (gtk w) (location_item (self w)) = true ->
  update_location_item w
  = (Ok false,
     mk_world (self w)
       (set_label_text (location_item (self w))
          ("Location: " +:+ location_name (self w)) (gtk w))).
Proof.
  intros H. unfold update_location_item. unfold bind at 1. unfold get_self at 1.
  unfold bind. rewrite update_monospace_menu_item_eq by exact H. reflexivity.
Qed.

Lemma update_location_item_wf_rows (w : world) :
  wf_rows w = true -> wf_rows (snd (update_location_item w)) = true.
Proof.
  intros H. destruct (wf_rows_fields w H) as [_ Hloc].
  rewrite (update_location_item_eq w Hloc). cbn [snd].
  apply wf_rows_set_label_text. exact H.
Qed.

Lemma update_weather_ui_label_old (w : world) (i : nat) :
  (i < next_widget (gtk w))%nat ->
  i <> current_item (self w) ->
  label_of (gtk (snd (update_weather_ui w))) i = label_of (gtk w) i.
Proof.
  intros Hi Hne. unfold label_of.
  destruct (update_weather_ui_outcome w)
    as [-> | [(lbl & e & _ & ->) | (lbl & txt & texts & _ & H)]];
    try reflexivity.
  destruct H as [[_ ->] | (e & _ & ->)];
    rewrite render_world_widget_old by assumption; reflexivity.
Qed.

Lemma update_weather_ui_wf_rows (w : world) :
  wf_rows w = true -> wf_rows (snd (update_weather_ui w)) = true.
Proof.
  intros H. destruct (wf_rows_fields w H) as [Hwf Hloc].
  destruct (wf_fields w Hwf) as (_ & _ & _ & Hl).
  pose proof (update_weather_ui_wf w Hwf) as Hwf'.
  unfold wf_rows. rewrite Hwf'. cbn [andb].
  rewrite update_weather_ui_same_self.
  destruct (Nat.eq_dec (location_item (self w)) (current_item (self w))) as [Heq | Hne].
  - rewrite Heq. destruct (wf_fields _ Hwf') as (Hlab & _).
    rewrite update_weather_ui_same_self in Hlab. exact Hlab.
  - unfold has_label. rewrite update_weather_ui_label_old by assumption.
    exact Hloc.
Qed.

Lemma run_callback_wf_rows (cb : callback) (w : world) :
  wf_rows w = true -> wf_rows (run_callback cb w) = true.
Proof.
  destruct cb; cbn [run_callback].
  - apply update_location_item_wf_rows.
  - apply update_weather_ui_wf_rows.
Qed.

Lemma run_callbacks_wf_rows (l : list callback) :
  forall w, wf_rows w = true ->
            wf_rows (fold_left (fun w cb => run_callback cb w) l w) = true.
Proof.
  induction l as [| cb l IH]; intros w H; [exact H |].
  cbn [fold_left]. apply IH. apply run_callback_wf_rows. exact H.
Qed.

Lemma dispatch_idle_wf_rows (w : world) :
  wf_rows w = true -> wf_rows (dispatch_idle w) = true.
Proof.
  intros H. unfold dispatch_idle. apply run_callbacks_wf_rows. exact H.
Qed.

Lemma ui_step_wf_rows (w : world) (e : ui_event) :
  wf_rows w = true -> wf_rows (ui_step w e) = true.
Proof.
  intros H. destruct (is_idle e) eqn:He.
  - destruct e; try discriminate. cbn [ui_step].
    apply dispatch_idle_wf_rows. exact H.
  - rewrite (wf_rows_same_layout w _ (ui_step_layout w e He)). exact H.
Qed.

Lemma forallb_true {A} (l : list A) : forallb (fun _ => true) l = true.
Proof. induction l; [reflexivity | exact IHl]. Qed.

(** X17: well-formedness is an invariant.  From a well-formed state
    whose location item has a label child, every sequence of user
    actions and idle dispatches, every render, and every run of the
    update thread, with any responses and any actions in between,
    leaves a state of the same kind: identities below the next one,
    label children on the two items the object keeps.  The state the
    constructor builds is of this kind. *)
Theorem X17_well_formed_is_invariant
    (w : world) (es : list ui_event) (net : http_outcome) (cycles : list cycle) :
  wf_rows w = true ->
  wf_rows (ui_steps es w) = true
  /\ wf_rows (snd (update_weather_ui w)) = true
  /\ wf_rows (snd (update_weather_loop net cycles w)) = true
  /\ wf_rows initial_world = true.
Proof.
  intros H.
  assert (Hstep : forall w e, (fun _ : ui_event => true) e = true ->
                              wf_rows w = true -> wf_rows (ui_step w e) = true)
    by (intros w1 e _; apply ui_step_wf_rows).
  assert (Hfetch : forall net w, wf_rows w = true ->
                                 wf_rows (snd (update_weather_data net w)) = true).
  { intros nw w1 H1.
    rewrite (wf_rows_same_layout w1 _ (update_weather_data_layout nw w1)). exact H1. }
  assert (Hqueue : forall cb w, wf_rows w = true ->
                                wf_rows (snd (idle_add cb w)) = true).
  { intros cb w1 H1.
    rewrite (wf_rows_same_layout w1 _ (idle_add_layout cb w1)). exact H1. }
  split; [| split; [| split]].
  - apply (ui_steps_inv (fun w => wf_rows w = true) (fun _ => true) Hstep);
      [apply forallb_true | exact H].
  - apply update_weather_ui_wf_rows. exact H.
  - unfold update_weather_loop.
    apply (while_running_inv (fun w => wf_rows w = true) (fun _ => true)
             Hstep Hfetch Hqueue).
    + induction cycles as [| c cs IH]; [reflexivity |].
      cbn [forallb]. rewrite forallb_true. exact IH.
    + rewrite (wf_rows_same_layout w _ (get_location_from_ip_layout net w)).
      exact H.
  - vm_compute. reflexivity.
Qed.

Lemma X17_witness :
  wf_rows initial_world = true
  /\ wf_rows (snd (update_weather_loop response_two_days schedule_pick_30
                     initial_world)) = true.
Proof.
  assert (H : wf_rows initial_world = true) by (vm_compute; reflexivity).
  split; [exact H |].
  exact (proj1 (proj2 (proj2 (X17_well_formed_is_invariant
                                initial_world [] response_two_days
                                schedule_pick_30 H)))).
Defined.

(** ** The location row *)





(** ** Rendering again *)

Lemma render_times_typed (w : world) (tw : typed_weather) (n : nat) :
  decode_weather (self w) = Some tw ->
  wf w = true ->
  wf (render_times n w) = true
  /\ self (render_times n w) = self w
  /\ (n <> O -> display (render_times n w)
                = shown_display (use_imperial (self w)) tw).
Proof.
  intros Hdec Hwf. induction n as [| n IH].
  - cbn. repeat split; [exact Hwf | congruence].
  - destruct IH as (Hwfn & Hself & _).
    change (render_times (S n) w) with (snd (update_weather_ui (render_times n w))).
    assert (Hdecn : decode_weather (self (render_times n w)) = Some tw)
      by (rewrite Hself; exact Hdec).
    destruct (wf_fields _ Hwfn) as (Hlab & _).
    rewrite (update_weather_ui_typed _ tw Hdecn Hlab). cbn [snd].
    split; [apply rendered_wf; exact Hwfn |].
    split; [rewrite rendered_self; exact Hself |].
    intros _. rewrite (display_rendered _ tw Hwfn), Hself. reflexivity.
Qed.

(** X19: rendering the same data again shows the same display.  For a
    weather state at the data model's types, after one render any
    number of further renders leaves the indicator label, the current
    line and the forecast lines as the first render showed them. *)
Theorem X19_render_again_same_display
    (w : world) (tw : typed_weather) (n : nat) :
  decode_weather (self w) = Some tw ->
  wf w = true ->
  display (render_times (S n) w) = display (render_times 1 w)
  /\ display (render_times 1 w) = shown_display (use_imperial (self w)) tw.
Proof.
  intros Hdec Hwf.
  destruct (render_times_typed w tw (S n) Hdec Hwf) as (_ & _ & Hn).
  destruct (render_times_typed w tw 1 Hdec Hwf) as (_ & _ & H1).
  rewrite Hn, H1 by discriminate. split; reflexivity.
Qed.

Lemma X19_witness :
  (decode_weather (self wednesday_world) = Some wednesday_weather
   /\ wf wednesday_world = true)
  /\ display (render_times 3 wednesday_world)
     = display (render_times 1 wednesday_world).
Proof.
  split; [split; [exact decode_wednesday | exact wf_wednesday] |].
  exact (proj1 (X19_render_again_same_display wednesday_world wednesday_weather 2
                  decode_wednesday wf_wednesday)).
Defined.

(** ** Menu items and the constructor *)


Lemma placeholder_is_forecast_text (i : nat) :
  is_forecast_text (placeholder_text i) = true.
Proof. reflexivity. Qed.

(** X21: the menu the constructor builds.  Its children are the
    location item, the current-weather item, a separator, fifteen
    placeholders "Day 1: Loading..." to "Day 15: Loading...", a
    separator, the preferences, a separator, "Refresh Now" and "Quit";
    [forecast_items] lists the fifteen placeholders, and these are
    exactly the children the removal pass of a render takes, every
    placeholder text passing its test; the object starts running, in
    imperial units, with a 15 minute interval and no weather data. *)
Theorem X21_constructor_menu :
  menu_labels initial_world
  = [Some "Location: Detecting..."; Some "Current Weather: Loading..."; None]
    ++ map (fun i => Some (placeholder_text i)) (seq 0 15)
    ++ [None; Some "Preferences"; None; Some "Refresh Now"; Some "Quit"]
  /\ map (label_of (gtk initial_world)) (forecast_items (self initial_world))
     = map (fun i => Some (placeholder_text i)) (seq 0 15)
  /\ List.filter (to_remove (self initial_world) (gtk initial_world))
                 (menu (gtk initial_world))
     = forecast_items (self initial_world)
  /\ (forall i, is_forecast_text (placeholder_text i) = true)
  /\ label_of (gtk initial_world) (location_item (self initial_world))
     = Some "Location: Detecting..."
  /\ label_of (gtk initial_world) (current_item (self initial_world))
     = Some "Current Weather: Loading..."
  /\ (running (self initial_world) = true
      /\ use_imperial (self initial_world) = true
      /\ update_interval (self initial_world) = 15
      /\ current_temp (self initial_world) = VNone
      /\ current_condition (self initial_world) = VNone
      /\ forecast (self initial_world) = [])
  /\ idle (gtk initial_world) = [].
Proof.
  split; [vm_compute; reflexivity |].
  split; [vm_compute; reflexivity |].
  split; [vm_compute; reflexivity |].
  split; [exact placeholder_is_forecast_text |].
  split; [vm_compute; reflexivity |].
  split; [vm_compute; reflexivity |].
  split; [vm_compute; repeat split |].
  vm_compute; reflexivity.
Qed.

(** ** A forecast day without a temperature *)

Lemma forecast_loop_app (imp : bool) (unit : string) (l1 l2 : list forecast_day) :
  forall acc w,
    forecast_loop imp unit (l1 ++ l2) acc w
    = bind (forecast_loop imp unit l1 acc)
           (fun acc' => forecast_loop imp unit l2 acc') w.
Proof.
  induction l1 as [| d l1 IH]; intros acc w; cbn [app forecast_loop].
  - reflexivity.
  - unfold bind.
    destruct (forecast_step imp unit acc d w) as [[acc' | e] w']; [| reflexivity].
    rewrite IH. reflexivity.
Qed.

Lemma forecast_step_no_max (imp : bool) (unit : string) (acc : list nat)
    (last : bool) (d : forecast_day) (dt : date) (k : Z) (w : world) :
  fromisoformat (fd_date d) = Ok dt ->
  fd_condition d = VInt k ->
  fd_max_temp d = VNone ->
  fst (forecast_step imp unit (acc, last) d w) = Raise TypeError.
Proof.
  intros Hdate Hcode Hmax. unfold forecast_step.
  unfold bind at 1. unfold lift at 1. rewrite Hdate.
  unfold bind at 1.
  match goal with
  | |- context [(if ?b1 then ?x else if ?b2 then ?x else ret acc) w] =>
      replace ((if b1 then x else if b2 then x else ret acc) w)
        with ((if b1 || b2 then x else ret acc) w)
        by (destruct b1, b2; reflexivity)
  end.
  rewrite blank_if. rewrite Hcode, Hmax.
  destruct imp; reflexivity.
Qed.

Lemma update_weather_ui_head (w : world) (c : Float.t) (code : Z) :
  as_float (current_temp (self w)) = Some c ->
  current_condition (self w) = VInt code ->
  has_label (gtk w) (current_item (self w)) = true ->
  update_weather_ui w
  = bind (forecast_loop (use_imperial (self w)) (unit_suffix (use_imperial (self w)))
            (forecast (self w)) ([], false))
      (fun '(new_items, last_was_weekend) =>
         bind (if last_was_weekend
               then bind blank_separator
                      (fun separator => ret (new_items ++ [separator]))
               else ret new_items)
           (fun new_items => bind (insert_all new_items 3) (fun _ => ret false)))
      (mk_world (self w)
         (set_menu (kept (self w) (gtk w))
            (set_label_text (current_item (self w))
               (current_line (use_imperial (self w)) c code)
               (set_indicator_label (label_text (use_imperial (self w)) c code)
                  (gtk w))))).
Proof.
  intros Htemp Hcode Hlab.
  unfold update_weather_ui. unfold bind at 1. unfold get_self at 1.
  rewrite (as_float_not_none _ _ Htemp), Hcode. cbn [is_none orb].
  rewrite get_condition_icon_int, get_condition_description_int.
  unfold bind at 1. unfold lift at 1.
  set (imp := use_imperial (self w)).
  assert (Hunit :
    exists v,
      (if imp
       then bind (lift (celsius_to_fahrenheit (current_temp (self w))))
                 (fun f => ret (f, "°F"))
       else ret (current_temp (self w), "°C")) w
      = (Ok (v, unit_suffix imp), w)
      /\ format_temp v = Ok (Float.format_1f (shown imp c))).
  { destruct imp.
    - exists (VFloat (float_c2f c)).
      unfold bind, lift, ret. rewrite (as_float_c2f _ _ Htemp). split; reflexivity.
    - exists (current_temp (self w)). split; [reflexivity |].
      apply as_float_format. exact Htemp. }
  destruct Hunit as (v & Hunit & Hfmt).
  unfold bind at 1. rewrite Hunit. clear Hunit.
  unfold bind at 1. unfold lift at 1. rewrite Hfmt.
  unfold bind at 1. unfold indicator_set_label at 1, modify_gtk at 1.
  unfold bind at 1. unfold lift at 1.
  unfold bind at 1.
  rewrite update_monospace_menu_item_eq by exact Hlab.
  unfold bind at 1. unfold get_gtk at 1. cbn [gtk self].
  unfold bind at 1. rewrite remove_each. cbn [gtk self menu set_menu].
  rewrite (filter_selected _ Nat.eqb) by apply Nat.eqb_eq.
  match goal with
  | |- context [List.filter (fun x => negb (to_remove (self w) ?t x)) (menu ?t)] =>
      fold (kept (self w) t)
  end.
  fold (label_text imp c code). fold (current_line imp c code).
  rewrite kept_render_world. reflexivity.
Qed.

Lemma render_world_indicator_label (w : world) (lbl txt : string)
    (texts : list string) (ins : bool) :
  indicator_label (gtk (render_world lbl txt texts ins w)) = lbl.
Proof.
  unfold render_world. cbn [gtk].
  destruct ins; cbn [indicator_label set_menu]; rewrite indicator_label_alloc_items;
    cbn [indicator_label set_menu]; rewrite indicator_label_set_label_text;
    reflexivity.
Qed.

Lemma render_world_to_remove_old (w : world) (lbl txt : string)
    (texts : list string) (ins : bool) (i : nat) :
  (i < next_widget (gtk w))%nat ->
  to_remove (self w) (gtk (render_world lbl txt texts ins w)) i
  = to_remove (self w) (gtk w) i.
Proof.
  intros Hi. unfold to_remove.
  destruct (Nat.eqb_spec i (current_item (self w))) as [-> | Hne];
    [rewrite !orb_true_r; reflexivity |].
  rewrite render_world_widget_old by assumption. reflexivity.
Qed.

Lemma forecast_lines_not_inserted (w : world) (lbl txt : string)
    (texts : list string) :
  Forall (fun i => (i < next_widget (gtk w))%nat) (menu (gtk w)) ->
  forecast_lines (render_world lbl txt texts false w) = [].
Proof.
  intros Hmenu. unfold forecast_lines.
  rewrite render_world_menu, render_world_self.
  rewrite filter_none; [reflexivity |].
  intros i Hi.
  pose proof (kept_old (self w) (gtk w) _ Hmenu) as Hk.
  rewrite List.Forall_forall in Hk.
  rewrite render_world_to_remove_old by (apply Hk; exact Hi).
  apply kept_not_removed. exact Hi.
Qed.

(** X22: one forecast day without a maximum blanks the whole forecast.
    With current conditions at the data model's types and a forecast
    whose days are well-typed up to a day whose maximum is [None], the
    render raises [TypeError] after it has replaced the indicator label
    and the current line and removed the forecast rows: no forecast
    line is on display afterwards, not even for the days before that
    day, and the menu holds what is not a forecast row. *)
Theorem X22_day_without_maximum_blanks_forecast
    (w : world) (c : Float.t) (code : Z)
    (pre post : list forecast_day) (tds : list typed_day)
    (d : forecast_day) (dt : date) (k : Z) :
  wf w = true ->
  as_float (current_temp (self w)) = Some c ->
  current_condition (self w) = VInt code ->
  forecast (self w) = pre ++ d :: post ->
  decode_forecast pre = Some tds ->
  fromisoformat (fd_date d) = Ok dt ->
  fd_condition d = VInt k ->
  fd_max_temp d = VNone ->
  let w' := snd (update_weather_ui w) in
  fst (update_weather_ui w) = Raise TypeError
  /\ indicator_label (gtk w') = label_text (use_imperial (self w)) c code
  /\ label_of (gtk w') (current_item (self w))
     = Some (current_line (use_imperial (self w)) c code)
  /\ menu (gtk w') = kept (self w) (gtk w)
  /\ forecast_lines w' = [].
Proof.
  intros Hwf Htemp Hcode Hf Hpre Hdate Hk Hmax. cbn zeta.
  destruct (wf_fields w Hwf) as (Hlab & Hmenu & Hcur & _).
  set (imp := use_imperial (self w)).
  assert (Hrun : exists texts,
    update_weather_ui w
    = (Raise TypeError,
       render_world (label_text imp c code) (current_line imp c code)
                    texts false w)).
  { rewrite (update_weather_ui_head w c code Htemp Hcode Hlab). fold imp.
    unfold bind at 1. rewrite Hf, forecast_loop_app.
    unfold bind at 1.
    rewrite (forecast_loop_typed imp pre tds [] false _ Hpre).
    cbn [forecast_loop]. unfold bind at 1.
    match goal with
    | |- context [forecast_step imp ?u ?acc d ?w1] =>
        pose proof (forecast_step_no_max imp u (fst acc) (snd acc) d dt k w1
                      Hdate Hk Hmax) as Hr;
        destruct (forecast_step_allocs imp u (fst acc) (snd acc) d w1)
          as (texts & Hw1 & _);
        cbn [fst snd] in Hr, Hw1;
        destruct (forecast_step imp u acc d w1) as [r wd]
    end.
    cbn [fst snd] in Hr, Hw1. subst r wd.
    exists (body_rows imp tds false ++ texts).
    unfold render_world. fold imp. rewrite kept_render_world.
    cbn [self gtk]. rewrite alloc_items_app. reflexivity. }
  destruct Hrun as (texts & Hrun). rewrite Hrun. cbn [fst snd].
  split; [reflexivity |].
  split; [apply render_world_indicator_label |].
  split; [apply render_world_label_current; assumption |].
  split; [apply render_world_menu |].
  apply forecast_lines_not_inserted. exact Hmenu.
Qed.

Lemma X22_witness :
  fst (update_weather_ui null_day_world) = Raise TypeError
  /\ forecast_lines (snd (update_weather_ui null_day_world)) = [].
Proof.
  assert (H1 : wf null_day_world = true) by (vm_compute; reflexivity).
  assert (H2 : as_float (current_temp (self null_day_world))
               = Some (Float.of_Z 20)) by reflexivity.
  assert (H3 : current_condition (self null_day_world) = VInt 0) by reflexivity.
  assert (H4 : forecast (self null_day_world)
               = firstn 2 fifteen_days ++ day_without_maximum
                 :: skipn 3 fifteen_days) by reflexivity.
  assert (H5 : exists tds, decode_forecast (firstn 2 fifteen_days) = Some tds).
  { destruct (decode_forecast (firstn 2 fifteen_days)) as [tds |] eqn:E;
      [exists tds; reflexivity |].
    vm_compute in E. discriminate. }
  destruct H5 as [tds H5].
  assert (H6 : exists dt, fromisoformat (fd_date day_without_maximum) = Ok dt).
  { destruct (fromisoformat (fd_date day_without_maximum)) as [dt |] eqn:E;
      [exists dt; reflexivity |].
    vm_compute in E. discriminate. }
  destruct H6 as [dt H6].
  destruct (X22_day_without_maximum_blanks_forecast
              null_day_world (Float.of_Z 20) 0 _ _ tds day_without_maximum dt 3
              H1 H2 H3 H4 H5 H6 eq_refl eq_refl) as (Hr & _ & _ & _ & Hl).
  split; assumption.
Defined.

(** X23: the location row is refreshed only through a forecast fetch.
    When [refresh_weather] finds no usable forecast body (the value
    [get_weather_data] returns is falsy), nothing is queued: with an
    empty idle queue before, the toolkit after the refresh and a
    dispatch of the queue is the one before, so the location row still
    shows the earlier text, while the attributes are the ones the
    location lookup left, a newly resolved location included. *)
Theorem X23_refresh_without_forecast_keeps_display
    (nl nw : http_outcome) (w : world) :
  idle (gtk w) = [] ->
  truthy (weather_body nw) = false ->
  dispatch_idle (snd (refresh_weather nl nw w))
  = mk_world (self (snd (get_location_from_ip nl w))) (gtk w).
Proof.
  intros Hidle Hbody.
  assert (Hg : gtk (snd (get_location_from_ip nl w)) = gtk w).
  { assert (Hp : preserves same_gtk (get_location_from_ip nl)).
    { unfold get_location_from_ip. fields same_gtk_refl same_gtk_trans. }
    exact (Hp w). }
  assert (Hr : exists b, fst (get_location_from_ip nl w) = Ok b).
  { unfold get_location_from_ip. apply try_except_ret_returns. }
  destruct Hr as [b Hb].
  unfold refresh_weather, bind.
  destruct (get_location_from_ip nl w) as [r1 w1]. cbn [fst snd] in *. subst r1.
  rewrite (update_weather_data_no_data nw w1 Hbody).
  unfold ret. cbn [snd]. unfold dispatch_idle. rewrite Hg, Hidle.
  cbn [fold_left]. rewrite (set_idle_nil _ Hidle). reflexivity.
Qed.

Lemma X23_witness :
  (idle (gtk initial_world) = []
   /\ truthy (weather_body ConnectionFailed) = false)
  /\ dispatch_idle
       (snd (refresh_weather (Response 200 (Some (VDict ipinfo_seattle)))
               ConnectionFailed initial_world))
     = mk_world
         (self (snd (get_location_from_ip
                       (Response 200 (Some (VDict ipinfo_seattle)))
                       initial_world)))
         (gtk initial_world).
Proof.
  assert (H1 : idle (gtk initial_world) = []) by (vm_compute; reflexivity).
  assert (H2 : truthy (weather_body ConnectionFailed) = false) by reflexivity.
  split; [split; assumption |].
  exact (X23_refresh_without_forecast_keeps_display _ ConnectionFailed
           initial_world H1 H2).
Defined.
